(** * BPlayblast: the playblast controller of [main.py]

    A shallow embedding of class [BPlayblast] (configuration setters and
    resolvers, the [execute] pipeline and the h264 encoder invocation) and
    the properties of it that the specification states.

    Conventions of the embedding.
    - A method of the class is a computation in the monad [M]: it reads and
      updates a [World] (the instance attributes, the Maya host, the two
      log streams and the trace of host commands) and either returns a
      value or raises a Python exception.
    - Python [float] values are modelled by the rationals they denote
      ([Q]); binary64 rounding is outside the model.
    - Maya, Qt, the file system and the [os.path] helpers are external:
      their answers are fields of [Host].  [cmds.playblast] writes files
      or raises, and the encoder process ends: the polling loop of
      [execute_ffmpeg_cmd] is not a source of non-termination here. *)

From Stdlib Require Import String Ascii List ZArith QArith Bool Lia.
From Stdlib Require Import DecimalString.
Import ListNotations.

Open Scope string_scope.
Open Scope Z_scope.

(* ------------------------------------------------------------------ *)
(** * Python strings *)

Module PyStr.

(** [s.endswith(suffix)] *)
Definition endswith (s suffix : string) : bool :=
  let n := String.length s in
  let k := String.length suffix in
  (k <=? n)%nat && String.eqb (substring (n - k) k s) suffix.

(** [s[0:-k]] *)
Definition drop_last (k : nat) (s : string) : string :=
  substring 0 (String.length s - k) s.

(** [sub in s] *)
Fixpoint contains (sub s : string) : bool :=
  prefix sub s ||
  match s with
  | EmptyString => false
  | String _ s' => contains sub s'
  end.

(** [s.replace(old, new)] for a non-empty [old]: the occurrences are
    replaced from the left and do not overlap; [skip] counts the
    characters of a matched occurrence still to be dropped. *)
Fixpoint replace_from (skip : nat) (old new s : string) : string :=
  match s with
  | EmptyString => EmptyString
  | String c s' =>
      match skip with
      | S k => replace_from k old new s'
      | O =>
          if prefix old s
          then new ++ replace_from (String.length old - 1) old new s'
          else String c (replace_from 0 old new s')
      end
  end.

Definition replace (old new s : string) : string :=
  replace_from 0 old new s.

(** Truth value of a string, and of a value that may be [None]. *)
Definition truthy (s : string) : bool := negb (String.eqb s "").

Definition truthy_opt (o : option string) : bool :=
  match o with
  | Some s => truthy s
  | None => false
  end.

(** [x in l] for a list of strings. *)
Definition mem (x : string) (l : list string) : bool :=
  existsb (String.eqb x) l.

(** [x in l] where [x] may be [None]: [None] is no string. *)
Definition mem_opt (x : option string) (l : list string) : bool :=
  match x with
  | Some s => mem s l
  | None => false
  end.

(** [str(n)] for an integer. *)
Definition of_int (n : Z) : string := NilZero.string_of_int (Z.to_int n).

(** [repr(l)] for a list of strings without quotes or backslashes. *)
Fixpoint repr_items (l : list string) : string :=
  match l with
  | [] => ""
  | [x] => "'" ++ x ++ "'"
  | x :: rest => "'" ++ x ++ "', " ++ repr_items rest
  end.

Definition repr_list (l : list string) : string := "[" ++ repr_items l ++ "]".

(** [s] between double quotes. *)
Definition dquote : string := String (ascii_of_nat 34) EmptyString.

Definition quoted (s : string) : string := dquote ++ s ++ dquote.

(** [", ".join(l)] *)
Fixpoint join_comma (l : list string) : string :=
  match l with
  | [] => ""
  | [x] => x
  | x :: rest => x ++ ", " ++ join_comma rest
  end.

End PyStr.

(* ------------------------------------------------------------------ *)
(** * [float(s)] on decimal literals

    The accepted literals are: optional surrounding white space, an
    optional sign, digits with an optional fractional part (at least one
    digit in all), and an optional exponent.  The special spellings of
    Python ([inf], [nan], digit-group underscores) denote no rational and
    are rejected here, as a malformed literal is. *)

Module PyFloat.

Definition digit_of (c : ascii) : option Z :=
  let n := nat_of_ascii c in
  if ((48 <=? n) && (n <=? 57))%nat then Some (Z.of_nat (n - 48)) else None.

Definition is_space (c : ascii) : bool :=
  let n := nat_of_ascii c in
  ((n =? 32) || ((9 <=? n) && (n <=? 13)))%nat.

Fixpoint lstrip (s : string) : string :=
  match s with
  | String c s' => if is_space c then lstrip s' else s
  | EmptyString => EmptyString
  end.

Fixpoint rstrip (s : string) : string :=
  match s with
  | String c s' =>
      match rstrip s' with
      | EmptyString => if is_space c then EmptyString else String c EmptyString
      | r => String c r
      end
  | EmptyString => EmptyString
  end.

Definition strip (s : string) : string := rstrip (lstrip s).

(** The longest prefix of digits: its value on top of [acc], how many
    digits it has, and the rest of the string. *)
Fixpoint read_digits (s : string) (acc : Z) (n : nat) : Z * nat * string :=
  match s with
  | String c s' =>
      match digit_of c with
      | Some d => read_digits s' (acc * 10 + d) (S n)
      | None => (acc, n, s)
      end
  | EmptyString => (acc, n, s)
  end.

(** An optional sign: [true] for a minus. *)
Definition read_sign (s : string) : bool * string :=
  match s with
  | String "-" s' => (true, s')
  | String "+" s' => (false, s')
  | _ => (false, s)
  end.

(** What follows the mantissa: nothing, or [e]/[E], an optional sign
    and at least one digit, up to the end of the string. *)
Definition read_exponent (s : string) : option Z :=
  match s with
  | EmptyString => Some 0
  | String c s' =>
      if (Ascii.eqb c "e" || Ascii.eqb c "E")%bool then
        let (neg, s1) := read_sign s' in
        match read_digits s1 0 0 with
        | (e, S _, EmptyString) => Some (if neg then - e else e)
        | _ => None
        end
      else None
  end.

(** [m * 10^e] as a rational. *)
Definition scale (m e : Z) : Q :=
  if 0 <=? e then inject_Z (m * 10 ^ e) else m # Z.to_pos (10 ^ (- e)).

Definition parse (s : string) : option Q :=
  let (neg, s1) := read_sign (strip s) in
  let '(ip, ni, s2) := read_digits s1 0 0 in
  let '(m, nf, s3) :=
    match s2 with
    | String "." s2' => read_digits s2' ip 0
    | _ => (ip, 0%nat, s2)
    end in
  if (ni + nf =? 0)%nat then None
  else
    match read_exponent s3 with
    | Some e => Some (scale (if neg then - m else m) (e - Z.of_nat nf))
    | None => None
    end.

End PyFloat.

(* ------------------------------------------------------------------ *)
(** * Class constants *)

Definition DEFAULT_FFMPEG_PATH : string := "".
Definition DEFAULT_PADDING : Z := 4.

(** A tuple of integers; the entry of ["Render"] is the empty tuple. *)
Definition RESOLUTION_LOOKUP : list (string * list Z) :=
  [ ("Render", []);
    ("HD 1080", [1920; 1080]);
    ("HD 720", [1280; 720]);
    ("HD 540", [960; 540]) ].

Definition FRAME_RANGE_PRESETS : list string :=
  [ "Render"; "Playback"; "Animation" ].

Definition VIDEO_ENCODER_LOOKUP : list (string * list string) :=
  [ ("mov", ["h264"]);
    ("mp4", ["h264"]);
    ("Image", ["jpg"; "png"; "tif"]) ].

Definition H264_QUALITIES : list (string * Z) :=
  [ ("Very high", 18); ("High", 20); ("Medium", 23); ("Low", 26) ].

Definition H264_PRESETS : list string :=
  [ "veryslow"; "slow"; "medium"; "fast"; "faster"; "ultrafast" ].

(** Display label and [modelEditor] flag name of each visibility entry. *)
Definition VIEWPORT_VISIBILITY_LOOKUP : list (string * string) :=
  [ ("Controllers", "controllers");
    ("NURBS Curves", "nurbsCurves");
    ("NURBS Surfaces", "nurbsSurfaces");
    ("NURBS CVs", "cv");
    ("NURBS Hulls", "hulls");
    ("Polygons", "polymeshes");
    ("Subdiv Surfaces", "subdivSurfaces");
    ("Planes", "planes");
    ("Lights", "lights");
    ("Cameras", "cameras");
    ("Image Planes", "imagePlane");
    ("Joints", "joints");
    ("IK Handles", "ikHandles");
    ("Deformers", "deformers");
    ("Dynamics", "dynamics");
    ("Particle Instancers", "particleInstancers");
    ("Fluids", "fluids");
    ("Hair Systems", "hairSystems");
    ("Follicles", "follicles");
    ("nCloths", "nCloths");
    ("nParticles", "nParticles");
    ("nRigids", "nRigids");
    ("Dynamic Constraints", "dynamicConstraints");
    ("Locators", "locators");
    ("Dimensions", "dimensions");
    ("Pivots", "pivots");
    ("Handles", "handles");
    ("Texture Placements", "textures");
    ("Strokes", "strokes");
    ("Motion Trails", "motionTrails");
    ("Plugin Shapes", "pluginShapes");
    ("Clip Ghosts", "clipGhosts");
    ("Grease Pencil", "greasePencils");
    ("Grid", "grid");
    ("HUD", "hud");
    ("Hold-Outs", "hos");
    ("Selection Highlighting", "sel") ].

Definition VIEWPORT_VISIBILITY_PRESETS : list (string * list string) :=
  [ ("Viewport", []);
    ("Geo", ["NURBS Surfaces"; "Polygons"]);
    ("Dynamics", ["NURBS Surfaces"; "Polygons"; "Dynamics"; "Fluids"; "nParticles"]) ].

(** A dictionary with string keys, in insertion order. *)
Module Dict.

Fixpoint get {V : Type} (k : string) (d : list (string * V)) : option V :=
  match d with
  | [] => None
  | (k', v) :: rest => if String.eqb k k' then Some v else get k rest
  end.

(** [d[k] = v] *)
Fixpoint set {V : Type} (k : string) (v : V) (d : list (string * V))
  : list (string * V) :=
  match d with
  | [] => [(k, v)]
  | (k', v') :: rest =>
      if String.eqb k k' then (k', v) :: rest else (k', v') :: set k v rest
  end.

Definition keys {V : Type} (d : list (string * V)) : list string :=
  map fst d.

(** [k in d.keys()] *)
Definition has_key {V : Type} (k : string) (d : list (string * V)) : bool :=
  PyStr.mem k (keys d).

End Dict.

(* ------------------------------------------------------------------ *)
(** * The host: Maya, Qt, the file system *)

(** The keyword arguments of [cmds.playblast]. *)
Record PlayblastOptions := {
  opt_filename : string;
  opt_widthHeight : list Z;
  opt_percent : Z;
  opt_startTime : Q;
  opt_endTime : Q;
  opt_clearCache : bool;
  opt_forceOverwrite : bool;
  opt_format : string;
  opt_compression : string;
  opt_quality : Z;
  opt_indexFromZero : bool;
  opt_framePadding : Z;
  opt_showOrnaments : bool;
  opt_viewer : bool
}.

(** The files and directories that exist: a path and whether it is a
    directory. *)
Definition FileSystem := list (string * bool).

(** The panel that has the focus.  [focus_model_editor] is the model
    editor of that panel, or [None] when the panel is not a model panel;
    [panel_camera] and [editor_flags] are the camera it looks through and
    the display flags of its model editor. *)
Record Viewport := {
  panel_with_focus : string;
  focus_model_editor : option string;
  panel_camera : string;
  editor_flags : string -> bool
}.

(** What the scene answers to the queries of the controller. *)
Record Scene := {
  cameras : list string;
  time_unit : string;
  sound_node : string;
  sound_filename : string;
  sound_offset : Q;
  render_width : Z;
  render_height : Z;
  render_start_frame : Q;
  render_end_frame : Q;
  playback_min_time : Q;
  playback_max_time : Q;
  animation_start_time : Q;
  animation_end_time : Q;
  scene_short_name : string;
  workspace_root : string;
  quicktime_command : option string
}.

(** The Python runtime and the external programs: path arithmetic of
    [os.path], the printing of floats and of the options dictionary, the
    frames [cmds.playblast] writes ([None] when it raises), the error
    output of the encoder process ([None] when it does not start) with the
    files it leaves, and what removing the frame directory leaves and
    whether [rmdir] succeeded. *)
Record Platform := {
  os_path_join : string -> string -> string;
  os_path_normpath : string -> string;
  os_path_splitext : string -> string;
  float_repr : Q -> string;
  options_repr : PlayblastOptions -> string;
  playblast_frames : PlayblastOptions -> FileSystem -> option FileSystem;
  ffmpeg_process : string -> FileSystem -> option (list string) * FileSystem;
  qdir_remove_frames : string -> FileSystem -> FileSystem * bool
}.

Record Host := {
  files : FileSystem;
  viewport : Viewport;
  scene : Scene;
  platform : Platform
}.

Definition with_files (h : Host) (f : FileSystem) : Host :=
  {| files := f; viewport := viewport h; scene := scene h; platform := platform h |}.

Definition with_viewport (h : Host) (v : Viewport) : Host :=
  {| files := files h; viewport := v; scene := scene h; platform := platform h |}.

Definition with_scene (h : Host) (s : Scene) : Host :=
  {| files := files h; viewport := viewport h; scene := s; platform := platform h |}.

(** The commands that change the host or start a program, in the order
    they were issued. *)
Inductive HostCall :=
| CallLookThrough (camera panel : string)
| CallModelEditorEdit (editor : string) (flags : list (string * bool))
| CallPlayblast (options : PlayblastOptions)
| CallFfmpeg (command : string)
| CallRemoveTempDir (path : string)
| CallStartDetached (executable path : string)
| CallOpenUrl (path : string)
| CallPrintExc.

Definition is_playblast_call (c : HostCall) : bool :=
  match c with
  | CallPlayblast _ => true
  | _ => false
  end.

(* ------------------------------------------------------------------ *)
(** * The instance and the world *)

Record BPlayblast := {
  _ffmpeg_path : string;
  _log_to_maya : bool;
  _camera : option string;
  _resolution_preset : option string;
  _width_height : list Z;
  _frame_range_preset : option string;
  _start_frame : Q;
  _end_frame : Q;
  _visibility : list bool;
  _container_format : string;
  _encoder : string;
  _h264_quality : string;
  _h264_preset : string;
  _image_quality : Z
}.

Inductive Severity := SevError | SevWarning | SevInfo.

(** [w_signal] holds the emissions of [output_logged], [w_script_editor]
    the lines of [MGlobal.display*]; both oldest first. *)
Record World := {
  w_self : BPlayblast;
  w_host : Host;
  w_signal : list string;
  w_script_editor : list (Severity * string);
  w_calls : list HostCall
}.

Inductive Exn :=
| RuntimeError (msg : string)
| KeyError (key : string)
| TypeError (msg : string)
| ValueError (msg : string)
| IndexError (msg : string)
| UnboundLocalError (name : string)
| ZeroDivisionError.

Inductive Res (A : Type) :=
| Ret (a : A)
| Raise (e : Exn).

Arguments Ret {A} a.
Arguments Raise {A} e.

Definition M (A : Type) : Type := World -> Res A * World.

Definition ret {A : Type} (a : A) : M A := fun w => (Ret a, w).

Definition raise {A : Type} (e : Exn) : M A := fun w => (Raise e, w).

Definition bind {A B : Type} (c : M A) (k : A -> M B) : M B :=
  fun w =>
    match c w with
    | (Ret a, w') => k a w'
    | (Raise e, w') => (Raise e, w')
    end.

Declare Scope py_scope.
Delimit Scope py_scope with py.

Notation "x <- c ;; k" := (bind c (fun x => k))
  (at level 61, c at next level, right associativity) : py_scope.
Notation "c ;; k" := (bind c (fun _ => k))
  (at level 61, right associativity) : py_scope.
Notation "' pat <- c ;; k" := (bind c (fun x => match x with pat => k end))
  (at level 61, pat pattern, c at next level, right associativity) : py_scope.

Open Scope py_scope.

(** [try: body / except: handler] with a bare [except]. *)
Definition try_except {A : Type} (body handler : M A) : M A :=
  fun w =>
    match body w with
    | (Ret a, w') => (Ret a, w')
    | (Raise _, w') => handler w'
    end.

(** [try: body / finally: cleanup]: the cleanup runs on both exits, and
    an exception of its own replaces the outcome of the body. *)
Definition finally {A : Type} (body : M A) (cleanup : M unit) : M A :=
  fun w =>
    match body w with
    | (r, w') =>
        match cleanup w' with
        | (Ret _, w'') => (r, w'')
        | (Raise e, w'') => (Raise e, w'')
        end
    end.

Definition get_self : M BPlayblast := fun w => (Ret (w_self w), w).

Definition get_host : M Host := fun w => (Ret (w_host w), w).

Definition put_self (s : BPlayblast) : M unit :=
  fun w => (Ret tt, {| w_self := s; w_host := w_host w; w_signal := w_signal w;
                       w_script_editor := w_script_editor w; w_calls := w_calls w |}).

Definition put_host (h : Host) : M unit :=
  fun w => (Ret tt, {| w_self := w_self w; w_host := h; w_signal := w_signal w;
                       w_script_editor := w_script_editor w; w_calls := w_calls w |}).

Definition emit (line : string) : M unit :=
  fun w => (Ret tt, {| w_self := w_self w; w_host := w_host w;
                       w_signal := w_signal w ++ [line];
                       w_script_editor := w_script_editor w; w_calls := w_calls w |}).

Definition display (sev : Severity) (line : string) : M unit :=
  fun w => (Ret tt, {| w_self := w_self w; w_host := w_host w; w_signal := w_signal w;
                       w_script_editor := w_script_editor w ++ [(sev, line)];
                       w_calls := w_calls w |}).

Definition record_call (c : HostCall) : M unit :=
  fun w => (Ret tt, {| w_self := w_self w; w_host := w_host w; w_signal := w_signal w;
                       w_script_editor := w_script_editor w;
                       w_calls := w_calls w ++ [c] |}).

(** [for x in l: body(x)], collecting the results. *)
Fixpoint for_each {A B : Type} (body : A -> M B) (l : list A) : M (list B) :=
  match l with
  | [] => ret []
  | x :: rest =>
      y <- body x ;;
      ys <- for_each body rest ;;
      ret (y :: ys)
  end.

(* ------------------------------------------------------------------ *)
(** * Host primitives *)

Definition path_exists (fs : FileSystem) (p : string) : bool :=
  existsb (fun e => String.eqb (fst e) p) fs.

Definition path_isdir (fs : FileSystem) (p : string) : bool :=
  existsb (fun e => String.eqb (fst e) p && snd e) fs.

(** [os.path.exists(p)], [os.path.isdir(p)] and [QFileInfo(p).exists()] *)
Definition os_path_exists (p : string) : M bool :=
  h <- get_host ;; ret (path_exists (files h) p).

Definition os_path_isdir (p : string) : M bool :=
  h <- get_host ;; ret (path_isdir (files h) p).

(** [cmds.getPanel(withFocus=True)] *)
Definition cmds_getPanel_withFocus : M string :=
  h <- get_host ;; ret (panel_with_focus (viewport h)).

(** [cmds.modelPanel(panel, q=True, modelEditor=True)]: an error for
    anything but a model panel. *)
Definition cmds_modelPanel_modelEditor (panel : string) : M string :=
  h <- get_host ;;
  match focus_model_editor (viewport h) with
  | Some ed =>
      if String.eqb panel (panel_with_focus (viewport h)) then ret ed
      else raise (RuntimeError "Object is not a model panel")
  | None => raise (RuntimeError "Object is not a model panel")
  end.

(** [cmds.modelPanel(panel, q=True, camera=True)] *)
Definition cmds_modelPanel_camera (panel : string) : M string :=
  cmds_modelPanel_modelEditor panel ;;
  h <- get_host ;; ret (panel_camera (viewport h)).

(** A model editor is named by its own name or by that of its panel. *)
Definition names_editor (v : Viewport) (name : string) : bool :=
  match focus_model_editor v with
  | Some ed => String.eqb name ed || String.eqb name (panel_with_focus v)
  | None => false
  end.

(** [cmds.modelEditor(editor, q=True, flag=True)] *)
Definition cmds_modelEditor_query (editor flag : string) : M bool :=
  h <- get_host ;;
  if names_editor (viewport h) editor then ret (editor_flags (viewport h) flag)
  else raise (RuntimeError "Object is not a model editor").

Definition apply_flags (flags : list (string * bool)) (old : string -> bool)
  : string -> bool :=
  fun k => match Dict.get k flags with
           | Some b => b
           | None => old k
           end.

(** [cmds.modelEditor(editor, e=True)] with the flags as keywords *)
Definition cmds_modelEditor_edit (editor : string) (flags : list (string * bool))
  : M unit :=
  h <- get_host ;;
  if names_editor (viewport h) editor then
    record_call (CallModelEditorEdit editor flags) ;;
    put_host (with_viewport h
      {| panel_with_focus := panel_with_focus (viewport h);
         focus_model_editor := focus_model_editor (viewport h);
         panel_camera := panel_camera (viewport h);
         editor_flags := apply_flags flags (editor_flags (viewport h)) |})
  else raise (RuntimeError "Object is not a model editor").

(** [mel.eval("lookThroughModelPanel <camera> <panel>")] *)
Definition mel_lookThroughModelPanel (camera panel : string) : M unit :=
  cmds_modelPanel_modelEditor panel ;;
  h <- get_host ;;
  record_call (CallLookThrough camera panel) ;;
  put_host (with_viewport h
    {| panel_with_focus := panel_with_focus (viewport h);
       focus_model_editor := focus_model_editor (viewport h);
       panel_camera := camera;
       editor_flags := editor_flags (viewport h) |}).

(** [cmds.listCameras()] *)
Definition cmds_listCameras : M (list string) :=
  h <- get_host ;; ret (cameras (scene h)).

(** [cmds.playblast] with the options as keywords: the frames are
    written, or the call raises. *)
Definition cmds_playblast (options : PlayblastOptions) : M unit :=
  h <- get_host ;;
  record_call (CallPlayblast options) ;;
  match playblast_frames (platform h) options (files h) with
  | Some fs => put_host (with_files h fs)
  | None => raise (RuntimeError "playblast failed")
  end.

(** [traceback.print_exc()] *)
Definition traceback_print_exc : M unit := record_call CallPrintExc.

(* ------------------------------------------------------------------ *)
(** * Methods of [BPlayblast]: logging, encoder, audio *)

Definition log_error (text : string) : M unit :=
  self <- get_self ;;
  (if _log_to_maya self then display SevError ("[BPlayblast] " ++ text) else ret tt) ;;
  emit ("[ERROR] " ++ text).

Definition log_warning (text : string) : M unit :=
  self <- get_self ;;
  (if _log_to_maya self then display SevWarning ("[BPlayblast] " ++ text) else ret tt) ;;
  emit ("[WARNING] " ++ text).

Definition log_output (text : string) : M unit :=
  self <- get_self ;;
  (if _log_to_maya self then display SevInfo text else ret tt) ;;
  emit text.

Definition validate_ffmpeg : M bool :=
  self <- get_self ;;
  if negb (PyStr.truthy (_ffmpeg_path self)) then
    log_error "ffmpeg executable path not set" ;;
    ret false
  else
    found <- os_path_exists (_ffmpeg_path self) ;;
    if negb found then
      log_error ("ffmpeg executable path does not exists: " ++ _ffmpeg_path self) ;;
      ret false
    else
      isdir <- os_path_isdir (_ffmpeg_path self) ;;
      if isdir then
        log_error ("Invalid ffmpeg path: " ++ _ffmpeg_path self) ;;
        ret false
      else ret true.

(** The process is started and polled until it is no longer running;
    each chunk of its error output is logged as it arrives.  A process
    that does not start logs nothing. *)
Definition execute_ffmpeg_cmd (command : string) : M unit :=
  h <- get_host ;;
  record_call (CallFfmpeg command) ;;
  let (started, fs) := ffmpeg_process (platform h) command (files h) in
  put_host (with_files h fs) ;;
  match started with
  | Some chunks => for_each log_output chunks ;; ret tt
  | None => ret tt
  end.

Definition get_frame_rate : M Q :=
  h <- get_host ;;
  let rate_str := time_unit (scene h) in
  if String.eqb rate_str "game" then ret (15 # 1)
  else if String.eqb rate_str "film" then ret (24 # 1)
  else if String.eqb rate_str "pal" then ret (25 # 1)
  else if String.eqb rate_str "ntsc" then ret (30 # 1)
  else if String.eqb rate_str "show" then ret (48 # 1)
  else if String.eqb rate_str "palf" then ret (50 # 1)
  else if String.eqb rate_str "ntscf" then ret (60 # 1)
  else if PyStr.endswith rate_str "fps" then
    match PyFloat.parse (PyStr.drop_last 3 rate_str) with
    | Some frame_rate => ret frame_rate
    | None => raise (ValueError ("could not convert string to float: "
                                   ++ PyStr.drop_last 3 rate_str))
    end
  else raise (RuntimeError ("Unsupported frame rate: " ++ rate_str)).

(** The value returned is [None] (the function falls off its end) when a
    sound node is linked and its file is missing, and a pair otherwise. *)
Definition get_audio_attributes : M (option (option string * option Q)) :=
  h <- get_host ;;
  let sound_node := sound_node (scene h) in
  if PyStr.truthy sound_node then
    let file_path := sound_filename (scene h) in
    found <- os_path_exists file_path ;;
    if found then
      let offset := sound_offset (scene h) in
      ret (Some (Some file_path, Some offset))
    else ret None
  else ret (Some (None, None)).

Definition get_audio_offset_in_sec (start_frame audio_frame_offset frame_rate : Q)
  : M Q :=
  if Qeq_bool frame_rate 0 then raise ZeroDivisionError
  else ret ((start_frame - audio_frame_offset) / frame_rate)%Q.

(** With an audio file the second [if audio_file_path] reads the local
    [ffmpeg], which is never bound. *)
Definition encode_h264 (source_path output_path : string) (start_frame : Q) : M unit :=
  self <- get_self ;;
  h <- get_host ;;
  frame_rate <- get_frame_rate ;;
  attrs <- get_audio_attributes ;;
  match attrs with
  | None => raise (TypeError "cannot unpack non-iterable NoneType object")
  | Some (audio_file_path, audio_frame_offset) =>
      audio_offset <-
        (if PyStr.truthy_opt audio_file_path then
           match audio_frame_offset with
           | Some a => q <- get_audio_offset_in_sec start_frame a frame_rate ;; ret (Some q)
           | None => raise (TypeError "unsupported operand type(s) for -")
           end
         else ret None) ;;
      match Dict.get (_h264_quality self) H264_QUALITIES with
      | None => raise (KeyError (_h264_quality self))
      | Some crf =>
          let preset := _h264_preset self in
          let ffmpeg_cmd := _ffmpeg_path self in
          let ffmpeg_cmd :=
            ffmpeg_cmd ++ " -y -framerate " ++ float_repr (platform h) frame_rate
                       ++ " -i " ++ PyStr.quoted source_path in
          let ffmpeg_cmd :=
            match audio_file_path, audio_offset with
            | Some f, Some o =>
                if PyStr.truthy f then
                  ffmpeg_cmd ++ " -ss " ++ float_repr (platform h) o
                             ++ " -i " ++ PyStr.quoted f
                else ffmpeg_cmd
            | _, _ => ffmpeg_cmd
            end in
          let ffmpeg_cmd :=
            ffmpeg_cmd ++ " -c:v libx264 -crf:v " ++ PyStr.of_int crf
                       ++ " -preset:v " ++ preset
                       ++ " -profile high -level 4.0 -pix_fmt yuv420p" in
          if PyStr.truthy_opt audio_file_path then raise (UnboundLocalError "ffmpeg")
          else
            let ffmpeg_cmd := ffmpeg_cmd ++ " " ++ PyStr.quoted output_path in
            log_output ffmpeg_cmd ;;
            execute_ffmpeg_cmd ffmpeg_cmd
      end
  end.

Definition remove_temp_dir (temp_dir_path : string) : M unit :=
  h <- get_host ;;
  record_call (CallRemoveTempDir temp_dir_path) ;;
  let (fs, removed) := qdir_remove_frames (platform h) temp_dir_path (files h) in
  put_host (with_files h fs) ;;
  if negb removed then
    log_warning ("Failed to remove temporary directory: " ++ temp_dir_path)
  else ret tt.

Definition open_in_viewer (path : string) : M unit :=
  self <- get_self ;;
  h <- get_host ;;
  found <- os_path_exists path ;;
  if negb found then
    log_error ("Failed to open in viewer. File does not exists : " ++ path)
  else
    let quicktime :=
      if PyStr.mem (_container_format self) ["mov"; "mp4"]
      then quicktime_command (scene h) else None in
    match quicktime with
    | Some executable_path =>
        if PyStr.truthy executable_path
        then record_call (CallStartDetached executable_path path)
        else record_call (CallOpenUrl path)
    | None => record_call (CallOpenUrl path)
    end.

(* ------------------------------------------------------------------ *)
(** * Configuration: setters and resolvers *)

Definition with_camera (s : BPlayblast) (c : option string) : BPlayblast :=
  {| _ffmpeg_path := _ffmpeg_path s; _log_to_maya := _log_to_maya s; _camera := c;
     _resolution_preset := _resolution_preset s; _width_height := _width_height s;
     _frame_range_preset := _frame_range_preset s; _start_frame := _start_frame s;
     _end_frame := _end_frame s; _visibility := _visibility s;
     _container_format := _container_format s; _encoder := _encoder s;
     _h264_quality := _h264_quality s; _h264_preset := _h264_preset s;
     _image_quality := _image_quality s |}.

Definition with_resolution_preset (s : BPlayblast) (p : option string) : BPlayblast :=
  {| _ffmpeg_path := _ffmpeg_path s; _log_to_maya := _log_to_maya s; _camera := _camera s;
     _resolution_preset := p; _width_height := _width_height s;
     _frame_range_preset := _frame_range_preset s; _start_frame := _start_frame s;
     _end_frame := _end_frame s; _visibility := _visibility s;
     _container_format := _container_format s; _encoder := _encoder s;
     _h264_quality := _h264_quality s; _h264_preset := _h264_preset s;
     _image_quality := _image_quality s |}.

Definition with_width_height (s : BPlayblast) (wh : list Z) : BPlayblast :=
  {| _ffmpeg_path := _ffmpeg_path s; _log_to_maya := _log_to_maya s; _camera := _camera s;
     _resolution_preset := _resolution_preset s; _width_height := wh;
     _frame_range_preset := _frame_range_preset s; _start_frame := _start_frame s;
     _end_frame := _end_frame s; _visibility := _visibility s;
     _container_format := _container_format s; _encoder := _encoder s;
     _h264_quality := _h264_quality s; _h264_preset := _h264_preset s;
     _image_quality := _image_quality s |}.

Definition with_visibility (s : BPlayblast) (v : list bool) : BPlayblast :=
  {| _ffmpeg_path := _ffmpeg_path s; _log_to_maya := _log_to_maya s; _camera := _camera s;
     _resolution_preset := _resolution_preset s; _width_height := _width_height s;
     _frame_range_preset := _frame_range_preset s; _start_frame := _start_frame s;
     _end_frame := _end_frame s; _visibility := v;
     _container_format := _container_format s; _encoder := _encoder s;
     _h264_quality := _h264_quality s; _h264_preset := _h264_preset s;
     _image_quality := _image_quality s |}.

Definition with_encoding (s : BPlayblast) (container encoder : string) : BPlayblast :=
  {| _ffmpeg_path := _ffmpeg_path s; _log_to_maya := _log_to_maya s; _camera := _camera s;
     _resolution_preset := _resolution_preset s; _width_height := _width_height s;
     _frame_range_preset := _frame_range_preset s; _start_frame := _start_frame s;
     _end_frame := _end_frame s; _visibility := _visibility s;
     _container_format := container; _encoder := encoder;
     _h264_quality := _h264_quality s; _h264_preset := _h264_preset s;
     _image_quality := _image_quality s |}.

Definition with_h264 (s : BPlayblast) (quality preset : string) : BPlayblast :=
  {| _ffmpeg_path := _ffmpeg_path s; _log_to_maya := _log_to_maya s; _camera := _camera s;
     _resolution_preset := _resolution_preset s; _width_height := _width_height s;
     _frame_range_preset := _frame_range_preset s; _start_frame := _start_frame s;
     _end_frame := _end_frame s; _visibility := _visibility s;
     _container_format := _container_format s; _encoder := _encoder s;
     _h264_quality := quality; _h264_preset := preset;
     _image_quality := _image_quality s |}.

(** The argument of [set_resolution]: a preset name or a pair of
    integers. *)
Inductive ResolutionArg :=
| ResName (name : string)
| ResPair (width height : Z).

(** What [width_height] holds in [set_resolution]: a tuple of integers,
    or the argument itself when that was a string and no preset. *)
Inductive ResolutionValue :=
| WhTuple (t : list Z)
| WhStr (s : string).

Definition preset_to_resolution (resolution_preset : ResolutionArg) : M (list Z) :=
  match resolution_preset with
  | ResName name =>
      if String.eqb name "Render" then
        h <- get_host ;;
        let width := render_width (scene h) in
        let height := render_height (scene h) in
        ret [width; height]
      else if Dict.has_key name RESOLUTION_LOOKUP then
        match Dict.get name RESOLUTION_LOOKUP with
        | Some t => ret t
        | None => raise (KeyError name)
        end
      else raise (RuntimeError ("Invalid resolution preset: " ++ name))
  | ResPair _ _ => raise (RuntimeError "Invalid resolution preset")
  end.

Fixpoint repr_ints (l : list Z) : string :=
  match l with
  | [] => ""
  | [x] => PyStr.of_int x
  | x :: rest => PyStr.of_int x ++ ", " ++ repr_ints rest
  end.

Definition repr_resolution (v : ResolutionValue) : string :=
  match v with
  | WhTuple t => "(" ++ repr_ints t ++ ")"
  | WhStr s => s
  end.

Definition set_resolution (resolution : ResolutionArg) : M unit :=
  self <- get_self ;;
  put_self (with_resolution_preset self None) ;;
  width_height <-
    try_except
      (t <- preset_to_resolution resolution ;;
       self <- get_self ;;
       put_self (with_resolution_preset self
                   match resolution with
                   | ResName name => Some name
                   | ResPair _ _ => None
                   end) ;;
       ret (WhTuple t))
      (ret match resolution with
           | ResName name => WhStr name
           | ResPair w h => WhTuple [w; h]
           end) ;;
  let valid_resolution :=
    match width_height with
    | WhTuple (w :: h :: _) => Some (w, h)
    | _ => None
    end in
  match valid_resolution with
  | Some (w, h) =>
      if (w <=? 0) || (h <=? 0) then
        log_error ("Invalid resolution: " ++ repr_resolution width_height
                     ++ ". Values must be greater than zero.")
      else
        self <- get_self ;;
        put_self (with_width_height self [w; h])
  | None =>
      let presets := map (fun preset => "'" ++ preset ++ "'") (Dict.keys RESOLUTION_LOOKUP) in
      log_error ("Invalid resolution: " ++ repr_resolution width_height
                   ++ ". Expected one of [int, int], " ++ PyStr.join_comma presets)
  end.

Definition get_resolution_width_height : M (list Z) :=
  self <- get_self ;;
  match _resolution_preset self with
  | Some p =>
      if PyStr.truthy p then preset_to_resolution (ResName p)
      else ret (_width_height self)
  | None => ret (_width_height self)
  end.

(** [int(x)] of a number: truncation towards zero. *)
Definition py_int (x : Q) : Q := inject_Z (Z.quot (Qnum x) (Zpos (Qden x))).

Definition preset_to_frame_range (frame_range_preset : string) : M (Q * Q) :=
  h <- get_host ;;
  if String.eqb frame_range_preset "Render" then
    ret (render_start_frame (scene h), render_end_frame (scene h))
  else if String.eqb frame_range_preset "Playback" then
    ret (py_int (playback_min_time (scene h)), py_int (playback_max_time (scene h)))
  else if String.eqb frame_range_preset "Animation" then
    ret (py_int (animation_start_time (scene h)), py_int (animation_end_time (scene h)))
  else raise (RuntimeError ("Invalid frame range preset: " ++ frame_range_preset)).

Definition get_start_end_frame : M (Q * Q) :=
  self <- get_self ;;
  match _frame_range_preset self with
  | Some p =>
      if PyStr.truthy p then preset_to_frame_range p
      else ret (_start_frame self, _end_frame self)
  | None => ret (_start_frame self, _end_frame self)
  end.

(** The result is [None] for an unknown preset; for a preset without
    labels it is the empty list. *)
Definition preset_to_visibility (visibility_preset : string) : M (option (list bool)) :=
  if negb (Dict.has_key visibility_preset VIEWPORT_VISIBILITY_PRESETS) then
    log_error ("Invalid visibility preset: " ++ visibility_preset) ;;
    ret None
  else
    match Dict.get visibility_preset VIEWPORT_VISIBILITY_PRESETS with
    | None => raise (KeyError visibility_preset)
    | Some preset_names =>
        let visibility_data :=
          match preset_names with
          | [] => []
          | _ => map (fun lookup_item => PyStr.mem (fst lookup_item) preset_names)
                     VIEWPORT_VISIBILITY_LOOKUP
          end in
        ret (Some visibility_data)
    end.

(** The argument of [set_visibility]: a preset name or a sequence of
    booleans. *)
Inductive VisibilityArg :=
| VisName (name : string)
| VisData (data : list bool).

Definition set_visibility (visibility_data : VisibilityArg) : M unit :=
  let visibility_data :=
    match visibility_data with
    | VisName "" => VisData []
    | other => other
    end in
  resolved <-
    match visibility_data with
    | VisData data => ret (Some data)
    | VisName name => preset_to_visibility name
    end ;;
  match resolved with
  | None => ret tt
  | Some data =>
      self <- get_self ;;
      put_self (with_visibility self data)
  end.

Definition set_encoding (container_format encoder : string) : M unit :=
  let containers := Dict.keys VIDEO_ENCODER_LOOKUP in
  (if negb (PyStr.mem container_format containers) then
     log_error ("Invalid container: " ++ container_format ++ ". Expected one of dict_keys("
                  ++ PyStr.repr_list containers ++ ")")
   else ret tt) ;;
  match Dict.get container_format VIDEO_ENCODER_LOOKUP with
  | None => raise (KeyError container_format)
  | Some encoders =>
      (if negb (PyStr.mem encoder encoders) then
         log_error ("Invalid encoder: " ++ encoder ++ ". Expected one of "
                      ++ PyStr.repr_list encoders)
       else ret tt) ;;
      self <- get_self ;;
      put_self (with_encoding self container_format encoder)
  end.

Definition set_h264_settings (quality preset : string) : M unit :=
  let h264_qualities := Dict.keys H264_QUALITIES in
  if negb (PyStr.mem quality h264_qualities) then
    log_error ("Invalid h264 quality: " ++ quality ++ ". Expected of dict_keys("
                 ++ PyStr.repr_list h264_qualities ++ ")")
  else if negb (PyStr.mem preset H264_PRESETS) then
    log_error ("Invalid h264 preset: " ++ preset ++ ". Expected of "
                 ++ PyStr.repr_list H264_PRESETS)
  else
    self <- get_self ;;
    put_self (with_h264 self quality preset).

Definition fmt_opt (o : option string) : string :=
  match o with
  | Some s => s
  | None => "None"
  end.

Definition set_camera (camera : option string) : M unit :=
  unknown <-
    (if PyStr.truthy_opt camera then
       cams <- cmds_listCameras ;; ret (negb (PyStr.mem_opt camera cams))
     else ret false) ;;
  camera <-
    (if unknown then
       log_error ("Camera does not exist: " ++ fmt_opt camera) ;;
       ret None
     else ret camera) ;;
  self <- get_self ;;
  put_self (with_camera self camera).

(* ------------------------------------------------------------------ *)
(** * Viewport access *)

(** The focused panel when it is a model panel; otherwise an error is
    logged and the result is [None]. *)
Definition get_viewport_panel : M (option string) :=
  model_panel <- cmds_getPanel_withFocus ;;
  try_except
    (cmds_modelPanel_modelEditor model_panel ;; ret (Some model_panel))
    (log_error "Failed to get active view" ;; ret None).

Definition set_active_camera (camera_name : option string) : M unit :=
  model_panel <- get_viewport_panel ;;
  match model_panel with
  | Some panel =>
      if PyStr.truthy panel then mel_lookThroughModelPanel (fmt_opt camera_name) panel
      else log_error "Failed to set active camera. A viewport is not active."
  | None => log_error "Failed to set active camera. A viewport is not active."
  end.

Definition get_active_camera : M (option string) :=
  model_panel <- get_viewport_panel ;;
  match model_panel with
  | Some panel =>
      if PyStr.truthy panel then
        camera <- cmds_modelPanel_camera panel ;; ret (Some camera)
      else
        log_error "Failed to get active camera. A viewport is not active." ;;
        ret None
  | None =>
      log_error "Failed to get active camera. A viewport is not active." ;;
      ret None
  end.

Definition get_scene_name : M string :=
  h <- get_host ;;
  let scene_name := scene_short_name (scene h) in
  if PyStr.truthy scene_name then ret (os_path_splitext (platform h) scene_name)
  else ret "untitled".

Definition get_project_dir_path : M string :=
  h <- get_host ;; ret (workspace_root (scene h)).

(** One query per entry of the catalogue, in its order. *)
Definition get_viewport_visibility : M (option (list bool)) :=
  model_panel <- get_viewport_panel ;;
  let no_viewport :=
    log_error "Failed to get viewport visibility. A viewport is not active" ;;
    ret None in
  match model_panel with
  | Some panel =>
      if PyStr.truthy panel then
        try_except
          (viewport_visibility <-
             for_each (fun item => cmds_modelEditor_query panel (snd item))
                      VIEWPORT_VISIBILITY_LOOKUP ;;
           ret (Some viewport_visibility))
          (traceback_print_exc ;;
           log_error "Failed to get active viewport visibility. See script editor." ;;
           ret None)
      else no_viewport
  | None => no_viewport
  end.

Definition set_viewport_visibility (model_editor : string)
    (visibility_flags : list (string * bool)) : M unit :=
  cmds_modelEditor_edit model_editor visibility_flags.

(** The loop of [create_viewport_visibility_flags]: [data_index] runs
    along the catalogue; indexing [None] or past the end of the data
    raises. *)
Fixpoint visibility_flags_loop (items : list (string * string))
    (visibility_data : option (list bool)) (data_index : nat)
    (visibility_flags : list (string * bool)) : M (list (string * bool)) :=
  match items with
  | [] => ret visibility_flags
  | item :: rest =>
      match visibility_data with
      | None => raise (TypeError "'NoneType' object is not subscriptable")
      | Some data =>
          match nth_error data data_index with
          | Some v =>
              visibility_flags_loop rest visibility_data (S data_index)
                (Dict.set (snd item) v visibility_flags)
          | None => raise (IndexError "list index out of range")
          end
      end
  end.

Definition create_viewport_visibility_flags (visibility_data : option (list bool))
  : M (list (string * bool)) :=
  visibility_flags_loop VIEWPORT_VISIBILITY_LOOKUP visibility_data 0 [].

Definition get_visibility : M (option (list bool)) :=
  self <- get_self ;;
  match _visibility self with
  | [] => get_viewport_visibility
  | v => ret (Some v)
  end.

Definition resolve_output_directory_path (dir_path : string) : M string :=
  if PyStr.contains "{project}" dir_path then
    project <- get_project_dir_path ;;
    ret (PyStr.replace "{project}" project dir_path)
  else ret dir_path.

Definition resolve_output_filename (filename : string) : M string :=
  if PyStr.contains "{scene}" filename then
    scene_name <- get_scene_name ;;
    ret (PyStr.replace "{scene}" scene_name filename)
  else ret filename.

Definition requires_ffmpeg (self : BPlayblast) : bool :=
  negb (String.eqb (_container_format self) "Image").

(* ------------------------------------------------------------------ *)
(** * [execute] *)

(** The locals that the two branches on [requires_ffmpeg] bind.
    [tg_output_path] and [tg_playblast_output_dir] are bound in the
    encoding branch only and read under the same test. *)
Record Targets := {
  tg_output_path : string;
  tg_playblast_output_dir : string;
  tg_playblast_output : string;
  tg_force_overwrite : bool;
  tg_compression : string;
  tg_image_quality : Z;
  tg_index_from_zero : bool;
  tg_viewer : bool
}.

(** The branch on [requires_ffmpeg]: [None] when the output file exists
    and may not be overwritten, after the error is logged. *)
Definition compute_targets (output_dir filename : string)
    (show_in_viewer overwrite : bool) : M (option Targets) :=
  self <- get_self ;;
  h <- get_host ;;
  if requires_ffmpeg self then
    let output_path :=
      os_path_normpath (platform h)
        (os_path_join (platform h) output_dir
           (filename ++ "." ++ _container_format self)) in
    found <- (if negb overwrite then os_path_exists output_path else ret false) ;;
    if negb overwrite && found then
      log_error "Output file already exists. Enable overwrite to ignore." ;;
      ret None
    else
      let playblast_output_dir := output_dir ++ "/playblast_temp" in
      ret (Some {| tg_output_path := output_path;
                   tg_playblast_output_dir := playblast_output_dir;
                   tg_playblast_output :=
                     os_path_normpath (platform h)
                       (os_path_join (platform h) playblast_output_dir filename);
                   tg_force_overwrite := true;
                   tg_compression := "png";
                   tg_image_quality := 100;
                   tg_index_from_zero := true;
                   tg_viewer := false |})
  else
    ret (Some {| tg_output_path := "";
                 tg_playblast_output_dir := "";
                 tg_playblast_output :=
                   os_path_normpath (platform h) (os_path_join (platform h) output_dir filename);
                 tg_force_overwrite := overwrite;
                 tg_compression := _encoder self;
                 tg_image_quality := _image_quality self;
                 tg_index_from_zero := false;
                 tg_viewer := show_in_viewer |}).

(** From "Store original viewport settings" to the end of [execute]. *)
Definition capture_and_encode (viewport_model_panel filename : string) (padding : Z)
    (show_in_viewer : bool) (t : Targets) (start_frame : Q)
    (options : PlayblastOptions) : M unit :=
  self <- get_self ;;
  orig_camera <- get_active_camera ;;
  let camera := if PyStr.truthy_opt (_camera self) then _camera self else orig_camera in
  cams <- cmds_listCameras ;;
  if negb (PyStr.mem_opt camera cams) then
    log_error ("Camera does not exists: " ++ fmt_opt camera)
  else
    set_active_camera camera ;;
    viewport_visibility <- get_viewport_visibility ;;
    orig_visibility_flags <- create_viewport_visibility_flags viewport_visibility ;;
    visibility <- get_visibility ;;
    playblast_visibility_flags <- create_viewport_visibility_flags visibility ;;
    model_editor <- cmds_modelPanel_modelEditor viewport_model_panel ;;
    set_viewport_visibility model_editor playblast_visibility_flags ;;
    playblast_failed <-
      finally
        (try_except
           (cmds_playblast options ;; ret false)
           (traceback_print_exc ;;
            log_error "Failed to created playblast. See script editor for details" ;;
            ret true))
        (set_active_camera orig_camera ;;
         set_viewport_visibility model_editor orig_visibility_flags) ;;
    if playblast_failed then ret tt
    else if requires_ffmpeg self then
      let source_path :=
        tg_playblast_output_dir t ++ "/" ++ filename ++ ".%0"
          ++ PyStr.of_int padding ++ "d.png" in
      if String.eqb (_encoder self) "h264" then
        encode_h264 source_path (tg_output_path t) start_frame ;;
        remove_temp_dir (tg_playblast_output_dir t) ;;
        if show_in_viewer then open_in_viewer (tg_output_path t) else ret tt
      else
        log_error ("Encoding failed. Unsupported encoder (" ++ _encoder self
                     ++ ") for container (" ++ _container_format self ++ ")") ;;
        remove_temp_dir (tg_playblast_output_dir t)
    else ret tt.

Definition execute (output_dir filename : string) (padding : Z)
    (show_ornaments show_in_viewer overwrite : bool) : M unit :=
  self <- get_self ;;
  ffmpeg_missing <-
    (if requires_ffmpeg self then ok <- validate_ffmpeg ;; ret (negb ok) else ret false) ;;
  if ffmpeg_missing then
    log_error "ffmpeg executable is not configured. See script editor for details."
  else
    viewport_model_panel <- get_viewport_panel ;;
    let no_viewport :=
      log_error "An active viewport is not selected. Select the viewport and retry" in
    match viewport_model_panel with
    | None => no_viewport
    | Some panel =>
        if negb (PyStr.truthy panel) then no_viewport
        else if negb (PyStr.truthy output_dir) then
          log_error "Output directory path not set"
        else if negb (PyStr.truthy filename) then
          log_error "Output file name not set"
        else
          output_dir <- resolve_output_directory_path output_dir ;;
          filename <- resolve_output_filename filename ;;
          let padding := if padding <=? 0 then DEFAULT_PADDING else padding in
          targets <- compute_targets output_dir filename show_in_viewer overwrite ;;
          match targets with
          | None => ret tt
          | Some t =>
              width_height <- get_resolution_width_height ;;
              '(start_frame, end_frame) <- get_start_end_frame ;;
              let options :=
                {| opt_filename := tg_playblast_output t;
                   opt_widthHeight := width_height;
                   opt_percent := 100;
                   opt_startTime := start_frame;
                   opt_endTime := end_frame;
                   opt_clearCache := true;
                   opt_forceOverwrite := tg_force_overwrite t;
                   opt_format := "image";
                   opt_compression := tg_compression t;
                   opt_quality := tg_image_quality t;
                   opt_indexFromZero := tg_index_from_zero t;
                   opt_framePadding := padding;
                   opt_showOrnaments := show_ornaments;
                   opt_viewer := tg_viewer t |} in
              h <- get_host ;;
              log_output ("Playblast options: " ++ options_repr (platform h) options) ;;
              capture_and_encode panel filename padding show_in_viewer t
                start_frame options
          end
    end.

(* ------------------------------------------------------------------ *)
(** * The remaining setters and the constructor *)

Definition with_ffmpeg_path (s : BPlayblast) (path : string) : BPlayblast :=
  {| _ffmpeg_path := path; _log_to_maya := _log_to_maya s; _camera := _camera s;
     _resolution_preset := _resolution_preset s; _width_height := _width_height s;
     _frame_range_preset := _frame_range_preset s; _start_frame := _start_frame s;
     _end_frame := _end_frame s; _visibility := _visibility s;
     _container_format := _container_format s; _encoder := _encoder s;
     _h264_quality := _h264_quality s; _h264_preset := _h264_preset s;
     _image_quality := _image_quality s |}.

Definition with_log_to_maya (s : BPlayblast) (enabled : bool) : BPlayblast :=
  {| _ffmpeg_path := _ffmpeg_path s; _log_to_maya := enabled; _camera := _camera s;
     _resolution_preset := _resolution_preset s; _width_height := _width_height s;
     _frame_range_preset := _frame_range_preset s; _start_frame := _start_frame s;
     _end_frame := _end_frame s; _visibility := _visibility s;
     _container_format := _container_format s; _encoder := _encoder s;
     _h264_quality := _h264_quality s; _h264_preset := _h264_preset s;
     _image_quality := _image_quality s |}.

Definition with_frame_range_preset (s : BPlayblast) (p : option string) : BPlayblast :=
  {| _ffmpeg_path := _ffmpeg_path s; _log_to_maya := _log_to_maya s; _camera := _camera s;
     _resolution_preset := _resolution_preset s; _width_height := _width_height s;
     _frame_range_preset := p; _start_frame := _start_frame s;
     _end_frame := _end_frame s; _visibility := _visibility s;
     _container_format := _container_format s; _encoder := _encoder s;
     _h264_quality := _h264_quality s; _h264_preset := _h264_preset s;
     _image_quality := _image_quality s |}.

Definition with_start_end (s : BPlayblast) (start_frame end_frame : Q) : BPlayblast :=
  {| _ffmpeg_path := _ffmpeg_path s; _log_to_maya := _log_to_maya s; _camera := _camera s;
     _resolution_preset := _resolution_preset s; _width_height := _width_height s;
     _frame_range_preset := _frame_range_preset s; _start_frame := start_frame;
     _end_frame := end_frame; _visibility := _visibility s;
     _container_format := _container_format s; _encoder := _encoder s;
     _h264_quality := _h264_quality s; _h264_preset := _h264_preset s;
     _image_quality := _image_quality s |}.

Definition with_image_quality (s : BPlayblast) (quality : Z) : BPlayblast :=
  {| _ffmpeg_path := _ffmpeg_path s; _log_to_maya := _log_to_maya s; _camera := _camera s;
     _resolution_preset := _resolution_preset s; _width_height := _width_height s;
     _frame_range_preset := _frame_range_preset s; _start_frame := _start_frame s;
     _end_frame := _end_frame s; _visibility := _visibility s;
     _container_format := _container_format s; _encoder := _encoder s;
     _h264_quality := _h264_quality s; _h264_preset := _h264_preset s;
     _image_quality := quality |}.

Definition set_maya_logging_enabled (enabled : bool) : M unit :=
  self <- get_self ;;
  put_self (with_log_to_maya self enabled).

(** The argument may be [None]; a falsy path is replaced by the default. *)
Definition set_ffmpeg_path (ffmpeg_path : option string) : M unit :=
  self <- get_self ;;
  match ffmpeg_path with
  | Some path =>
      if PyStr.truthy path then put_self (with_ffmpeg_path self path)
      else put_self (with_ffmpeg_path self DEFAULT_FFMPEG_PATH)
  | None => put_self (with_ffmpeg_path self DEFAULT_FFMPEG_PATH)
  end.

Definition get_ffmpeg_path : M string :=
  self <- get_self ;; ret (_ffmpeg_path self).

Definition set_image_settings (quality : Z) : M unit :=
  if (0 <? quality) && (quality <=? 100) then
    self <- get_self ;;
    put_self (with_image_quality self quality)
  else
    log_error ("Invalid image quality: " ++ PyStr.of_int quality
                 ++ ". Expected value betwenn 1-100").

(** The argument of [set_frame_range]: a preset name or a pair of frame
    numbers. *)
Inductive FrameRangeArg :=
| FrName (name : string)
| FrPair (start_frame end_frame : Q).

(** The result is [None], after an error is logged, when the name is no
    preset. *)
Definition resolve_frame_range (frame_range : FrameRangeArg) : M (option (Q * Q)) :=
  try_except
    (match frame_range with
     | FrPair start_frame end_frame => ret (Some (start_frame, end_frame))
     | FrName name =>
         '(start_frame, end_frame) <- preset_to_frame_range name ;;
         ret (Some (start_frame, end_frame))
     end)
    (let presets := map (fun preset => "'" ++ preset ++ "'") FRAME_RANGE_PRESETS in
     log_error ("Invalid frame range. Expected one of (start_frame, end_frame) or "
                  ++ PyStr.join_comma presets) ;;
     ret None).

Definition set_frame_range (frame_range : FrameRangeArg) : M unit :=
  resolved <- resolve_frame_range frame_range ;;
  match resolved with
  | None => ret tt
  | Some (start_frame, end_frame) =>
      self <- get_self ;;
      put_self (with_frame_range_preset self None) ;;
      (match frame_range with
       | FrName name =>
           if PyStr.mem name FRAME_RANGE_PRESETS then
             self <- get_self ;;
             put_self (with_frame_range_preset self (Some name))
           else ret tt
       | FrPair _ _ => ret tt
       end) ;;
      self <- get_self ;;
      put_self (with_start_end self start_frame end_frame)
  end.

Definition DEFAULT_CAMERA : option string := None.
Definition DEFAULT_RESOLUTION : string := "Render".
Definition DEFAULT_FRAME_RANGE : string := "Render".
Definition DEFAULT_CONTAINER : string := "mp4".
Definition DEFAULT_ENCODER : string := "h264".
Definition DEFAULT_H264_QUALITY : string := "High".
Definition DEFAULT_H264_PRESET : string := "fast".
Definition DEFAULT_IMAGE_QUALITY : Z := 100.
Definition DEFAULT_VISIBILITY : string := "Viewport".

(** [__init__]: the setters in the order of the source.  The attributes
    are unbound before the call; here the world holds arbitrary values for
    them.  The encoder process object that [initialize_ffmpeg_process]
    creates has no state in this embedding. *)
Definition init (ffmpeg_path : option string) (log_to_maya : bool) : M unit :=
  set_ffmpeg_path ffmpeg_path ;;
  set_maya_logging_enabled log_to_maya ;;
  set_camera DEFAULT_CAMERA ;;
  set_resolution (ResName DEFAULT_RESOLUTION) ;;
  set_frame_range (FrName DEFAULT_FRAME_RANGE) ;;
  set_encoding DEFAULT_CONTAINER DEFAULT_ENCODER ;;
  set_h264_settings DEFAULT_H264_QUALITY DEFAULT_H264_PRESET ;;
  set_image_settings DEFAULT_IMAGE_QUALITY ;;
  set_visibility (VisName DEFAULT_VISIBILITY).

(* ------------------------------------------------------------------ *)
(** * The dialog: what [do_playblast] reads *)





(* ------------------------------------------------------------------ *)
(** * A sample session *)

Module Sample.

(** POSIX-like path arithmetic, frames written as one file per call,
    an encoder that writes the last quoted word of its command line. *)
Definition sample_platform : Platform :=
  {| os_path_join := fun a b => a ++ "/" ++ b;
     os_path_normpath := fun p => p;
     os_path_splitext := fun p => p;
     float_repr := fun q =>
       if Z.eqb (Zpos (Qden q)) 1 then PyStr.of_int (Qnum q) ++ ".0"
       else PyStr.of_int (Qnum q) ++ "/" ++ PyStr.of_int (Zpos (Qden q));
     options_repr := fun o => "{'filename': '" ++ opt_filename o ++ "', ...}";
     playblast_frames := fun o fs =>
       if String.eqb (opt_compression o) "tif" then None
       else Some ((opt_filename o ++ ".0000." ++ opt_compression o, false) :: fs);
     ffmpeg_process := fun cmd fs => (Some ["frame=    1 fps=0.0"], ("out/shot.mp4", false) :: fs);
     qdir_remove_frames := fun dir fs =>
       (filter (fun e => negb (prefix dir (fst e))) fs, true) |}.

Definition sample_viewport : Viewport :=
  {| panel_with_focus := "modelPanel4";
     focus_model_editor := Some "modelEditor4";
     panel_camera := "persp";
     editor_flags := fun k => String.eqb k "grid" || String.eqb k "polymeshes" |}.

(** A scene with the given time unit, sound node and sound file. *)
Definition scene_with (unit node file : string) : Scene :=
  {| cameras := ["front"; "persp"; "shotCam"; "side"; "top"];
     time_unit := unit;
     sound_node := node;
     sound_filename := file;
     sound_offset := 5;
     render_width := 960;
     render_height := 540;
     render_start_frame := 1;
     render_end_frame := 10;
     playback_min_time := 1;
     playback_max_time := 24;
     animation_start_time := 1;
     animation_end_time := 48;
     scene_short_name := "shot.ma";
     workspace_root := "proj";
     quicktime_command := None |}.

Definition sample_scene : Scene := scene_with "film" "" "".

Definition sample_host : Host :=
  {| files := [("bin/ffmpeg", false); ("out", true)];
     viewport := sample_viewport;
     scene := sample_scene;
     platform := sample_platform |}.

(** The attributes after construction, with the given encoder path,
    camera, visibility data and encoding. *)
Definition self_with (ffmpeg : string) (camera : option string) (vis : list bool)
    (container encoder : string) : BPlayblast :=
  {| _ffmpeg_path := ffmpeg;
     _log_to_maya := true;
     _camera := camera;
     _resolution_preset := Some "Render";
     _width_height := [960; 540];
     _frame_range_preset := Some "Render";
     _start_frame := 1;
     _end_frame := 10;
     _visibility := vis;
     _container_format := container;
     _encoder := encoder;
     _h264_quality := "High";
     _h264_preset := "fast";
     _image_quality := 100 |}.

Definition sample_self : BPlayblast := self_with "bin/ffmpeg" None [] "mp4" "h264".

(** A shot camera and the visibility of preset "Geo" are configured. *)
Definition staged_self (container encoder : string) : BPlayblast :=
  self_with "bin/ffmpeg" (Some "shotCam")
    (map (fun item => PyStr.mem (fst item) ["NURBS Surfaces"; "Polygons"])
         VIEWPORT_VISIBILITY_LOOKUP)
    container encoder.

(** The sample host with other files and another scene. *)
Definition host_with (fs : FileSystem) (s : Scene) : Host :=
  {| files := fs; viewport := sample_viewport; scene := s; platform := sample_platform |}.

Definition world_of (s : BPlayblast) (h : Host) : World :=
  {| w_self := s; w_host := h; w_signal := []; w_script_editor := []; w_calls := [] |}.

Definition sample_world : World := world_of sample_self sample_host.

End Sample.


(* ------------------------------------------------------------------ *)
(** * Vocabulary of the statements *)

(** The vector that marks the entries labelled "NURBS Surfaces" and
    "Polygons". *)
Definition geo_vector : list bool :=
  map (fun item => String.eqb (fst item) "NURBS Surfaces" || String.eqb (fst item) "Polygons")
      VIEWPORT_VISIBILITY_LOOKUP.

(** The time units with a name in [get_frame_rate]. *)
Definition named_units : list string :=
  [ "game"; "film"; "pal"; "ntsc"; "show"; "palf"; "ntscf" ].

(** The same session in another state of the host. *)
Definition at_host (w : World) (h : Host) : World :=
  {| w_self := w_self w; w_host := h; w_signal := w_signal w;
     w_script_editor := w_script_editor w; w_calls := w_calls w |}.

(** What a stored preset resolves to in a given host. *)
Definition preset_size (P : string) (h : Host) : list Z :=
  if String.eqb P "Render" then [render_width (scene h); render_height (scene h)]
  else if String.eqb P "HD 1080" then [1920; 1080]
  else if String.eqb P "HD 720" then [1280; 720]
  else [960; 540].

(** [wp c w Q]: the outcome of running [c] from [w], a result or an
    exception together with the world it leaves, satisfies [Q]. *)
Definition wp {A : Type} (c : M A) (w : World) (Q : Res A -> World -> Prop) : Prop :=
  Q (fst (c w)) (snd (c w)).

(** Only the two log streams may differ. *)
Definition only_logs (w w' : World) : Prop :=
  w_self w' = w_self w /\ w_host w' = w_host w /\ w_calls w' = w_calls w.

(** The attributes, the scene, the platform and the focused panel with
    its model editor are the same; files, camera, display flags, logs and
    the trace may differ. *)
Definition steady (w w' : World) : Prop :=
  w_self w' = w_self w /\
  scene (w_host w') = scene (w_host w) /\
  platform (w_host w') = platform (w_host w) /\
  panel_with_focus (viewport (w_host w')) = panel_with_focus (viewport (w_host w)) /\
  focus_model_editor (viewport (w_host w')) = focus_model_editor (viewport (w_host w)).

(** Camera and display flags of the focused panel are the same. *)
Definition same_view (w w' : World) : Prop :=
  panel_camera (viewport (w_host w')) = panel_camera (viewport (w_host w)) /\
  forall flag, editor_flags (viewport (w_host w')) flag
               = editor_flags (viewport (w_host w)) flag.

(** The trace grew by [d]. *)
Definition calls_ext (d : list HostCall) (w w' : World) : Prop :=
  w_calls w' = (w_calls w ++ d)%list.

(** The flags of the catalogue as the viewport shows them. *)
Definition snapshot (v : Viewport) : list bool :=
  map (fun item => editor_flags v (snd item)) VIEWPORT_VISIBILITY_LOOKUP.

(** The stored presets are names the resolvers know: what the setters
    leave behind. *)
Definition resolution_preset_ok (self : BPlayblast) : Prop :=
  match _resolution_preset self with
  | Some p => PyStr.truthy p = true -> In p (Dict.keys RESOLUTION_LOOKUP)
  | None => True
  end.

Definition frame_range_preset_ok (self : BPlayblast) : Prop :=
  match _frame_range_preset self with
  | Some p => PyStr.truthy p = true -> In p FRAME_RANGE_PRESETS
  | None => True
  end.

(** The focused panel keeps its identity, the files are the same, the
    camera and the flags are as given and the trace grew by [d]. *)
Definition view_step (camera : string) (flags : string -> bool) (d : list HostCall)
    (w w' : World) : Prop :=
  steady w w' /\
  files (w_host w') = files (w_host w) /\
  panel_camera (viewport (w_host w')) = camera /\
  editor_flags (viewport (w_host w')) = flags /\
  calls_ext d w w'.

(** Files, logs and the trace may differ; the viewport is the same. *)
Definition kept (w w' : World) : Prop :=
  steady w w' /\
  viewport (w_host w') = viewport (w_host w) /\
  exists d, calls_ext d w w'.

(** The time units [get_frame_rate] returns a rate for. *)
Definition unit_supported (u : string) : Prop :=
  In u named_units \/
  (PyStr.endswith u "fps" = true /\ exists q, PyFloat.parse (PyStr.drop_last 3 u) = Some q).

(** The encoder can run: no audio node is linked, the time unit is
    supported and the stored quality is one of the table. *)
Definition encoder_ready (w : World) : Prop :=
  sound_node (scene (w_host w)) = "" /\
  unit_supported (time_unit (scene (w_host w))) /\
  In (_h264_quality (w_self w)) (Dict.keys H264_QUALITIES).

(** The stored visibility data is empty (the viewport is used) or covers
    the catalogue. *)
Definition visibility_ok (self : BPlayblast) : Prop :=
  _visibility self = [] \/
  (length VIEWPORT_VISIBILITY_LOOKUP <= length (_visibility self))%nat.

(** Relative to [w]: the configuration is steady, the camera is [cam],
    the flags are [fl] and the trace grew by [d]. *)
Definition track (cam : string) (fl : string -> bool) (d : list HostCall)
    (w w' : World) : Prop :=
  steady w w' /\
  panel_camera (viewport (w_host w')) = cam /\
  editor_flags (viewport (w_host w')) = fl /\
  calls_ext d w w'.

(** The outcome of the part of [execute] that starts at "Store original
    viewport settings": the configuration is steady; if [cmds.playblast]
    was called, the camera and the display flags are at the end what they
    were at the start; and the part returns, without an exception, when the
    visibility data covers the catalogue and the encoder, if it is to run,
    can run. *)
Definition capture_post (w : World) (r : Res unit) (w' : World) : Prop :=
  steady w w' /\
  (exists d, calls_ext d w w' /\
             (existsb is_playblast_call d = true -> same_view w w')) /\
  (visibility_ok (w_self w) ->
   (requires_ffmpeg (w_self w) = true -> _encoder (w_self w) = "h264" -> encoder_ready w) ->
   r = Ret tt).

(** The stored configuration is one the setters accept, the visibility
    data covers the catalogue and the encoder, if it is to run, can run. *)
Definition execute_safe (w : World) : Prop :=
  resolution_preset_ok (w_self w) /\
  frame_range_preset_ok (w_self w) /\
  visibility_ok (w_self w) /\
  (requires_ffmpeg (w_self w) = true -> _encoder (w_self w) = "h264" -> encoder_ready w).

Definition execute_post (w : World) (r : Res unit) (w' : World) : Prop :=
  steady w w' /\
  (exists d, calls_ext d w w' /\
             (existsb is_playblast_call d = true -> same_view w w')) /\
  (execute_safe w -> r = Ret tt).

(** The output directory and file name after the substitution of
    [{project}] and [{scene}], and the path of the encoded file. *)
Definition resolved_directory (h : Host) (output_dir : string) : string :=
  if PyStr.contains "{project}" output_dir
  then PyStr.replace "{project}" (workspace_root (scene h)) output_dir
  else output_dir.

Definition resolved_filename (h : Host) (filename : string) : string :=
  if PyStr.contains "{scene}" filename
  then PyStr.replace "{scene}"
         (if PyStr.truthy (scene_short_name (scene h))
          then os_path_splitext (platform h) (scene_short_name (scene h))
          else "untitled") filename
  else filename.

Definition artifact_path (self : BPlayblast) (h : Host) (output_dir filename : string)
  : string :=
  os_path_normpath (platform h)
    (os_path_join (platform h) (resolved_directory h output_dir)
       (resolved_filename h filename ++ "." ++ _container_format self)).

(** The encoder path is set and names a file that is no directory. *)
Definition ffmpeg_usable (w : World) : Prop :=
  PyStr.truthy (_ffmpeg_path (w_self w)) = true /\
  path_exists (files (w_host w)) (_ffmpeg_path (w_self w)) = true /\
  path_isdir (files (w_host w)) (_ffmpeg_path (w_self w)) = false.

(** The focused panel is a model panel: a viewport is active. *)
Definition viewport_active (w : World) : Prop :=
  (exists ed, focus_model_editor (viewport (w_host w)) = Some ed) /\
  PyStr.truthy (panel_with_focus (viewport (w_host w))) = true.

(** ** Vocabulary of the further properties *)

(** An argument [set_resolution] rejects: a name that is no preset, or a
    pair with a component that is not positive. *)
Definition resolution_rejected (arg : ResolutionArg) : Prop :=
  match arg with
  | ResName name => ~ In name (Dict.keys RESOLUTION_LOOKUP)
  | ResPair width height => width <= 0 \/ height <= 0
  end.

(** [z] is [x] cut towards zero. *)
Definition truncation_of (x : Q) (z : Z) : Prop :=
  ((0 <= x)%Q -> (inject_Z z <= x)%Q /\ (x < inject_Z z + 1)%Q) /\
  ((x <= 0)%Q -> (inject_Z z - 1 < x)%Q /\ (x <= inject_Z z)%Q).

(** The frame range a preset gives in a host. *)
Definition preset_frames (P : string) (h : Host) : Q * Q :=
  if String.eqb P "Render" then (render_start_frame (scene h), render_end_frame (scene h))
  else if String.eqb P "Playback"
  then (py_int (playback_min_time (scene h)), py_int (playback_max_time (scene h)))
  else (py_int (animation_start_time (scene h)), py_int (animation_end_time (scene h))).

(** The flag names of the catalogue, in its order. *)
Definition flag_names : list string := map snd VIEWPORT_VISIBILITY_LOOKUP.

(** The command line of the specification when no audio is present. *)
Definition h264_command (ffmpeg fps frame_pattern : string) (crf : Z)
    (preset output_path : string) : string :=
  ffmpeg ++ " -y -framerate " ++ fps ++ " -i " ++ PyStr.quoted frame_pattern
    ++ " -c:v libx264 -crf:v " ++ PyStr.of_int crf ++ " -preset:v " ++ preset
    ++ " -profile high -level 4.0 -pix_fmt yuv420p " ++ PyStr.quoted output_path.

(** No element occurs twice. *)
Fixpoint distinct (l : list string) : bool :=
  match l with
  | [] => true
  | x :: rest => negb (PyStr.mem x rest) && distinct rest
  end.

(** ** Vocabulary of the properties of [execute] *)

(** The camera of the capture: the stored one, else the active one. *)
Definition capture_camera (w : World) : option string :=
  if PyStr.truthy_opt (_camera (w_self w)) then _camera (w_self w)
  else Some (panel_camera (viewport (w_host w))).

(** The visibility data of the capture: the stored data, and the flags of
    the viewport when none is stored. *)
Definition capture_data (w : World) : list bool :=
  match _visibility (w_self w) with
  | [] => snapshot (viewport (w_host w))
  | b :: l => b :: l
  end.

(** The directory of the intermediate frames. *)
Definition temp_directory (h : Host) (output_dir : string) : string :=
  resolved_directory h output_dir ++ "/playblast_temp".

(** The pattern of the intermediate frames given to the encoder. *)
Definition frame_pattern (h : Host) (output_dir filename : string) (padding : Z) : string :=
  temp_directory h output_dir ++ "/" ++ resolved_filename h filename ++ ".%0"
    ++ PyStr.of_int (if padding <=? 0 then DEFAULT_PADDING else padding) ++ "d.png".

(** What the resolvers return in a world; a default if they raise. *)
Definition resolved_size (w : World) : list Z :=
  match fst (get_resolution_width_height w) with
  | Ret l => l
  | Raise _ => []
  end.

Definition resolved_frames (w : World) : Q * Q :=
  match fst (get_start_end_frame w) with
  | Ret p => p
  | Raise _ => (0%Q, 0%Q)
  end.

(** The options of the capture as step 6 of the specification lists
    them. *)
Definition capture_options (w : World) (output_dir filename : string) (padding : Z)
    (show_ornaments show_in_viewer overwrite : bool) : PlayblastOptions :=
  let h := w_host w in
  let self := w_self w in
  let encoding := requires_ffmpeg self in
  {| opt_filename :=
       os_path_normpath (platform h)
         (os_path_join (platform h)
            (if encoding then temp_directory h output_dir
             else resolved_directory h output_dir)
            (resolved_filename h filename));
     opt_widthHeight := resolved_size w;
     opt_percent := 100;
     opt_startTime := fst (resolved_frames w);
     opt_endTime := snd (resolved_frames w);
     opt_clearCache := true;
     opt_forceOverwrite := if encoding then true else overwrite;
     opt_format := "image";
     opt_compression := if encoding then "png" else _encoder self;
     opt_quality := if encoding then 100 else _image_quality self;
     opt_indexFromZero := encoding;
     opt_framePadding := if padding <=? 0 then DEFAULT_PADDING else padding;
     opt_showOrnaments := show_ornaments;
     opt_viewer := if encoding then false else show_in_viewer |}.

(** The locals of [execute] that [compute_targets] binds. *)
Definition capture_targets (w : World) (output_dir filename : string)
    (show_in_viewer overwrite : bool) : Targets :=
  let h := w_host w in
  let self := w_self w in
  if requires_ffmpeg self then
    {| tg_output_path := artifact_path self h output_dir filename;
       tg_playblast_output_dir := temp_directory h output_dir;
       tg_playblast_output :=
         os_path_normpath (platform h)
           (os_path_join (platform h) (temp_directory h output_dir)
              (resolved_filename h filename));
       tg_force_overwrite := true;
       tg_compression := "png";
       tg_image_quality := 100;
       tg_index_from_zero := true;
       tg_viewer := false |}
  else
    {| tg_output_path := "";
       tg_playblast_output_dir := "";
       tg_playblast_output :=
         os_path_normpath (platform h)
           (os_path_join (platform h) (resolved_directory h output_dir)
              (resolved_filename h filename));
       tg_force_overwrite := overwrite;
       tg_compression := _encoder self;
       tg_image_quality := _image_quality self;
       tg_index_from_zero := false;
       tg_viewer := show_in_viewer |}.

(** The checks of [execute] before the capture pass: the encoder path is
    usable if an encoder is required, the focused panel is a model panel
    with editor [ed], directory and file name are not empty, the encoded
    file is not in the way, and the stored presets are names of the
    tables. *)
Definition preflight_ok (w : World) (output_dir filename : string) (overwrite : bool)
    (ed : string) : Prop :=
  (requires_ffmpeg (w_self w) = true -> ffmpeg_usable w) /\
  focus_model_editor (viewport (w_host w)) = Some ed /\
  PyStr.truthy (panel_with_focus (viewport (w_host w))) = true /\
  output_dir <> "" /\
  filename <> "" /\
  (requires_ffmpeg (w_self w) = true -> overwrite = false ->
   path_exists (files (w_host w))
     (artifact_path (w_self w) (w_host w) output_dir filename) = false) /\
  resolution_preset_ok (w_self w) /\
  frame_range_preset_ok (w_self w).

(** The host commands of the capture up to [cmds.playblast], and those
    of the restoration. *)
Definition capture_calls (w : World) (c ed : string) (options : PlayblastOptions)
  : list HostCall :=
  [ CallLookThrough c (panel_with_focus (viewport (w_host w)));
    CallModelEditorEdit ed (combine flag_names (capture_data w));
    CallPlayblast options ].

Definition restore_calls (w : World) (ed : string) : list HostCall :=
  [ CallLookThrough (panel_camera (viewport (w_host w)))
      (panel_with_focus (viewport (w_host w)));
    CallModelEditorEdit ed (combine flag_names (snapshot (viewport (w_host w)))) ].

(** The configuration is steady, the trace grew by [d] and the log by
    [lines]. *)
Definition moved (d : list HostCall) (lines : list string) (w w' : World) : Prop :=
  steady w w' /\
  w_calls w' = app (w_calls w) d /\
  w_signal w' = app (w_signal w) lines.

(** The code of [capture_and_encode] that follows a capture that did not
    fail. *)
Definition encode_and_clean (self : BPlayblast) (filename : string) (padding : Z)
    (show_in_viewer : bool) (t : Targets) (start_frame : Q) : M unit :=
  if requires_ffmpeg self then
    let source_path :=
      tg_playblast_output_dir t ++ "/" ++ filename ++ ".%0"
        ++ PyStr.of_int padding ++ "d.png" in
    if String.eqb (_encoder self) "h264" then
      encode_h264 source_path (tg_output_path t) start_frame ;;
      remove_temp_dir (tg_playblast_output_dir t) ;;
      if show_in_viewer then open_in_viewer (tg_output_path t) else ret tt
    else
      log_error ("Encoding failed. Unsupported encoder (" ++ _encoder self
                   ++ ") for container (" ++ _container_format self ++ ")") ;;
      remove_temp_dir (tg_playblast_output_dir t)
  else ret tt.


(** The capture can start: the checks pass, the camera of the capture is
    [c], a camera of the scene, and the visibility data covers the
    catalogue. *)
Definition capture_ready (w : World) (output_dir filename : string) (overwrite : bool)
    (ed c : string) : Prop :=
  preflight_ok w output_dir filename overwrite ed /\
  capture_camera w = Some c /\
  In c (cameras (scene (w_host w))) /\
  (length VIEWPORT_VISIBILITY_LOOKUP <= length (capture_data w))%nat.

(** The line that [execute] logs before the capture. *)
Definition options_line (w : World) (options : PlayblastOptions) : string :=
  "Playblast options: " ++ options_repr (platform (w_host w)) options.

(** A command that opens the result in a viewer. *)
Definition is_viewer_call (c : HostCall) : bool :=
  match c with
  | CallStartDetached _ _ | CallOpenUrl _ => true
  | _ => false
  end.


(** The attributes of an instance constructed in host [h]. *)
Definition fresh_instance (ffmpeg_path : option string) (log_to_maya : bool) (h : Host)
  : BPlayblast :=
  {| _ffmpeg_path := match ffmpeg_path with Some path => path | None => "" end;
     _log_to_maya := log_to_maya;
     _camera := None;
     _resolution_preset := Some "Render";
     _width_height := [render_width (scene h); render_height (scene h)];
     _frame_range_preset := Some "Render";
     _start_frame := render_start_frame (scene h);
     _end_frame := render_end_frame (scene h);
     _visibility := [];
     _container_format := "mp4";
     _encoder := "h264";
     _h264_quality := "High";
     _h264_preset := "fast";
     _image_quality := 100 |}.

(** The calls by which a client configures an instance. *)
Inductive Setter :=
| SetFfmpegPath (ffmpeg_path : option string)
| SetMayaLoggingEnabled (enabled : bool)
| SetCamera (camera : option string)
| SetResolution (resolution : ResolutionArg)
| SetFrameRange (frame_range : FrameRangeArg)
| SetEncoding (container_format encoder : string)
| SetH264Settings (quality preset : string)
| SetImageSettings (quality : Z)
| SetVisibility (visibility_data : VisibilityArg).

Definition call (s : Setter) : M unit :=
  match s with
  | SetFfmpegPath ffmpeg_path => set_ffmpeg_path ffmpeg_path
  | SetMayaLoggingEnabled enabled => set_maya_logging_enabled enabled
  | SetCamera camera => set_camera camera
  | SetResolution resolution => set_resolution resolution
  | SetFrameRange frame_range => set_frame_range frame_range
  | SetEncoding container_format encoder => set_encoding container_format encoder
  | SetH264Settings quality preset => set_h264_settings quality preset
  | SetImageSettings quality => set_image_settings quality
  | SetVisibility visibility_data => set_visibility visibility_data
  end.

(** The world after a sequence of calls, each of which returned or
    raised. *)
Definition configured (calls : list Setter) (w : World) : World :=
  fold_left (fun w s => snd (call s w)) calls w.

(** What the constructor establishes and every setter keeps. *)
Definition well_configured (self : BPlayblast) (h : Host) : Prop :=
  resolution_preset_ok self /\
  frame_range_preset_ok self /\
  (exists width height,
     _width_height self = [width; height] /\ 0 < width /\ 0 < height) /\
  (PyStr.truthy_opt (_camera self) = true ->
   exists c, _camera self = Some c /\ In c (cameras (scene h))) /\
  In (_container_format self) (Dict.keys VIDEO_ENCODER_LOOKUP) /\
  In (_h264_quality self) (Dict.keys H264_QUALITIES) /\
  In (_h264_preset self) H264_PRESETS /\
  0 < _image_quality self <= 100.

(** The name of the scene as [get_scene_name] returns it. *)
Definition scene_name (h : Host) : string :=
  if PyStr.truthy (scene_short_name (scene h))
  then os_path_splitext (platform h) (scene_short_name (scene h))
  else "untitled".

(* ------------------------------------------------------------------ *)
(** * Strings: the suffix test and the slice agree with concatenation *)






(* ------------------------------------------------------------------ *)
(** * Visibility presets *)

(** C5, as stated, fails: the vector of preset "Geo" has one entry per
    entry of the catalogue, and the catalogue has 37 entries, not 35. *)
Lemma geo_visibility_length_is_not_35 :
  exists v, fst (preset_to_visibility "Geo" Sample.sample_world) = Ret (Some v)
            /\ length v <> 35%nat.
Proof.
  eexists. split; [reflexivity|]. vm_compute. discriminate.
Qed.

(** C5, amended: preset "Geo" resolves, without logging, to a boolean
    vector of length 37 aligned with [VIEWPORT_VISIBILITY_LOOKUP], in which
    exactly the slots labelled "NURBS Surfaces" and "Polygons" (two slots)
    are true and every other slot is false. *)
Theorem geo_visibility_vector (w : World) :
  exists v, preset_to_visibility "Geo" w = (Ret (Some v), w)
            /\ v = geo_vector
            /\ length v = length VIEWPORT_VISIBILITY_LOOKUP
            /\ length v = 37%nat
            /\ count_occ bool_dec v true = 2%nat
            /\ nth_error v 2 = Some true
            /\ nth_error v 5 = Some true.
Proof.
  exists geo_vector. repeat split.
Qed.

(* ------------------------------------------------------------------ *)
(** * Frame rate *)

Lemma get_frame_rate_state (w : World) : snd (get_frame_rate w) = w.
Proof.
  unfold get_frame_rate, bind, get_host, ret, raise; simpl.
  repeat match goal with
         | |- context [if ?b then _ else _] => destruct b
         | |- context [match ?o with Some _ => _ | None => _ end] => destruct o
         end; reflexivity.
Qed.

Lemma get_frame_rate_fps (w : World) :
  PyStr.endswith (time_unit (scene (w_host w))) "fps" = true ->
  fst (get_frame_rate w) =
    match PyFloat.parse (PyStr.drop_last 3 (time_unit (scene (w_host w)))) with
    | Some q => Ret q
    | None => Raise (ValueError ("could not convert string to float: "
                                   ++ PyStr.drop_last 3 (time_unit (scene (w_host w)))))
    end.
Proof.
  intros E. unfold get_frame_rate, bind, get_host, ret, raise; simpl.
  set (u := time_unit (scene (w_host w))) in *.
  repeat match goal with
         | |- context [String.eqb u ?n] =>
             destruct (String.eqb_spec u n) as [U|_];
             [rewrite U in E; vm_compute in E; discriminate|]
         end.
  rewrite E. destruct (PyFloat.parse _); reflexivity.
Qed.



(* ------------------------------------------------------------------ *)
(** * Audio offset *)



(* ------------------------------------------------------------------ *)
(** * Encoding and camera setters *)

(** Symbolic execution of the monadic layer: the monad, the accessors of
    the world and the logging methods are unfolded, strings are left
    alone. *)
Ltac msimpl :=
  cbv beta iota zeta delta
    [bind ret raise try_except finally get_self get_host put_self put_host
     emit display record_call log_error log_warning log_output];
  cbn [w_self w_host w_signal w_script_editor w_calls fst snd negb andb orb].

Ltac msimpl_in H :=
  cbv beta iota zeta delta
    [bind ret raise try_except finally get_self get_host put_self put_host
     emit display record_call log_error log_warning log_output] in H;
  cbn [w_self w_host w_signal w_script_editor w_calls fst snd negb andb orb] in H.

Ltac splits := repeat match goal with |- _ /\ _ => split end.

Lemma mem_In (x : string) (l : list string) : PyStr.mem x l = true <-> In x l.
Proof.
  unfold PyStr.mem. rewrite existsb_exists. split.
  - intros [y [Hy E]]. apply String.eqb_eq in E. now subst.
  - intros H. exists x. split; [exact H | apply String.eqb_refl].
Qed.

Lemma mem_not_In (x : string) (l : list string) : PyStr.mem x l = false <-> ~ In x l.
Proof.
  rewrite <- mem_In. destruct (PyStr.mem x l); split; intros; congruence.
Qed.

Lemma truthy_nonempty (s : string) : PyStr.truthy s = true <-> s <> "".
Proof.
  unfold PyStr.truthy. destruct (String.eqb_spec s ""); simpl; split; intros; congruence.
Qed.

(** C2 fails on the code.  With the accepted pair (mp4, h264) stored,
    [set_encoding("mp4", "png")] logs the error and then stores the invalid
    pair; [set_encoding("avi", "h264")] logs the error and then raises
    [KeyError] from the table lookup. *)
Theorem set_encoding_invalid_pair_behaviour :
  let w := Sample.sample_world in
  (_container_format (w_self w), _encoder (w_self w)) = ("mp4", "h264") /\
  PyStr.mem "png" ["h264"] = false /\
  fst (set_encoding "mp4" "png" w) = Ret tt /\
  w_signal (snd (set_encoding "mp4" "png" w))
    = ["[ERROR] Invalid encoder: png. Expected one of ['h264']"] /\
  (_container_format (w_self (snd (set_encoding "mp4" "png" w))),
   _encoder (w_self (snd (set_encoding "mp4" "png" w)))) = ("mp4", "png") /\
  fst (set_encoding "avi" "h264" w) = Raise (KeyError "avi") /\
  w_signal (snd (set_encoding "avi" "h264" w))
    = ["[ERROR] Invalid container: avi. Expected one of dict_keys(['mov', 'mp4', 'Image'])"] /\
  w_self (snd (set_encoding "avi" "h264" w)) = w_self w.
Proof.
  repeat split.
Qed.

(** Whatever was stored, a container of the table with an encoder it does
    not list is stored after one error is logged. *)
Lemma set_encoding_known_container (w : World) (container encoder : string)
    (encoders : list string) :
  Dict.get container VIDEO_ENCODER_LOOKUP = Some encoders ->
  PyStr.mem encoder encoders = false ->
  fst (set_encoding container encoder w) = Ret tt /\
  _container_format (w_self (snd (set_encoding container encoder w))) = container /\
  _encoder (w_self (snd (set_encoding container encoder w))) = encoder /\
  w_signal (snd (set_encoding container encoder w))
    = app (w_signal w) ["[ERROR] Invalid encoder: " ++ encoder ++ ". Expected one of "
                          ++ PyStr.repr_list encoders].
Proof.
  intros G Hm. unfold set_encoding.
  assert (K : PyStr.mem container (Dict.keys VIDEO_ENCODER_LOOKUP) = true).
  { revert G. unfold VIDEO_ENCODER_LOOKUP. simpl.
    repeat match goal with
           | |- context [String.eqb container ?n] => destruct (String.eqb container n)
           end; simpl; congruence. }
  rewrite K, G, Hm. msimpl.
  destruct (_log_to_maya (w_self w)); msimpl; repeat split.
Qed.



(* ------------------------------------------------------------------ *)
(** * Resolution presets *)

Lemma set_resolution_stores_preset (w : World) (P : string) :
  In P ["Render"; "HD 1080"; "HD 720"; "HD 540"] ->
  _resolution_preset (w_self (snd (set_resolution (ResName P) w))) = Some P.
Proof.
  intros HP. simpl in HP.
  destruct HP as [<-|[<-|[<-|[<-|[]]]]]; unfold set_resolution, preset_to_resolution;
    cbn [String.eqb Ascii.eqb Bool.eqb Dict.has_key Dict.keys Dict.get PyStr.mem existsb map fst
         RESOLUTION_LOOKUP orb andb]; msimpl; try reflexivity.
  destruct ((render_width (scene (w_host w)) <=? 0) || (render_height (scene (w_host w)) <=? 0));
    msimpl; [destruct (_log_to_maya _); msimpl|]; reflexivity.
Qed.

Lemma get_resolution_of_stored_preset (w : World) (P : string) :
  _resolution_preset (w_self w) = Some P ->
  In P ["Render"; "HD 1080"; "HD 720"; "HD 540"] ->
  get_resolution_width_height w = (Ret (preset_size P (w_host w)), w).
Proof.
  intros S HP. unfold get_resolution_width_height. msimpl. rewrite S.
  simpl in HP. destruct HP as [<-|[<-|[<-|[<-|[]]]]]; reflexivity.
Qed.

(** C9: with a preset [P] of the resolution table stored by
    [set_resolution], [get_resolution_width_height] returns a pair of
    integers: the entry of the table for "HD 1080", "HD 720" and "HD 540",
    and for "Render" the render resolution of the host in which the getter
    runs ([h]), not of the host in which the preset was set ([w_host w]).
    The pair is positive, for "Render" because the render resolution of the
    host is. *)
Theorem resolution_preset_resolves_at_call (w : World) (h : Host) (P : string) :
  In P ["Render"; "HD 1080"; "HD 720"; "HD 540"] ->
  0 < render_width (scene h) ->
  0 < render_height (scene h) ->
  let stored := snd (set_resolution (ResName P) w) in
  _resolution_preset (w_self stored) = Some P /\
  exists width height,
    get_resolution_width_height (at_host stored h) = (Ret [width; height], at_host stored h) /\
    0 < width /\ 0 < height /\
    ((P = "Render" /\ width = render_width (scene h) /\ height = render_height (scene h)) \/
     (P = "HD 1080" /\ width = 1920 /\ height = 1080) \/
     (P = "HD 720" /\ width = 1280 /\ height = 720) \/
     (P = "HD 540" /\ width = 960 /\ height = 540)).
Proof.
  intros HP Hw Hh stored.
  assert (S : _resolution_preset (w_self stored) = Some P)
    by (apply set_resolution_stores_preset; exact HP).
  split; [exact S|].
  pose proof (get_resolution_of_stored_preset (at_host stored h) P S HP) as G.
  rewrite G. simpl in HP.
  destruct HP as [<-|[<-|[<-|[<-|[]]]]]; cbn [preset_size String.eqb Ascii.eqb Bool.eqb at_host w_host];
    do 2 eexists; (split; [reflexivity|]); (split; [|split]); try lia; tauto.
Qed.

Lemma resolution_preset_resolves_at_call_witness :
  let h2 := with_scene Sample.sample_host
              {| cameras := []; time_unit := "film"; sound_node := ""; sound_filename := "";
                 sound_offset := 0; render_width := 2048; render_height := 858;
                 render_start_frame := 1; render_end_frame := 1;
                 playback_min_time := 1; playback_max_time := 1;
                 animation_start_time := 1; animation_end_time := 1;
                 scene_short_name := ""; workspace_root := "";
                 quicktime_command := None |} in
  let stored := snd (set_resolution (ResName "Render") Sample.sample_world) in
  render_width (scene (w_host stored)) = 960 /\
  fst (get_resolution_width_height (at_host stored h2)) = Ret [2048; 858].
Proof.
  intros h2 stored. split; [reflexivity|].
  destruct (resolution_preset_resolves_at_call Sample.sample_world h2 "Render")
    as [_ [width [height [G [_ [_ C]]]]]].
  - simpl. tauto.
  - simpl. lia.
  - simpl. lia.
  - fold stored in G. rewrite G. simpl.
    destruct C as [[_ [-> ->]]|[[E _]|[[E _]|[E _]]]]; try discriminate E. reflexivity.
Defined.

(* ------------------------------------------------------------------ *)
(** * Reasoning about runs *)

Section WpRules.

Context {A B : Type}.

Lemma wp_bind (c : M A) (k : A -> M B) (w : World) (Q : Res B -> World -> Prop) :
  wp c w (fun r w' => match r with
                      | Ret a => wp (k a) w' Q
                      | Raise e => Q (Raise e) w'
                      end) ->
  wp (bind c k) w Q.
Proof.
  unfold wp, bind. destruct (c w) as [[a|e] w']; simpl; auto.
Qed.

Lemma wp_mono (c : M A) (w : World) (P Q : Res A -> World -> Prop) :
  wp c w P -> (forall r w', P r w' -> Q r w') -> wp c w Q.
Proof. unfold wp. auto. Qed.

Lemma wp_ret (a : A) (w : World) (Q : Res A -> World -> Prop) :
  Q (Ret a) w -> wp (ret a) w Q.
Proof. unfold wp, ret. auto. Qed.

Lemma wp_raise (e : Exn) (w : World) (Q : Res A -> World -> Prop) :
  Q (Raise e) w -> wp (raise e) w Q.
Proof. unfold wp, raise. auto. Qed.

Lemma wp_eq (c : M A) (w w' : World) (r : Res A) (Q : Res A -> World -> Prop) :
  c w = (r, w') -> Q r w' -> wp c w Q.
Proof. unfold wp. intros ->. auto. Qed.

Lemma wp_pair (c : M A) (w : World) (Q : Res A -> World -> Prop) :
  (forall r w', c w = (r, w') -> Q r w') -> wp c w Q.
Proof. unfold wp. intros H. apply H. now destruct (c w). Qed.

Lemma wp_try_except (body handler : M A) (w : World) (Q : Res A -> World -> Prop) :
  wp body w (fun r w' => match r with
                         | Ret a => Q (Ret a) w'
                         | Raise _ => wp handler w' Q
                         end) ->
  wp (try_except body handler) w Q.
Proof.
  unfold wp, try_except. destruct (body w) as [[a|e] w']; simpl; auto.
Qed.

Lemma wp_finally (body : M A) (cleanup : M unit) (w : World)
    (Q : Res A -> World -> Prop) :
  wp body w (fun r w' =>
    wp cleanup w' (fun r2 w'' => match r2 with
                                 | Ret _ => Q r w''
                                 | Raise e => Q (Raise e) w''
                                 end)) ->
  wp (finally body cleanup) w Q.
Proof.
  unfold wp, finally. destruct (body w) as [r w']; simpl.
  destruct (cleanup w') as [[u|e] w'']; simpl; auto.
Qed.

End WpRules.

(** One statement of a method: the rule of [bind], then the
    specification [spec] of the first computation. *)
Ltac wp_step spec :=
  apply wp_bind; eapply wp_mono; [eapply spec | cbv beta].

(** The same when the run of the first computation is known. *)
Ltac wp_run eqn :=
  apply wp_bind; eapply wp_eq; [apply eqn|]; cbv beta iota.

Lemma only_logs_refl (w : World) : only_logs w w.
Proof. repeat split. Qed.

Lemma only_logs_trans (w1 w2 w3 : World) :
  only_logs w1 w2 -> only_logs w2 w3 -> only_logs w1 w3.
Proof. unfold only_logs. intuition congruence. Qed.

Lemma only_logs_steady (w w' : World) : only_logs w w' -> steady w w'.
Proof. unfold only_logs, steady. intros (S & H & _). rewrite H. auto. Qed.

Lemma only_logs_same_view (w w' : World) : only_logs w w' -> same_view w w'.
Proof. unfold only_logs, same_view. intros (_ & H & _). rewrite H. auto. Qed.

Lemma steady_refl (w : World) : steady w w.
Proof. repeat split. Qed.

Lemma steady_trans (w1 w2 w3 : World) : steady w1 w2 -> steady w2 w3 -> steady w1 w3.
Proof. unfold steady. intuition congruence. Qed.

Lemma same_view_trans (w1 w2 w3 : World) :
  same_view w1 w2 -> same_view w2 w3 -> same_view w1 w3.
Proof.
  unfold same_view. intros [C1 F1] [C2 F2]. split; [congruence|].
  intros k. now rewrite F2.
Qed.

(** ** Logging *)

Lemma log_error_run (text : string) (w : World) :
  fst (log_error text w) = Ret tt /\
  only_logs w (snd (log_error text w)) /\
  w_signal (snd (log_error text w)) = app (w_signal w) ["[ERROR] " ++ text].
Proof.
  msimpl. destruct (_log_to_maya (w_self w)); msimpl; repeat split.
Qed.

Lemma log_error_wp (text : string) (w : World) :
  wp (log_error text) w (fun r w' => r = Ret tt /\ only_logs w w').
Proof. unfold wp. pose proof (log_error_run text w). tauto. Qed.

Lemma log_warning_wp (text : string) (w : World) :
  wp (log_warning text) w (fun r w' => r = Ret tt /\ only_logs w w').
Proof.
  unfold wp. msimpl. destruct (_log_to_maya (w_self w)); msimpl; repeat split.
Qed.

Lemma log_output_wp (text : string) (w : World) :
  wp (log_output text) w (fun r w' => r = Ret tt /\ only_logs w w').
Proof.
  unfold wp. msimpl. destruct (_log_to_maya (w_self w)); msimpl; repeat split.
Qed.

Lemma for_each_log_output_wp (chunks : list string) (w : World) :
  wp (for_each log_output chunks) w (fun r w' => (exists l, r = Ret l) /\ only_logs w w').
Proof.
  revert w. induction chunks as [|c rest IH]; intros w; cbn [for_each].
  - apply wp_ret. split; [eauto | apply only_logs_refl].
  - wp_step log_output_wp. intros r w1 [-> L1].
    wp_step IH. intros r w2 [[l ->] L2].
    apply wp_ret. split; [eauto | eapply only_logs_trans; eauto].
Qed.

(** ** Read-only methods *)

Ltac case_if :=
  match goal with
  | |- context [if ?b then _ else _] => destruct b eqn:?
  | |- context [match ?o with Some _ => _ | None => _ end] => destruct o eqn:?
  end.

Lemma os_path_exists_run (p : string) (w : World) :
  os_path_exists p w = (Ret (path_exists (files (w_host w)) p), w).
Proof. reflexivity. Qed.

Lemma os_path_isdir_run (p : string) (w : World) :
  os_path_isdir p w = (Ret (path_isdir (files (w_host w)) p), w).
Proof. reflexivity. Qed.

Lemma validate_ffmpeg_wp (w : World) :
  wp validate_ffmpeg w (fun r w' => (exists b, r = Ret b) /\ only_logs w w').
Proof.
  unfold wp, validate_ffmpeg, os_path_exists, os_path_isdir. msimpl.
  repeat (case_if; msimpl); split; eauto; repeat split.
Qed.

(** With a usable encoder path the validation logs nothing. *)
Lemma validate_ffmpeg_ok (w : World) :
  PyStr.truthy (_ffmpeg_path (w_self w)) = true ->
  path_exists (files (w_host w)) (_ffmpeg_path (w_self w)) = true ->
  path_isdir (files (w_host w)) (_ffmpeg_path (w_self w)) = false ->
  validate_ffmpeg w = (Ret true, w).
Proof.
  intros T E D. unfold validate_ffmpeg, os_path_exists, os_path_isdir. msimpl.
  rewrite T. msimpl. rewrite E. msimpl. rewrite D. reflexivity.
Qed.

Lemma get_viewport_panel_ok (w : World) (ed : string) :
  focus_model_editor (viewport (w_host w)) = Some ed ->
  get_viewport_panel w = (Ret (Some (panel_with_focus (viewport (w_host w)))), w).
Proof.
  intros E. unfold get_viewport_panel, cmds_getPanel_withFocus, cmds_modelPanel_modelEditor.
  msimpl. rewrite E, String.eqb_refl. reflexivity.
Qed.

Lemma get_viewport_panel_wp (w : World) :
  wp get_viewport_panel w (fun r w' =>
    only_logs w w' /\
    (r = Ret None \/
     (r = Ret (Some (panel_with_focus (viewport (w_host w)))) /\
      exists ed, focus_model_editor (viewport (w_host w)) = Some ed))).
Proof.
  destruct (focus_model_editor (viewport (w_host w))) as [ed|] eqn:E.
  - eapply wp_eq; [apply (get_viewport_panel_ok w ed E)|].
    split; [apply only_logs_refl | right; eauto].
  - unfold wp, get_viewport_panel, cmds_getPanel_withFocus, cmds_modelPanel_modelEditor.
    msimpl. rewrite E. msimpl. case_if; msimpl; split; auto; repeat split.
Qed.

Lemma resolve_output_directory_path_run (dir_path : string) (w : World) :
  exists s, resolve_output_directory_path dir_path w = (Ret s, w).
Proof.
  unfold resolve_output_directory_path, get_project_dir_path. msimpl.
  case_if; eauto.
Qed.

Lemma resolve_output_filename_run (filename : string) (w : World) :
  exists s, resolve_output_filename filename w = (Ret s, w).
Proof.
  unfold resolve_output_filename, get_scene_name. msimpl.
  repeat (case_if; msimpl); eauto.
Qed.

Lemma compute_targets_wp (output_dir filename : string) (show_in_viewer overwrite : bool)
    (w : World) :
  wp (compute_targets output_dir filename show_in_viewer overwrite) w
     (fun r w' => (exists o, r = Ret o) /\ only_logs w w').
Proof.
  unfold wp, compute_targets, os_path_exists. msimpl.
  repeat (case_if; msimpl); split; eauto; repeat split.
Qed.

Lemma get_resolution_width_height_wp (w : World) :
  wp get_resolution_width_height w (fun r w' =>
    w' = w /\ (resolution_preset_ok (w_self w) -> exists l, r = Ret l)).
Proof.
  unfold wp, get_resolution_width_height, resolution_preset_ok, preset_to_resolution.
  msimpl. destruct (_resolution_preset (w_self w)) as [p|]; [|msimpl; split; eauto].
  destruct (PyStr.truthy p); [|msimpl; split; eauto].
  destruct (String.eqb p "Render"); msimpl; [split; eauto|].
  destruct (Dict.has_key p RESOLUTION_LOOKUP) eqn:K.
  - unfold Dict.has_key, Dict.keys, RESOLUTION_LOOKUP in K. cbn [map fst PyStr.mem existsb] in K.
    unfold RESOLUTION_LOOKUP. cbn [Dict.get].
    repeat match goal with
           | |- context [String.eqb p ?n] => destruct (String.eqb p n)
           end; msimpl; split; eauto. cbn in K. discriminate K.
  - split; [reflexivity|]. intros H. specialize (H eq_refl).
    apply mem_In in H. unfold Dict.has_key in K. congruence.
Qed.

Lemma get_start_end_frame_wp (w : World) :
  wp get_start_end_frame w (fun r w' =>
    w' = w /\ (frame_range_preset_ok (w_self w) -> exists se, r = Ret se)).
Proof.
  unfold wp, get_start_end_frame, frame_range_preset_ok, preset_to_frame_range.
  msimpl. destruct (_frame_range_preset (w_self w)) as [p|]; [|msimpl; split; eauto].
  destruct (PyStr.truthy p); [|msimpl; split; eauto].
  destruct (String.eqb_spec p "Render"); [msimpl; split; eauto|].
  destruct (String.eqb_spec p "Playback"); [msimpl; split; eauto|].
  destruct (String.eqb_spec p "Animation"); [msimpl; split; eauto|].
  msimpl. split; [reflexivity|]. intros H. specialize (H eq_refl). simpl in H. intuition congruence.
Qed.

(** ** Dictionaries of flags *)

Lemma dict_get_set {V : Type} (k k' : string) (v : V) (d : list (string * V)) :
  Dict.get k (Dict.set k' v d) = if String.eqb k k' then Some v else Dict.get k d.
Proof.
  induction d as [|[k0 v0] rest IH]; cbn [Dict.set Dict.get].
  - reflexivity.
  - destruct (String.eqb_spec k' k0) as [->|N]; cbn [Dict.get].
    + destruct (String.eqb k k0); reflexivity.
    + rewrite IH. destruct (String.eqb_spec k k0) as [->|N0]; [|reflexivity].
      destruct (String.eqb_spec k0 k'); congruence.
Qed.

Lemma visibility_flags_loop_state (items : list (string * string))
    (data : option (list bool)) (idx : nat) (acc : list (string * bool)) (w : World) :
  snd (visibility_flags_loop items data idx acc w) = w.
Proof.
  revert idx acc. induction items as [|item rest IH]; intros idx acc;
    cbn [visibility_flags_loop]; [reflexivity|].
  destruct data as [data|]; [|reflexivity].
  destruct (nth_error data idx); [apply IH | reflexivity].
Qed.

(** Keys outside the catalogue are not touched. *)
Lemma visibility_flags_loop_keys (items : list (string * string))
    (data : option (list bool)) (idx : nat) (acc d : list (string * bool)) (w : World) :
  fst (visibility_flags_loop items data idx acc w) = Ret d ->
  forall k, PyStr.mem k (map snd items) = false -> Dict.get k d = Dict.get k acc.
Proof.
  revert idx acc. induction items as [|item rest IH]; intros idx acc;
    cbn [visibility_flags_loop].
  - intros [= <-]. reflexivity.
  - destruct data as [data|]; [|discriminate].
    destruct (nth_error data idx) as [v|]; [|discriminate].
    intros H k Hk. cbn [map PyStr.mem existsb] in Hk.
    apply orb_false_elim in Hk. destruct Hk as [Hk1 Hk2].
    rewrite (IH _ _ H k Hk2), dict_get_set, Hk1. reflexivity.
Qed.

(** Data that covers the catalogue gives a dictionary. *)
Lemma visibility_flags_loop_total (items : list (string * string))
    (data : list bool) (idx : nat) (acc : list (string * bool)) (w : World) :
  (idx + length items <= length data)%nat ->
  exists d, fst (visibility_flags_loop items (Some data) idx acc w) = Ret d.
Proof.
  revert idx acc. induction items as [|item rest IH]; intros idx acc L;
    cbn [visibility_flags_loop].
  - eexists. reflexivity.
  - cbn [length] in L. destruct (nth_error data idx) as [v|] eqn:E.
    + apply IH. lia.
    + apply nth_error_None in E. lia.
Qed.

(** From the values a function [f] gives to the flag names, the
    dictionary maps each name of the catalogue to its value under [f]. *)
Lemma visibility_flags_loop_snapshot (f : string -> bool)
    (items : list (string * string)) (prefix : list bool)
    (acc : list (string * bool)) (w : World) :
  exists d,
    fst (visibility_flags_loop items
           (Some (prefix ++ map (fun item => f (snd item)) items)%list)
           (length prefix) acc w) = Ret d /\
    forall k, Dict.get k d
              = if PyStr.mem k (map snd items) then Some (f k) else Dict.get k acc.
Proof.
  revert prefix acc. induction items as [|item rest IH]; intros prefix acc;
    cbn [visibility_flags_loop map].
  - exists acc. split; reflexivity.
  - rewrite nth_error_app2 by lia. rewrite Nat.sub_diag. cbn [nth_error].
    specialize (IH (prefix ++ [f (snd item)])%list (Dict.set (snd item) (f (snd item)) acc)).
    rewrite <- app_assoc in IH. cbn [app] in IH.
    rewrite List.length_app in IH. cbn [length] in IH.
    replace (length prefix + 1)%nat with (S (length prefix)) in IH by lia.
    destruct IH as [d [R G]]. exists d. split; [exact R|].
    intros k. rewrite G, dict_get_set. cbn [PyStr.mem existsb].
    fold (PyStr.mem k (map snd rest)).
    destruct (String.eqb_spec k (snd item)) as [->|N]; cbn [orb].
    + destruct (PyStr.mem (snd item) (map snd rest)); reflexivity.
    + reflexivity.
Qed.

Lemma create_flags_of_snapshot (v : Viewport) (w : World) :
  exists d,
    create_viewport_visibility_flags (Some (snapshot v)) w = (Ret d, w) /\
    forall k, Dict.get k d
              = if PyStr.mem k (map snd VIEWPORT_VISIBILITY_LOOKUP)
                then Some (editor_flags v k) else None.
Proof.
  destruct (visibility_flags_loop_snapshot (editor_flags v)
              VIEWPORT_VISIBILITY_LOOKUP [] [] w) as [d [R G]].
  exists d. split; [|exact G].
  unfold create_viewport_visibility_flags, snapshot.
  rewrite (surjective_pairing (visibility_flags_loop _ _ _ _ _)).
  rewrite visibility_flags_loop_state. cbn [app length] in R. now rewrite R.
Qed.

(** After applying a dictionary made from the snapshot of [v] on top of
    any dictionary over the catalogue, the flags are those of [v]. *)
Lemma apply_snapshot_flags (v : Viewport) (orig other : list (string * bool)) :
  (forall k, Dict.get k orig
             = if PyStr.mem k (map snd VIEWPORT_VISIBILITY_LOOKUP)
               then Some (editor_flags v k) else None) ->
  (forall k, PyStr.mem k (map snd VIEWPORT_VISIBILITY_LOOKUP) = false ->
             Dict.get k other = None) ->
  forall k, apply_flags orig (apply_flags other (editor_flags v)) k = editor_flags v k.
Proof.
  intros Ho Hother k. unfold apply_flags. rewrite Ho.
  destruct (PyStr.mem k (map snd VIEWPORT_VISIBILITY_LOOKUP)) eqn:E; [reflexivity|].
  now rewrite (Hother k E).
Qed.

(** ** The viewport *)

Lemma kept_refl (w : World) : kept w w.
Proof.
  split; [apply steady_refl|]. split; [reflexivity|].
  exists []. unfold calls_ext. now rewrite app_nil_r.
Qed.

Lemma kept_trans (w1 w2 w3 : World) : kept w1 w2 -> kept w2 w3 -> kept w1 w3.
Proof.
  intros (S1 & V1 & d1 & C1) (S2 & V2 & d2 & C2).
  split; [eapply steady_trans; eauto|]. split; [congruence|].
  exists (d1 ++ d2)%list. unfold calls_ext in *. rewrite C2, C1. now rewrite app_assoc.
Qed.

Lemma only_logs_kept (w w' : World) : only_logs w w' -> kept w w'.
Proof.
  intros L. split; [now apply only_logs_steady|].
  destruct L as (_ & H & C). split; [now rewrite H|].
  exists []. unfold calls_ext. now rewrite app_nil_r.
Qed.

Section Binds.

Context {B : Type}.

Lemma wp_get_self (k : BPlayblast -> M B) (w : World) (Q : Res B -> World -> Prop) :
  wp (k (w_self w)) w Q -> wp (bind get_self k) w Q.
Proof. unfold wp, bind, get_self. auto. Qed.

Lemma wp_get_host (k : Host -> M B) (w : World) (Q : Res B -> World -> Prop) :
  wp (k (w_host w)) w Q -> wp (bind get_host k) w Q.
Proof. unfold wp, bind, get_host. auto. Qed.

End Binds.

Lemma names_editor_focus (v : Viewport) (ed : string) :
  focus_model_editor v = Some ed ->
  names_editor v (panel_with_focus v) = true /\ names_editor v ed = true.
Proof.
  intros E. unfold names_editor. rewrite E, !String.eqb_refl.
  split; [apply orb_true_r | reflexivity].
Qed.

Lemma cmds_modelPanel_modelEditor_ok (w : World) (ed : string) :
  focus_model_editor (viewport (w_host w)) = Some ed ->
  cmds_modelPanel_modelEditor (panel_with_focus (viewport (w_host w))) w = (Ret ed, w).
Proof.
  intros E. unfold cmds_modelPanel_modelEditor. msimpl.
  now rewrite E, String.eqb_refl.
Qed.

Lemma get_active_camera_ok (w : World) (ed : string) :
  focus_model_editor (viewport (w_host w)) = Some ed ->
  PyStr.truthy (panel_with_focus (viewport (w_host w))) = true ->
  get_active_camera w = (Ret (Some (panel_camera (viewport (w_host w)))), w).
Proof.
  intros E T. unfold get_active_camera. unfold bind at 1.
  rewrite (get_viewport_panel_ok w ed E), T.
  unfold cmds_modelPanel_camera. unfold bind at 1. unfold bind at 1.
  rewrite (cmds_modelPanel_modelEditor_ok w ed E). reflexivity.
Qed.

Lemma set_active_camera_wp (c : option string) (w : World) (ed : string) :
  focus_model_editor (viewport (w_host w)) = Some ed ->
  PyStr.truthy (panel_with_focus (viewport (w_host w))) = true ->
  wp (set_active_camera c) w (fun r w' =>
    r = Ret tt /\
    w_signal w' = w_signal w /\
    view_step (fmt_opt c) (editor_flags (viewport (w_host w)))
      [CallLookThrough (fmt_opt c) (panel_with_focus (viewport (w_host w)))] w w').
Proof.
  intros E T. apply wp_pair. intros r w' H.
  unfold set_active_camera in H. unfold bind at 1 in H.
  rewrite (get_viewport_panel_ok w ed E), T in H.
  unfold mel_lookThroughModelPanel in H. unfold bind at 1 in H.
  rewrite (cmds_modelPanel_modelEditor_ok w ed E) in H. msimpl_in H.
  injection H as <- <-. repeat split.
Qed.

Lemma for_each_query (panel : string) (w : World) (items : list (string * string)) :
  names_editor (viewport (w_host w)) panel = true ->
  for_each (fun item => cmds_modelEditor_query panel (snd item)) items w
  = (Ret (map (fun item => editor_flags (viewport (w_host w)) (snd item)) items), w).
Proof.
  intros N. induction items as [|item rest IH]; cbn [for_each map]; [reflexivity|].
  unfold bind at 1. unfold cmds_modelEditor_query at 1. msimpl. rewrite N.
  msimpl. rewrite IH. reflexivity.
Qed.

Lemma get_viewport_visibility_ok (w : World) (ed : string) :
  focus_model_editor (viewport (w_host w)) = Some ed ->
  PyStr.truthy (panel_with_focus (viewport (w_host w))) = true ->
  get_viewport_visibility w = (Ret (Some (snapshot (viewport (w_host w)))), w).
Proof.
  intros E T. unfold get_viewport_visibility. unfold bind at 1.
  rewrite (get_viewport_panel_ok w ed E), T.
  unfold try_except, bind at 1.
  rewrite for_each_query by (apply (names_editor_focus _ ed E)).
  reflexivity.
Qed.

Lemma set_viewport_visibility_wp (fl : list (string * bool)) (w : World) (ed : string) :
  focus_model_editor (viewport (w_host w)) = Some ed ->
  wp (set_viewport_visibility ed fl) w (fun r w' =>
    r = Ret tt /\
    w_signal w' = w_signal w /\
    view_step (panel_camera (viewport (w_host w)))
      (apply_flags fl (editor_flags (viewport (w_host w))))
      [CallModelEditorEdit ed fl] w w').
Proof.
  intros E. unfold wp, set_viewport_visibility, cmds_modelEditor_edit. msimpl.
  rewrite (proj2 (names_editor_focus _ ed E)). msimpl. repeat split.
Qed.

Lemma get_visibility_wp (w : World) (ed : string) :
  focus_model_editor (viewport (w_host w)) = Some ed ->
  PyStr.truthy (panel_with_focus (viewport (w_host w))) = true ->
  wp get_visibility w (fun r w' =>
    w' = w /\
    r = Ret (Some match _visibility (w_self w) with
                  | [] => snapshot (viewport (w_host w))
                  | v => v
                  end)).
Proof.
  intros E T. unfold wp, get_visibility. msimpl.
  destruct (_visibility (w_self w)).
  - rewrite (get_viewport_visibility_ok w ed E T). split; reflexivity.
  - split; reflexivity.
Qed.

Lemma cmds_playblast_wp (options : PlayblastOptions) (w : World) :
  wp (cmds_playblast options) w (fun r w' =>
    (r = Ret tt \/ exists e, r = Raise e) /\
    w_signal w' = w_signal w /\
    steady w w' /\
    viewport (w_host w') = viewport (w_host w) /\
    calls_ext [CallPlayblast options] w w').
Proof.
  unfold wp, cmds_playblast. msimpl.
  destruct (playblast_frames _ _ _); msimpl; repeat split; eauto.
Qed.

(** ** Encoding and what follows it *)

Lemma encoder_ready_steady (w w' : World) :
  steady w w' -> encoder_ready w -> encoder_ready w'.
Proof.
  unfold steady, encoder_ready. intros (S & Sc & _) H. now rewrite S, Sc.
Qed.

Lemma get_frame_rate_wp (w : World) :
  wp get_frame_rate w (fun r w' =>
    w' = w /\ (unit_supported (time_unit (scene (w_host w))) -> exists q, r = Ret q)).
Proof.
  unfold wp. split; [apply get_frame_rate_state|].
  intros [N|[E [q P]]].
  - unfold named_units in N. simpl in N.
    unfold get_frame_rate. msimpl.
    repeat destruct N as [<-|N]; try contradiction; cbn; eauto.
  - rewrite (get_frame_rate_fps w E), P. eauto.
Qed.

Lemma get_audio_attributes_wp (w : World) :
  wp get_audio_attributes w (fun r w' =>
    w' = w /\ exists a, r = Ret a /\
    (sound_node (scene (w_host w)) = "" -> a = Some (None, None))).
Proof.
  unfold wp, get_audio_attributes, os_path_exists. msimpl.
  destruct (PyStr.truthy (sound_node (scene (w_host w)))) eqn:T.
  - msimpl. apply truthy_nonempty in T.
    case_if; msimpl; (split; [reflexivity|]); eexists; (split; [reflexivity|]); congruence.
  - msimpl. split; [reflexivity|]. eexists. split; reflexivity.
Qed.

Lemma execute_ffmpeg_cmd_wp (command : string) (w : World) :
  wp (execute_ffmpeg_cmd command) w (fun r w' => r = Ret tt /\ kept w w').
Proof.
  unfold execute_ffmpeg_cmd. apply wp_get_host.
  apply wp_bind. apply wp_pair. intros r w1 H. unfold record_call in H.
  injection H as <- <-.
  destruct (ffmpeg_process _ _ _) as [started fs].
  apply wp_bind. apply wp_pair. intros r w2 H. unfold put_host in H. cbn in H.
  injection H as <- <-.
  assert (K : kept w {| w_self := w_self w; w_host := with_files (w_host w) fs;
                         w_signal := w_signal w; w_script_editor := w_script_editor w;
                         w_calls := (w_calls w ++ [CallFfmpeg command])%list |}).
  { split; [repeat split|]. split; [reflexivity|]. eexists. reflexivity. }
  destruct started as [chunks|].
  - wp_step for_each_log_output_wp. intros r w3 [[l ->] L].
    apply wp_ret. split; [reflexivity|].
    eapply kept_trans; [exact K | now apply only_logs_kept].
  - apply wp_ret. split; [reflexivity | exact K].
Qed.

Lemma remove_temp_dir_wp (path : string) (w : World) :
  wp (remove_temp_dir path) w (fun r w' => r = Ret tt /\ kept w w').
Proof.
  unfold wp, remove_temp_dir. msimpl.
  destruct (qdir_remove_frames _ _ _) as [fs removed]. msimpl.
  destruct removed; msimpl; [|case_if; msimpl];
    (split; [reflexivity|]); (split; [repeat split|]);
    (split; [reflexivity|]); eexists; reflexivity.
Qed.

Lemma open_in_viewer_wp (path : string) (w : World) :
  wp (open_in_viewer path) w (fun r w' => r = Ret tt /\ kept w w').
Proof.
  unfold wp, open_in_viewer, os_path_exists. msimpl.
  destruct (path_exists _ _); msimpl.
  - repeat (case_if; msimpl); (split; [reflexivity|]); (split; [repeat split|]);
      (split; [reflexivity|]); eexists; reflexivity.
  - case_if; msimpl; (split; [reflexivity|]); apply only_logs_kept; repeat split.
Qed.

Lemma traceback_print_exc_wp (w : World) :
  wp traceback_print_exc w (fun r w' => r = Ret tt /\ kept w w').
Proof.
  unfold wp, traceback_print_exc. msimpl. split; [reflexivity|].
  split; [repeat split|]. split; [reflexivity|]. eexists. reflexivity.
Qed.

Lemma h264_quality_known (q : string) :
  In q (Dict.keys H264_QUALITIES) -> exists crf, Dict.get q H264_QUALITIES = Some crf.
Proof.
  simpl. intros [<-|[<-|[<-|[<-|[]]]]]; eexists; reflexivity.
Qed.

Lemma encode_h264_wp (source_path output_path : string) (start_frame : Q) (w : World) :
  wp (encode_h264 source_path output_path start_frame) w (fun r w' =>
    kept w w' /\ (encoder_ready w -> r = Ret tt)).
Proof.
  unfold encode_h264. apply wp_get_self. apply wp_get_host.
  wp_step get_frame_rate_wp. intros r w1 [-> Hr].
  destruct r as [frame_rate|e];
    [|split; [apply kept_refl|]; intros (_ & U & _); destruct (Hr U); discriminate].
  wp_step get_audio_attributes_wp. intros r w1 [-> [a [-> Ha]]].
  destruct a as [[audio_file_path audio_frame_offset]|].
  2:{ apply wp_raise. split; [apply kept_refl|]. intros (S & _). specialize (Ha S). discriminate. }
  apply wp_bind. apply wp_pair. intros r w1 H.
  assert (H1 : w1 = w /\ (audio_file_path = None -> r = Ret None)).
  { destruct audio_file_path as [f|]; cbn [PyStr.truthy_opt] in H.
    - split; [|discriminate].
      destruct (PyStr.truthy f); [|unfold ret in H; congruence].
      destruct audio_frame_offset; [|unfold raise in H; congruence].
      unfold get_audio_offset_in_sec in H. msimpl_in H.
      destruct (Qeq_bool frame_rate 0); msimpl_in H; congruence.
    - unfold ret in H. split; [congruence|]. intros _. congruence. }
  destruct H1 as [-> H1].
  destruct r as [audio_offset|e];
    [|split; [apply kept_refl|]; intros (S & _); specialize (Ha S);
      injection Ha as -> _; specialize (H1 eq_refl); discriminate].
  destruct (Dict.get (_h264_quality (w_self w)) H264_QUALITIES) as [crf|] eqn:G.
  2:{ apply wp_raise. split; [apply kept_refl|]. intros (_ & _ & K).
      destruct (h264_quality_known _ K). congruence. }
  destruct (PyStr.truthy_opt audio_file_path) eqn:T.
  - apply wp_raise. split; [apply kept_refl|]. intros (S & _). specialize (Ha S).
    injection Ha as -> _. discriminate.
  - wp_step log_output_wp. intros r w1 [-> L].
    eapply wp_mono; [apply execute_ffmpeg_cmd_wp|]. intros r w2 [-> K].
    split; [|reflexivity]. eapply kept_trans; [apply only_logs_kept|]; eauto.
Qed.

(** ** Capture *)

Lemma track_start (w : World) :
  track (panel_camera (viewport (w_host w))) (editor_flags (viewport (w_host w))) [] w w.
Proof.
  split; [apply steady_refl|]. repeat split. unfold calls_ext. now rewrite app_nil_r.
Qed.

Lemma track_view_step (cam cam' : string) (fl fl' : string -> bool)
    (d d' : list HostCall) (w w1 w2 : World) :
  track cam fl d w w1 -> view_step cam' fl' d' w1 w2 ->
  track cam' fl' (d ++ d') w w2.
Proof.
  intros (S1 & _ & _ & C1) (S2 & _ & Cm & Fl & C2).
  split; [eapply steady_trans; eauto|]. repeat split; auto.
  unfold calls_ext in *. rewrite C2, C1. now rewrite app_assoc.
Qed.

Lemma track_kept (cam : string) (fl : string -> bool) (d : list HostCall)
    (w w1 w2 : World) :
  track cam fl d w w1 -> kept w1 w2 -> exists d', track cam fl (d ++ d') w w2.
Proof.
  intros (S1 & Cm & Fl & C1) (S2 & V & d' & C2). exists d'.
  split; [eapply steady_trans; eauto|]. rewrite V. repeat split; auto.
  unfold calls_ext in *. rewrite C2, C1. now rewrite app_assoc.
Qed.

Lemma create_flags_wp (data : list bool) (w : World) :
  wp (create_viewport_visibility_flags (Some data)) w (fun r w' =>
    w' = w /\
    (forall d, r = Ret d ->
       forall k, PyStr.mem k (map snd VIEWPORT_VISIBILITY_LOOKUP) = false ->
                 Dict.get k d = None) /\
    ((length VIEWPORT_VISIBILITY_LOOKUP <= length data)%nat -> exists d, r = Ret d)).
Proof.
  unfold wp, create_viewport_visibility_flags. split; [apply visibility_flags_loop_state|].
  split.
  - intros d R k Hk. now rewrite (visibility_flags_loop_keys _ _ _ _ _ _ R k Hk).
  - intros L. apply visibility_flags_loop_total. simpl. exact L.
Qed.

Lemma snapshot_length (v : Viewport) :
  length (snapshot v) = length VIEWPORT_VISIBILITY_LOOKUP.
Proof. unfold snapshot. apply length_map. Qed.

(** The code of [capture_and_encode] after the [finally] block. *)
Lemma after_capture_wp (self : BPlayblast) (filename : string) (padding : Z)
    (show_in_viewer : bool) (t : Targets) (start_frame : Q) (playblast_failed : bool)
    (w : World) :
  self = w_self w ->
  wp (if playblast_failed then ret tt
      else if requires_ffmpeg self then
        let source_path :=
          tg_playblast_output_dir t ++ "/" ++ filename ++ ".%0"
            ++ PyStr.of_int padding ++ "d.png" in
        if String.eqb (_encoder self) "h264" then
          encode_h264 source_path (tg_output_path t) start_frame ;;
          remove_temp_dir (tg_playblast_output_dir t) ;;
          if show_in_viewer then open_in_viewer (tg_output_path t) else ret tt
        else
          log_error ("Encoding failed. Unsupported encoder (" ++ _encoder self
                       ++ ") for container (" ++ _container_format self ++ ")") ;;
          remove_temp_dir (tg_playblast_output_dir t)
      else ret tt) w
     (fun r w' =>
        kept w w' /\
        ((requires_ffmpeg self = true -> _encoder self = "h264" -> encoder_ready w) ->
         r = Ret tt)).
Proof.
  intros ->. destruct playblast_failed.
  { apply wp_ret. split; [apply kept_refl | reflexivity]. }
  destruct (requires_ffmpeg (w_self w)) eqn:R.
  2:{ apply wp_ret. split; [apply kept_refl | reflexivity]. }
  cbv zeta. destruct (String.eqb_spec (_encoder (w_self w)) "h264") as [En|En].
  - wp_step encode_h264_wp. intros r w1 [K1 Hr].
    destruct r as [[]|e].
    + wp_step remove_temp_dir_wp. intros r w2 [-> K2].
      destruct show_in_viewer.
      * eapply wp_mono; [apply open_in_viewer_wp|]. intros r w3 [-> K3].
        split; [|reflexivity]. eapply kept_trans; [|exact K3]. eapply kept_trans; eauto.
      * apply wp_ret. split; [|reflexivity]. eapply kept_trans; eauto.
    + split; [exact K1|]. intros H. specialize (Hr (H eq_refl En)). discriminate.
  - wp_step log_error_wp. intros r w1 [-> L].
    eapply wp_mono; [apply remove_temp_dir_wp|]. intros r w2 [-> K2].
    split; [|reflexivity]. eapply kept_trans; [apply only_logs_kept|]; eauto.
Qed.

Lemma capture_and_encode_wp (panel filename : string) (padding : Z)
    (show_in_viewer : bool) (t : Targets) (start_frame : Q)
    (options : PlayblastOptions) (w : World) (ed : string) :
  focus_model_editor (viewport (w_host w)) = Some ed ->
  panel = panel_with_focus (viewport (w_host w)) ->
  PyStr.truthy panel = true ->
  wp (capture_and_encode panel filename padding show_in_viewer t start_frame options) w
     (capture_post w).
Proof.
  intros E -> T. unfold capture_and_encode. apply wp_get_self.
  wp_run (get_active_camera_ok w ed E T).
  set (cam0 := panel_camera (viewport (w_host w))).
  set (fl0 := editor_flags (viewport (w_host w))).
  set (camera := if PyStr.truthy_opt (_camera (w_self w)) then _camera (w_self w)
                 else Some cam0).
  apply wp_bind. eapply wp_eq; [reflexivity|]. cbv beta iota.
  destruct (PyStr.mem_opt camera (cameras (scene (w_host w)))) eqn:M; cbn [negb].
  2:{ eapply wp_mono; [apply log_error_wp|]. intros r w1 [-> L].
      split; [now apply only_logs_steady|]. split; [|reflexivity].
      exists []. split; [|discriminate]. destruct L as (_ & _ & C).
      unfold calls_ext. now rewrite app_nil_r. }
  destruct camera as [c|]; [|discriminate M]. clear M.
  (* the capture camera is applied *)
  wp_step (set_active_camera_wp (Some c) w ed E T). intros r w1 (-> & _ & V1).
  pose proof (track_view_step _ _ _ _ _ _ _ _ _ (track_start w) V1) as T1.
  cbn [fmt_opt app] in T1. fold cam0 fl0 in T1.
  assert (E1 : focus_model_editor (viewport (w_host w1)) = Some ed)
    by (destruct T1 as ((_ & _ & _ & _ & F) & _); congruence).
  assert (P1 : panel_with_focus (viewport (w_host w1)) = panel_with_focus (viewport (w_host w)))
    by (destruct T1 as ((_ & _ & _ & F & _) & _); exact F).
  assert (T1' : PyStr.truthy (panel_with_focus (viewport (w_host w1))) = true)
    by (now rewrite P1).
  (* the original flags are read and turned into a dictionary *)
  wp_run (get_viewport_visibility_ok w1 ed E1 T1').
  destruct (create_flags_of_snapshot (viewport (w_host w1)) w1) as [orig [Ro Go]].
  wp_run Ro.
  wp_step (get_visibility_wp w1 ed E1 T1'). intros r w2 [-> ->]. cbv beta iota.
  match goal with
  | |- context [create_viewport_visibility_flags (Some ?d)] => set (data := d)
  end.
  wp_step (create_flags_wp data w1). intros r w2 (-> & Kpb & Tpb).
  destruct r as [pb|e].
  2:{ split; [apply T1|]. split.
      - eexists. split; [apply T1|]. discriminate.
      - intros Vok _. exfalso. destruct Tpb as [d Hd]; [|discriminate Hd].
        subst data. destruct T1 as ((S & _) & _). rewrite S.
        destruct Vok as [-> | L]; [now rewrite snapshot_length|].
        destruct (_visibility (w_self w)); [now rewrite snapshot_length | exact L]. }
  specialize (Kpb pb eq_refl).
  rewrite <- P1. wp_run (cmds_modelPanel_modelEditor_ok w1 ed E1).
  wp_step (set_viewport_visibility_wp pb w1 ed E1). intros r w2 (-> & _ & V2).
  pose proof (track_view_step _ _ _ _ _ _ _ _ _ T1 V2) as T2.
  destruct T1 as (_ & Cm1 & Fl1 & _). rewrite Cm1, Fl1 in T2. cbn [app] in T2.
  (* capture, then restoration on both exits *)
  set (fl6 := apply_flags orig (apply_flags pb fl0)).
  assert (Cleanup : forall (b : Res bool) wx dx,
    track c (apply_flags pb fl0) dx w wx ->
    wp (set_active_camera (Some cam0) ;; set_viewport_visibility ed orig) wx
       (fun r2 w6 => match r2 with
                     | Ret _ => b = b /\ exists d, track cam0 fl6 d w w6
                     | Raise e => False
                     end)).
  { intros b wx dx Tx.
    assert (Ex : focus_model_editor (viewport (w_host wx)) = Some ed)
      by (destruct Tx as ((_ & _ & _ & _ & F) & _); congruence).
    assert (Tx' : PyStr.truthy (panel_with_focus (viewport (w_host wx))) = true)
      by (destruct Tx as ((_ & _ & _ & F & _) & _); now rewrite F).
    wp_step (set_active_camera_wp (Some cam0) wx ed Ex Tx'). intros r w5 (-> & _ & V5).
    pose proof (track_view_step _ _ _ _ _ _ _ _ _ Tx V5) as T5.
    destruct Tx as (_ & _ & Flx & _). rewrite Flx in T5. cbn [fmt_opt] in T5.
    assert (E5 : focus_model_editor (viewport (w_host w5)) = Some ed)
      by (destruct T5 as ((_ & _ & _ & _ & F) & _); congruence).
    eapply wp_mono; [apply (set_viewport_visibility_wp orig w5 ed E5)|].
    intros r w6 (-> & _ & V6).
    pose proof (track_view_step _ _ _ _ _ _ _ _ _ T5 V6) as T6.
    destruct T5 as (_ & Cm5 & Fl5 & _). rewrite Cm5, Fl5 in T6.
    split; [reflexivity|]. eexists. exact T6. }
  apply wp_bind.
  apply wp_mono with (P := fun r w6 => (exists b, r = Ret b) /\ exists d, track cam0 fl6 d w w6).
  { apply wp_finally. apply wp_try_except.
    wp_step cmds_playblast_wp. intros r w3 (Hr & _ & S3 & V3 & C3).
    assert (K3 : kept w2 w3) by (split; [exact S3|]; split; [exact V3|]; eauto).
    destruct (track_kept _ _ _ _ _ _ T2 K3) as [d3 T3].
    destruct Hr as [-> | [e ->]].
    - apply wp_ret. eapply wp_mono; [apply (Cleanup (Ret false) w3 _ T3)|].
      intros [[]|e] w6; [|contradiction]. intros [_ H]. split; eauto.
    - wp_step traceback_print_exc_wp. intros r w4 [-> K4].
      wp_step log_error_wp. intros r w5 [-> L5].
      apply wp_ret.
      destruct (track_kept _ _ _ _ _ _ T3 (kept_trans _ _ _ K4 (only_logs_kept _ _ L5)))
        as [d5 T5].
      eapply wp_mono; [apply (Cleanup (Ret true) w5 _ T5)|].
      intros [[]|e'] w6; [|contradiction]. intros [_ H]. split; eauto. }
  intros r w6 ([b ->] & d6 & T6).
  eapply wp_mono; [apply (after_capture_wp (w_self w))|].
  { destruct T6 as ((S & _) & _). now rewrite S. }
  intros r w7 [K7 Hr].
  destruct (track_kept _ _ _ _ _ _ T6 K7) as [d7 T7].
  split; [apply T7|]. split.
  - eexists. split; [apply T7|]. intros _.
    destruct T7 as (_ & Cm7 & Fl7 & _). split; [exact Cm7|].
    intros k. rewrite Fl7. unfold fl6. fold fl0. rewrite <- Fl1.
    apply apply_snapshot_flags; [exact Go | exact Kpb].
  - intros _ Hready. apply Hr. intros Rq En.
    apply (encoder_ready_steady w w6); [apply T6 | now apply Hready].
Qed.

(** ** [execute] as a whole *)

Lemma execute_post_abort (w w' : World) :
  only_logs w w' -> execute_post w (Ret tt) w'.
Proof.
  intros L. split; [now apply only_logs_steady|]. split; [|reflexivity].
  exists []. split; [|discriminate].
  destruct L as (_ & _ & C). unfold calls_ext. now rewrite app_nil_r.
Qed.

Lemma execute_post_raise (w w' : World) (e : Exn) :
  only_logs w w' -> ~ execute_safe w -> execute_post w (Raise e) w'.
Proof.
  intros L N. split; [now apply only_logs_steady|]. split; [|contradiction].
  exists []. split; [|discriminate].
  destruct L as (_ & _ & C). unfold calls_ext. now rewrite app_nil_r.
Qed.

Lemma execute_post_capture (w w1 w' : World) (r : Res unit) :
  only_logs w w1 -> capture_post w1 r w' -> execute_post w r w'.
Proof.
  intros (S & H & C) (St & (d & Cd & V) & R).
  assert (L : only_logs w w1) by (repeat split; assumption).
  split; [eapply steady_trans; [apply only_logs_steady|]; eauto|]. split.
  - exists d. split; [unfold calls_ext in *; congruence|].
    intros P. eapply same_view_trans; [apply only_logs_same_view; exact L | auto].
  - intros (_ & _ & Vis & Enc). apply R; rewrite S; [exact Vis|].
    intros Rq En. apply (encoder_ready_steady w w1); [now apply only_logs_steady | auto].
Qed.

Lemma execute_wp (output_dir filename : string) (padding : Z)
    (show_ornaments show_in_viewer overwrite : bool) (w : World) :
  wp (execute output_dir filename padding show_ornaments show_in_viewer overwrite) w
     (execute_post w).
Proof.
  unfold execute. apply wp_get_self.
  apply wp_bind.
  apply wp_mono with (P := fun r w1 => (exists b, r = Ret b) /\ only_logs w w1).
  { destruct (requires_ffmpeg (w_self w)); [|apply wp_ret; split; [eauto | apply only_logs_refl]].
    wp_step validate_ffmpeg_wp. intros r w1 [[b ->] L]. apply wp_ret. eauto. }
  intros r w1 [[ffmpeg_missing ->] L1].
  destruct ffmpeg_missing.
  { eapply wp_mono; [apply log_error_wp|]. intros r w2 [-> L2].
    apply execute_post_abort. eapply only_logs_trans; eauto. }
  wp_step get_viewport_panel_wp. intros r w2 [L2 P].
  assert (L12 : only_logs w w2) by (eapply only_logs_trans; eauto).
  assert (Abort : forall text, wp (log_error text) w2 (execute_post w)).
  { intros text. eapply wp_mono; [apply log_error_wp|]. intros r' w3 [-> L3].
    apply execute_post_abort. eapply only_logs_trans; eauto. }
  destruct P as [-> | [-> [ed E]]]; cbv zeta; [apply Abort|].
  destruct (PyStr.truthy (panel_with_focus (viewport (w_host w1)))) eqn:T;
    cbn [negb]; [|apply Abort].
  destruct (PyStr.truthy output_dir); cbn [negb]; [|apply Abort].
  destruct (PyStr.truthy filename); cbn [negb]; [|apply Abort].
  destruct (resolve_output_directory_path_run output_dir w2) as [dir' Rd]. wp_run Rd.
  destruct (resolve_output_filename_run filename w2) as [file' Rf]. wp_run Rf.
  wp_step compute_targets_wp. intros r w3 [[targets ->] L3].
  assert (L13 : only_logs w w3) by (eapply only_logs_trans; eauto).
  destruct targets as [t|]; [|apply wp_ret; now apply execute_post_abort].
  wp_step get_resolution_width_height_wp. intros r w4 [-> Hres].
  destruct r as [width_height|e].
  2:{ apply execute_post_raise; [exact L13|]. intros (Ok & _).
      destruct L13 as (S & _). rewrite S in Hres. destruct (Hres Ok). discriminate. }
  wp_step get_start_end_frame_wp. intros r w4 [-> Hse].
  destruct r as [[start_frame end_frame]|e].
  2:{ apply execute_post_raise; [exact L13|]. intros (_ & Ok & _).
      destruct L13 as (S & _). rewrite S in Hse. destruct (Hse Ok). discriminate. }
  apply wp_get_host.
  wp_step log_output_wp. intros r w4 [-> L4].
  assert (L14 : only_logs w w4) by (eapply only_logs_trans; eauto).
  assert (H14 : w_host w4 = w_host w1).
  { destruct L14 as (_ & H4 & _). destruct L1 as (_ & H1 & _). congruence. }
  eapply wp_mono.
  - apply (capture_and_encode_wp _ _ _ _ _ _ _ w4 ed); try rewrite H14; auto.
  - intros r w5 Cp. eapply execute_post_capture; eauto.
Qed.

(* ------------------------------------------------------------------ *)
(** * The output file that exists already *)

Lemma resolve_output_directory_path_eq (output_dir : string) (w : World) :
  resolve_output_directory_path output_dir w
  = (Ret (resolved_directory (w_host w) output_dir), w).
Proof.
  unfold resolve_output_directory_path, resolved_directory, get_project_dir_path.
  destruct (PyStr.contains "{project}" output_dir); reflexivity.
Qed.

Lemma resolve_output_filename_eq (filename : string) (w : World) :
  resolve_output_filename filename w = (Ret (resolved_filename (w_host w) filename), w).
Proof.
  unfold resolve_output_filename, resolved_filename, get_scene_name.
  destruct (PyStr.contains "{scene}" filename); [|reflexivity].
  msimpl. destruct (PyStr.truthy (scene_short_name (scene (w_host w)))); reflexivity.
Qed.

Lemma compute_targets_existing (output_dir filename : string) (show_in_viewer : bool)
    (w : World) :
  requires_ffmpeg (w_self w) = true ->
  path_exists (files (w_host w))
    (os_path_normpath (platform (w_host w))
       (os_path_join (platform (w_host w)) output_dir
          (filename ++ "." ++ _container_format (w_self w)))) = true ->
  compute_targets output_dir filename show_in_viewer false w
  = (Ret None, snd (log_error "Output file already exists. Enable overwrite to ignore." w)).
Proof.
  intros R P. unfold compute_targets, os_path_exists. msimpl. rewrite R. msimpl.
  rewrite P. msimpl. destruct (_log_to_maya (w_self w)); reflexivity.
Qed.

(** Whatever the other checks say, the call stops before any command is
    sent to the host. *)
Lemma execute_existing_output_quiet (output_dir filename : string) (padding : Z)
    (show_ornaments show_in_viewer : bool) (w : World) :
  requires_ffmpeg (w_self w) = true ->
  path_exists (files (w_host w))
    (artifact_path (w_self w) (w_host w) output_dir filename) = true ->
  wp (execute output_dir filename padding show_ornaments show_in_viewer false) w
     (fun r w' => r = Ret tt /\ only_logs w w').
Proof.
  intros Rq Px. unfold execute. apply wp_get_self. rewrite Rq.
  apply wp_bind.
  apply wp_mono with (P := fun r w1 => (exists b, r = Ret b) /\ only_logs w w1).
  { wp_step validate_ffmpeg_wp. intros r w1 [[b ->] L]. apply wp_ret. eauto. }
  intros r w1 [[ffmpeg_missing ->] L1].
  assert (Abort : forall text w2, only_logs w w2 ->
            wp (log_error text) w2 (fun r w' => r = Ret tt /\ only_logs w w')).
  { intros text w2 L. eapply wp_mono; [apply log_error_wp|]. intros r' w3 [-> L3].
    split; [reflexivity | eapply only_logs_trans; eauto]. }
  destruct ffmpeg_missing; [now apply Abort|].
  wp_step get_viewport_panel_wp. intros r w2 [L2 P].
  assert (L12 : only_logs w w2) by (eapply only_logs_trans; eauto).
  destruct P as [-> | [-> [ed E]]]; cbv zeta; [now apply Abort|].
  destruct (PyStr.truthy (panel_with_focus (viewport (w_host w1)))); cbn [negb];
    [|now apply Abort].
  destruct (PyStr.truthy output_dir); cbn [negb]; [|now apply Abort].
  destruct (PyStr.truthy filename); cbn [negb]; [|now apply Abort].
  wp_run resolve_output_directory_path_eq. wp_run resolve_output_filename_eq.
  destruct L12 as (S2 & H2 & C2).
  wp_run compute_targets_existing.
  - now rewrite S2.
  - rewrite S2, H2. exact Px.
  - apply wp_ret. split; [reflexivity|].
    destruct (log_error_run "Output file already exists. Enable overwrite to ignore." w2)
      as (_ & L3 & _).
    eapply only_logs_trans; [|exact L3]. repeat split; assumption.
Qed.

(** With its earlier checks passed, the call logs the one error. *)
Lemma execute_existing_output_exact (output_dir filename : string) (padding : Z)
    (show_ornaments show_in_viewer : bool) (w : World) :
  requires_ffmpeg (w_self w) = true ->
  path_exists (files (w_host w))
    (artifact_path (w_self w) (w_host w) output_dir filename) = true ->
  ffmpeg_usable w -> viewport_active w ->
  output_dir <> "" -> filename <> "" ->
  execute output_dir filename padding show_ornaments show_in_viewer false w
  = (Ret tt, snd (log_error "Output file already exists. Enable overwrite to ignore." w)).
Proof.
  intros Rq Px (F1 & F2 & F3) ([ed E] & T) Hd Hf.
  apply truthy_nonempty in Hd. apply truthy_nonempty in Hf.
  unfold execute. unfold bind at 1. unfold get_self at 1. cbv beta iota. rewrite Rq.
  unfold bind at 1. unfold bind at 1. rewrite (validate_ffmpeg_ok w F1 F2 F3).
  unfold ret at 1. cbv beta iota. cbn [negb].
  unfold bind at 1. rewrite (get_viewport_panel_ok w ed E). cbv zeta.
  rewrite T, Hd, Hf. cbn [negb].
  unfold bind at 1. rewrite resolve_output_directory_path_eq.
  unfold bind at 1. rewrite resolve_output_filename_eq.
  unfold bind at 1. rewrite (compute_targets_existing _ _ _ w Rq Px).
  reflexivity.
Qed.

(* ------------------------------------------------------------------ *)
(** * The claims about [execute] and [encode_h264] *)

(** C1: in every call of [execute] that reaches [cmds.playblast], the
    camera of the viewport and its display flags (every flag, so the 37
    recorded ones and the snapshot made of them) are after the call what
    they were before it, whatever the outcome of the capture and of the
    call. *)
Theorem execute_restores_viewport (output_dir filename : string) (padding : Z)
    (show_ornaments show_in_viewer overwrite : bool) (w : World) :
  let w' := snd (execute output_dir filename padding show_ornaments show_in_viewer
                   overwrite w) in
  exists d,
    w_calls w' = app (w_calls w) d /\
    (existsb is_playblast_call d = true ->
     panel_camera (viewport (w_host w')) = panel_camera (viewport (w_host w)) /\
     (forall flag, editor_flags (viewport (w_host w')) flag
                   = editor_flags (viewport (w_host w)) flag) /\
     snapshot (viewport (w_host w')) = snapshot (viewport (w_host w))).
Proof.
  destruct (execute_wp output_dir filename padding show_ornaments show_in_viewer
              overwrite w) as (_ & (d & C & V) & _).
  exists d. split; [exact C|]. intros P. destruct (V P) as [Cm Fl].
  split; [exact Cm|]. split; [exact Fl|].
  unfold snapshot. apply map_ext. intros item. apply Fl.
Qed.

Lemma execute_restores_viewport_witness :
  let encoded := Sample.world_of (Sample.staged_self "mp4" "h264") Sample.sample_host in
  let failing := Sample.world_of (Sample.staged_self "Image" "tif") Sample.sample_host in
  let run w := snd (execute "out" "shot" 4 true false false w) in
  (In (CallLookThrough "shotCam" "modelPanel4") (w_calls (run encoded)) /\
   w_signal (run failing)
     = ["Playblast options: {'filename': 'out/shot', ...}";
        "[ERROR] Failed to created playblast. See script editor for details"]) /\
  (panel_camera (viewport (w_host (run encoded))) = "persp" /\
   snapshot (viewport (w_host (run encoded))) = snapshot Sample.sample_viewport) /\
  (panel_camera (viewport (w_host (run failing))) = "persp" /\
   snapshot (viewport (w_host (run failing))) = snapshot Sample.sample_viewport).
Proof.
  intros encoded failing run.
  split; [split; [vm_compute; tauto | reflexivity]|].
  split.
  - destruct (execute_restores_viewport "out" "shot" 4 true false false encoded)
      as [d [C R]].
    assert (D : d = w_calls (run encoded)) by (symmetry; exact C).
    destruct R as (Cm & _ & Sn); [rewrite D; reflexivity|].
    split; [exact Cm | exact Sn].
  - destruct (execute_restores_viewport "out" "shot" 4 true false false failing)
      as [d [C R]].
    assert (D : d = w_calls (run failing)) by (symmetry; exact C).
    destruct R as (Cm & _ & Sn); [rewrite D; reflexivity|].
    split; [exact Cm | exact Sn].
Defined.

(** C3, as stated, fails: with a time unit that [get_frame_rate] does not
    know (here "hour"), the [RuntimeError] it raises leaves [execute], after
    the frames were captured. *)
Lemma execute_raises_on_unsupported_time_unit :
  let w := Sample.world_of Sample.sample_self
             (Sample.host_with [("bin/ffmpeg", false)] (Sample.scene_with "hour" "" "")) in
  fst (execute "out" "shot" 4 true false false w)
  = Raise (RuntimeError "Unsupported frame rate: hour").
Proof. reflexivity. Qed.

(** C3, amended: [execute] returns without an exception, for all its
    arguments, when the stored presets are names of the tables, the stored
    visibility data is empty or covers the catalogue and, if the h264
    encoder is to run, the time unit of the host is one [get_frame_rate]
    supports, no audio node is linked and the stored quality is one of the
    table. *)
Theorem execute_returns_when_safe (output_dir filename : string) (padding : Z)
    (show_ornaments show_in_viewer overwrite : bool) (w : World) :
  execute_safe w ->
  fst (execute output_dir filename padding show_ornaments show_in_viewer overwrite w)
  = Ret tt.
Proof.
  intros Safe.
  destruct (execute_wp output_dir filename padding show_ornaments show_in_viewer
              overwrite w) as (_ & _ & R).
  exact (R Safe).
Qed.

Lemma sample_world_safe : execute_safe Sample.sample_world.
Proof.
  split; [|split; [|split]].
  - intros _. simpl. tauto.
  - intros _. simpl. tauto.
  - left. reflexivity.
  - intros _ _. split; [reflexivity|]. split.
    + left. simpl. tauto.
    + simpl. tauto.
Qed.

Lemma execute_returns_when_safe_witness :
  execute_safe Sample.sample_world /\
  fst (execute "out" "shot" 0 true true false Sample.sample_world) = Ret tt.
Proof.
  split; [exact sample_world_safe|].
  apply (execute_returns_when_safe "out" "shot" 0 true true false Sample.sample_world).
  exact sample_world_safe.
Defined.

(** C4 fails on the code when an audio file is present: the command is
    not built, [encode_h264] raises [UnboundLocalError] for the local
    [ffmpeg] before anything is logged or started; and with a sound node
    whose file is missing it raises [TypeError] on unpacking [None]. *)
Theorem encode_h264_with_audio_raises :
  let linked := Sample.world_of Sample.sample_self
                  (Sample.host_with [("bin/ffmpeg", false); ("snd/track.wav", false)]
                     (Sample.scene_with "film" "audio1" "snd/track.wav")) in
  let missing := Sample.world_of Sample.sample_self
                   (Sample.host_with [("bin/ffmpeg", false)]
                      (Sample.scene_with "film" "audio1" "snd/track.wav")) in
  fst (get_audio_attributes linked) = Ret (Some (Some "snd/track.wav", Some 5%Q)) /\
  encode_h264 "out/playblast_temp/shot.%04d.png" "out/shot.mp4" 1 linked
  = (Raise (UnboundLocalError "ffmpeg"), linked) /\
  fst (execute "out" "shot" 4 true false false linked) = Raise (UnboundLocalError "ffmpeg") /\
  fst (get_audio_attributes missing) = Ret None /\
  encode_h264 "out/playblast_temp/shot.%04d.png" "out/shot.mp4" 1 missing
  = (Raise (TypeError "cannot unpack non-iterable NoneType object"), missing) /\
  fst (execute "out" "shot" 4 true false false missing)
  = Raise (TypeError "cannot unpack non-iterable NoneType object").
Proof. repeat split. Qed.

Lemma log_output_signal_wp (text : string) (w : World) :
  wp (log_output text) w (fun r w' =>
    r = Ret tt /\ only_logs w w' /\ w_signal w' = app (w_signal w) [text]).
Proof.
  unfold wp. msimpl. destruct (_log_to_maya (w_self w)); msimpl; repeat split.
Qed.

Lemma for_each_log_output_signal_wp (chunks : list string) (w : World) :
  wp (for_each log_output chunks) w (fun r w' =>
    (exists l, r = Ret l) /\ only_logs w w' /\
    exists rest, w_signal w' = app (w_signal w) rest).
Proof.
  revert w. induction chunks as [|c rest IH]; intros w; cbn [for_each].
  - apply wp_ret. split; [eauto|]. split; [apply only_logs_refl|].
    exists []. now rewrite app_nil_r.
  - wp_step log_output_signal_wp. intros r w1 (-> & L1 & S1).
    wp_step IH. intros r w2 ([l ->] & L2 & more & S2).
    apply wp_ret. split; [eauto|]. split; [eapply only_logs_trans; eauto|].
    exists (c :: more). rewrite S2, S1, <- app_assoc. reflexivity.
Qed.

Lemma execute_ffmpeg_cmd_trace_wp (command : string) (w : World) :
  wp (execute_ffmpeg_cmd command) w (fun r w' =>
    r = Ret tt /\ w_calls w' = app (w_calls w) [CallFfmpeg command] /\
    exists rest, w_signal w' = app (w_signal w) rest).
Proof.
  unfold execute_ffmpeg_cmd. apply wp_get_host.
  apply wp_bind. apply wp_pair. intros r w1 H. unfold record_call in H.
  injection H as <- <-.
  destruct (ffmpeg_process _ _ _) as [started fs].
  apply wp_bind. apply wp_pair. intros r w2 H. unfold put_host in H. cbn in H.
  injection H as <- <-.
  destruct started as [chunks|].
  - wp_step for_each_log_output_signal_wp. intros r w3 ([l ->] & (_ & _ & C) & S).
    apply wp_ret. split; [reflexivity|]. split; [exact C | exact S].
  - apply wp_ret. split; [reflexivity|]. split; [reflexivity|].
    exists []. cbn. now rewrite app_nil_r.
Qed.

Lemma string_app_assoc (a b c : string) : (a ++ b) ++ c = a ++ b ++ c.
Proof. induction a; simpl; congruence. Qed.

(** Without an audio node the command has the form of the specification
    and is the one that is logged and started. *)
Lemma encode_h264_command_without_audio (source_path output_path : string)
    (start_frame rate : Q) (crf : Z) (w : World) :
  sound_node (scene (w_host w)) = "" ->
  fst (get_frame_rate w) = Ret rate ->
  Dict.get (_h264_quality (w_self w)) H264_QUALITIES = Some crf ->
  let cmd := _ffmpeg_path (w_self w) ++ " -y -framerate "
               ++ float_repr (platform (w_host w)) rate
               ++ " -i " ++ PyStr.quoted source_path
               ++ " -c:v libx264 -crf:v " ++ PyStr.of_int crf
               ++ " -preset:v " ++ _h264_preset (w_self w)
               ++ " -profile high -level 4.0 -pix_fmt yuv420p"
               ++ " " ++ PyStr.quoted output_path in
  let w' := snd (encode_h264 source_path output_path start_frame w) in
  fst (encode_h264 source_path output_path start_frame w) = Ret tt /\
  w_calls w' = app (w_calls w) [CallFfmpeg cmd] /\
  (exists rest, w_signal w' = app (w_signal w) (cmd :: rest)) /\
  In crf [18; 20; 23; 26].
Proof.
  intros Sn Fr G cmd w'.
  assert (Hcrf : In crf [18; 20; 23; 26]).
  { revert G. unfold H264_QUALITIES. cbn [Dict.get].
    repeat match goal with
           | |- context [String.eqb ?q ?n] => destruct (String.eqb q n)
           end; intros [= <-]; simpl; tauto. }
  assert (Fr' : get_frame_rate w = (Ret rate, w)).
  { rewrite (surjective_pairing (get_frame_rate w)), Fr, get_frame_rate_state. reflexivity. }
  assert (Au : get_audio_attributes w = (Ret (Some (None, None)), w)).
  { unfold get_audio_attributes. msimpl. rewrite Sn. reflexivity. }
  assert (E : encode_h264 source_path output_path start_frame w
              = (log_output cmd ;; execute_ffmpeg_cmd cmd) w).
  { unfold encode_h264. unfold bind at 1. unfold get_self at 1. cbv beta iota.
    unfold bind at 1. unfold get_host at 1. cbv beta iota.
    unfold bind at 1. rewrite Fr'.
    unfold bind at 1. rewrite Au.
    cbn [PyStr.truthy_opt]. unfold bind at 1. unfold ret at 1. cbv beta iota.
    rewrite G. unfold cmd. now rewrite !string_app_assoc. }
  subst w'. rewrite E.
  assert (X : wp (log_output cmd ;; execute_ffmpeg_cmd cmd) w (fun r w' =>
                r = Ret tt /\ w_calls w' = app (w_calls w) [CallFfmpeg cmd] /\
                exists rest, w_signal w' = app (w_signal w) (cmd :: rest))).
  { wp_step log_output_signal_wp. intros r w1 (-> & (_ & _ & C1) & S1).
    eapply wp_mono; [apply execute_ffmpeg_cmd_trace_wp|].
    intros r w2 (-> & C2 & rest & S2). split; [reflexivity|].
    split; [congruence|]. exists rest. rewrite S2, S1, <- app_assoc. reflexivity. }
  unfold wp in X. destruct X as (R & C & S). auto.
Qed.

(** C8, as stated, fails: with encoding required, [overwrite] false and
    the encoded file already there, a call whose encoder path is not set
    logs two errors, not one. *)
Lemma execute_existing_output_two_errors :
  let w := Sample.world_of (Sample.self_with "" None [] "mp4" "h264")
             (Sample.host_with [("out/shot.mp4", false)] Sample.sample_scene) in
  requires_ffmpeg (w_self w) = true /\
  path_exists (files (w_host w)) (artifact_path (w_self w) (w_host w) "out" "shot") = true /\
  w_signal w = [] /\
  w_signal (snd (execute "out" "shot" 4 true false false w))
  = ["[ERROR] ffmpeg executable path not set";
     "[ERROR] ffmpeg executable is not configured. See script editor for details."].
Proof. repeat split. Qed.

Lemma execute_one_error_before_targets (output_dir filename : string) (padding : Z)
    (show_ornaments show_in_viewer : bool) (w : World) :
  requires_ffmpeg (w_self w) = true ->
  ffmpeg_usable w -> viewport_active w ->
  output_dir = "" \/ filename = "" ->
  exists text,
    execute output_dir filename padding show_ornaments show_in_viewer false w
    = (Ret tt, snd (log_error text w)).
Proof.
  intros Rq (F1 & F2 & F3) ([ed E] & T) Empty.
  unfold execute. unfold bind at 1. unfold get_self at 1. cbv beta iota. rewrite Rq.
  unfold bind at 1. unfold bind at 1. rewrite (validate_ffmpeg_ok w F1 F2 F3).
  unfold ret at 1. cbv beta iota. cbn [negb].
  unfold bind at 1. rewrite (get_viewport_panel_ok w ed E). cbv zeta.
  rewrite T. cbn [negb].
  destruct (PyStr.truthy output_dir) eqn:Td; cbn [negb].
  - destruct (PyStr.truthy filename) eqn:Tf; cbn [negb].
    + apply truthy_nonempty in Td, Tf. destruct Empty; contradiction.
    + eexists. rewrite (surjective_pairing (log_error _ w)).
      rewrite (proj1 (log_error_run _ w)). reflexivity.
  - eexists. rewrite (surjective_pairing (log_error _ w)).
    rewrite (proj1 (log_error_run _ w)). reflexivity.
Qed.

(** C8, amended: when encoding is required, [overwrite] is false and the
    path of the encoded file exists, [execute] returns without any command
    to the host: the host (its files and its viewport) and the attributes
    are unchanged and nothing is captured.  It logs exactly one error when
    the check of the encoder path and the check of the viewport pass; with a
    non-empty directory and file name that error is "Output file already
    exists". *)
Theorem execute_existing_output_aborts (output_dir filename : string) (padding : Z)
    (show_ornaments show_in_viewer : bool) (w : World) :
  requires_ffmpeg (w_self w) = true ->
  path_exists (files (w_host w))
    (artifact_path (w_self w) (w_host w) output_dir filename) = true ->
  let w' := snd (execute output_dir filename padding show_ornaments show_in_viewer
                   false w) in
  fst (execute output_dir filename padding show_ornaments show_in_viewer false w) = Ret tt /\
  w_host w' = w_host w /\
  w_self w' = w_self w /\
  w_calls w' = w_calls w /\
  (ffmpeg_usable w -> viewport_active w ->
   (exists text, w_signal w' = app (w_signal w) ["[ERROR] " ++ text]) /\
   (output_dir <> "" -> filename <> "" ->
    w_signal w' = app (w_signal w)
                    ["[ERROR] Output file already exists. Enable overwrite to ignore."])).
Proof.
  intros Rq Px w'.
  destruct (execute_existing_output_quiet output_dir filename padding show_ornaments
              show_in_viewer w Rq Px) as (R & S & H & C).
  split; [exact R|]. split; [exact H|]. split; [exact S|]. split; [exact C|].
  intros Fu Va.
  assert (Exact : output_dir <> "" -> filename <> "" ->
            w_signal w' = app (w_signal w)
              ["[ERROR] Output file already exists. Enable overwrite to ignore."]).
  { intros Hd Hf. subst w'.
    rewrite (execute_existing_output_exact _ _ _ _ _ w Rq Px Fu Va Hd Hf).
    apply log_error_run. }
  split; [|exact Exact].
  destruct (String.eqb_spec output_dir "") as [Ed|Nd].
  - destruct (execute_one_error_before_targets output_dir filename padding show_ornaments
                show_in_viewer w Rq Fu Va (or_introl Ed)) as [text Ex].
    exists text. subst w'. rewrite Ex. apply log_error_run.
  - destruct (String.eqb_spec filename "") as [Ef|Nf].
    + destruct (execute_one_error_before_targets output_dir filename padding show_ornaments
                  show_in_viewer w Rq Fu Va (or_intror Ef)) as [text Ex].
      exists text. subst w'. rewrite Ex. apply log_error_run.
    + eexists. apply Exact; assumption.
Qed.

Lemma execute_existing_output_aborts_witness :
  let w := Sample.world_of Sample.sample_self
             (Sample.host_with [("bin/ffmpeg", false); ("out/shot.mp4", false)]
                Sample.sample_scene) in
  let w' := snd (execute "out" "shot" 4 true true false w) in
  w_host w' = w_host w /\
  w_calls w' = [] /\
  w_signal w' = ["[ERROR] Output file already exists. Enable overwrite to ignore."].
Proof.
  intros w w'.
  destruct (execute_existing_output_aborts "out" "shot" 4 true true w)
    as (_ & H & _ & C & One); [reflexivity | reflexivity |].
  split; [exact H|]. split; [exact C|].
  apply One.
  - repeat split.
  - split; [exists "modelEditor4"; reflexivity | reflexivity].
  - discriminate.
  - discriminate.
Defined.

(* ------------------------------------------------------------------ *)
(** * Further properties: the setters *)

Lemma at_host_self (w : World) (h : Host) : w_self (at_host w h) = w_self w.
Proof. reflexivity. Qed.

(** X1: a pair of positive integers given to [set_resolution] is stored
    without a log line, replaces any preset, and is what the getter returns
    in every later state of the host. *)
Theorem set_resolution_pair_round_trip (w : World) (h : Host) (width height : Z) :
  0 < width -> 0 < height ->
  let stored := snd (set_resolution (ResPair width height) w) in
  fst (set_resolution (ResPair width height) w) = Ret tt /\
  w_signal stored = w_signal w /\
  _resolution_preset (w_self stored) = None /\
  get_resolution_width_height (at_host stored h) = (Ret [width; height], at_host stored h).
Proof.
  intros Hw Hh stored. subst stored.
  unfold set_resolution, preset_to_resolution. msimpl.
  destruct (Z.leb_spec width 0); [lia|]. destruct (Z.leb_spec height 0); [lia|].
  msimpl. repeat split.
Qed.

Lemma set_resolution_pair_round_trip_witness :
  let stored := snd (set_resolution (ResPair 640 480) Sample.sample_world) in
  _resolution_preset (w_self Sample.sample_world) = Some "Render" /\
  get_resolution_width_height stored = (Ret [640; 480], stored).
Proof.
  intros stored. split; [reflexivity|].
  apply (set_resolution_pair_round_trip Sample.sample_world (w_host stored) 640 480); lia.
Defined.

(** Projections of the attributes after an update. *)
Ltac self_simpl :=
  cbn [with_resolution_preset with_width_height with_camera with_visibility with_encoding
       with_h264 with_ffmpeg_path with_log_to_maya with_frame_range_preset with_start_end
       with_image_quality
       _ffmpeg_path _log_to_maya _camera _resolution_preset _width_height
       _frame_range_preset _start_frame _end_frame _visibility _container_format
       _encoder _h264_quality _h264_preset _image_quality].

(** X2: an argument that [set_resolution] rejects (a name that is no
    preset, a pair with a non-positive component) is reported with one
    error and is not stored, but the preset that was stored is lost: the
    getter returns from then on the pair stored earlier, in every state of
    the host. *)
Theorem set_resolution_rejected_drops_preset (w : World) (h : Host)
    (arg : ResolutionArg) :
  resolution_rejected arg ->
  let w' := snd (set_resolution arg w) in
  fst (set_resolution arg w) = Ret tt /\
  (exists text, w_signal w' = app (w_signal w) ["[ERROR] Invalid resolution: " ++ text]) /\
  _width_height (w_self w') = _width_height (w_self w) /\
  _resolution_preset (w_self w') = None /\
  get_resolution_width_height (at_host w' h)
  = (Ret (_width_height (w_self w)), at_host w' h).
Proof.
  intros Rj w'. subst w'. unfold get_resolution_width_height.
  destruct arg as [name|width height]; cbn [resolution_rejected] in Rj.
  - assert (N : String.eqb name "Render" = false).
    { destruct (String.eqb_spec name "Render") as [->|]; [|reflexivity].
      exfalso. apply Rj. simpl. tauto. }
    assert (K : Dict.has_key name RESOLUTION_LOOKUP = false)
      by (apply mem_not_In; exact Rj).
    unfold set_resolution, preset_to_resolution. msimpl. rewrite N, K. msimpl. self_simpl.
    destruct (_log_to_maya (w_self w)); msimpl; self_simpl;
      (split; [reflexivity|]); (split; [eexists; reflexivity|]); repeat split.
  - unfold set_resolution, preset_to_resolution. msimpl.
    assert (B : (width <=? 0) || (height <=? 0) = true).
    { apply orb_true_iff. destruct Rj; [left | right]; now apply Z.leb_le. }
    rewrite B. msimpl. self_simpl.
    destruct (_log_to_maya (w_self w)); msimpl; self_simpl;
      (split; [reflexivity|]); (split; [eexists; reflexivity|]); repeat split.
Qed.

Lemma set_resolution_rejected_drops_preset_witness :
  let w := Sample.world_of (with_width_height
                              (with_resolution_preset Sample.sample_self (Some "HD 720"))
                              [320; 240]) Sample.sample_host in
  let w' := snd (set_resolution (ResName "4K") w) in
  fst (get_resolution_width_height w) = Ret [1280; 720] /\
  get_resolution_width_height w' = (Ret [320; 240], w').
Proof.
  intros w w'. split; [reflexivity|].
  apply (set_resolution_rejected_drops_preset w (w_host w') (ResName "4K")).
  simpl. intuition discriminate.
Defined.

(** X3: a pair of frame numbers given to [set_frame_range] is stored as
    it is, without validation (the start may lie after the end) and without
    a log line, replaces any preset, and is what the getter returns in
    every later state of the host. *)
Theorem set_frame_range_pair_round_trip (w : World) (h : Host) (s e : Q) :
  let stored := snd (set_frame_range (FrPair s e) w) in
  fst (set_frame_range (FrPair s e) w) = Ret tt /\
  w_signal stored = w_signal w /\
  w_host stored = w_host w /\
  _frame_range_preset (w_self stored) = None /\
  get_start_end_frame (at_host stored h) = (Ret (s, e), at_host stored h).
Proof.
  intros stored. subst stored. unfold set_frame_range, resolve_frame_range, get_start_end_frame.
  msimpl. self_simpl. repeat split.
Qed.

(** X4: a preset name given to [set_frame_range] is resolved by the
    getter in the host of the call: "Render" gives the frame range of the
    render globals, "Playback" and "Animation" the bounds of the playback
    and animation ranges cut to integers; the values read when the preset
    was set are not used. *)
Theorem set_frame_range_preset_resolves_at_call (w : World) (h : Host) (P : string) :
  In P FRAME_RANGE_PRESETS ->
  let stored := snd (set_frame_range (FrName P) w) in
  fst (set_frame_range (FrName P) w) = Ret tt /\
  w_signal stored = w_signal w /\
  _frame_range_preset (w_self stored) = Some P /\
  get_start_end_frame (at_host stored h) = (Ret (preset_frames P h), at_host stored h) /\
  ((P = "Render" /\
    preset_frames P h = (render_start_frame (scene h), render_end_frame (scene h))) \/
   (P = "Playback" /\
    preset_frames P h = (py_int (playback_min_time (scene h)),
                         py_int (playback_max_time (scene h)))) \/
   (P = "Animation" /\
    preset_frames P h = (py_int (animation_start_time (scene h)),
                         py_int (animation_end_time (scene h))))).
Proof.
  intros HP stored. subst stored. simpl in HP.
  destruct HP as [<-|[<-|[<-|[]]]];
    unfold set_frame_range, resolve_frame_range, get_start_end_frame, preset_to_frame_range;
    msimpl; cbn [String.eqb Ascii.eqb Bool.eqb PyStr.mem existsb FRAME_RANGE_PRESETS orb];
    msimpl; self_simpl;
    cbn [PyStr.truthy String.eqb negb]; msimpl;
    cbn [String.eqb Ascii.eqb Bool.eqb]; msimpl;
    (split; [reflexivity|]); (split; [reflexivity|]); (split; [reflexivity|]);
    (split; [reflexivity|]); tauto.
Qed.

Lemma set_frame_range_preset_resolves_at_call_witness :
  let later := Sample.host_with []
                 {| cameras := []; time_unit := "film"; sound_node := ""; sound_filename := "";
                    sound_offset := 0; render_width := 960; render_height := 540;
                    render_start_frame := 1; render_end_frame := 10;
                    playback_min_time := 101 # 2; playback_max_time := -7 # 2;
                    animation_start_time := 1; animation_end_time := 48;
                    scene_short_name := ""; workspace_root := "";
                    quicktime_command := None |} in
  let stored := snd (set_frame_range (FrName "Playback") Sample.sample_world) in
  fst (get_start_end_frame stored) = Ret (inject_Z 1, inject_Z 24) /\
  fst (get_start_end_frame (at_host stored later)) = Ret (inject_Z 50, inject_Z (-3)).
Proof.
  intros later stored. split; [reflexivity|].
  destruct (set_frame_range_preset_resolves_at_call Sample.sample_world later "Playback")
    as (_ & _ & _ & G & _).
  - simpl. tauto.
  - fold stored in G. rewrite G. reflexivity.
Defined.

(** X5: a name that is no frame range preset is reported by
    [set_frame_range] with one error, without an exception, and nothing is
    changed: the attributes, and so the preset and the frames stored
    before, are kept. *)
Theorem set_frame_range_unknown_name_keeps_state (w : World) (name : string) :
  ~ In name FRAME_RANGE_PRESETS ->
  let w' := snd (set_frame_range (FrName name) w) in
  fst (set_frame_range (FrName name) w) = Ret tt /\
  w_self w' = w_self w /\
  w_host w' = w_host w /\
  w_signal w'
  = app (w_signal w)
        ["[ERROR] Invalid frame range. Expected one of (start_frame, end_frame) or 'Render', 'Playback', 'Animation'"].
Proof.
  intros N w'. subst w'. simpl in N.
  unfold set_frame_range, resolve_frame_range, preset_to_frame_range. msimpl.
  destruct (String.eqb_spec name "Render"); [exfalso; apply N; subst; auto|].
  destruct (String.eqb_spec name "Playback"); [exfalso; apply N; subst; auto|].
  destruct (String.eqb_spec name "Animation"); [exfalso; apply N; subst; auto|].
  msimpl. destruct (_log_to_maya (w_self w)); msimpl; repeat split.
Qed.

Lemma set_frame_range_unknown_name_keeps_state_witness :
  let w' := snd (set_frame_range (FrName "Timeline") Sample.sample_world) in
  w_self w' = Sample.sample_self /\
  length (w_signal w') = 1%nat.
Proof.
  intros w'.
  destruct (set_frame_range_unknown_name_keeps_state Sample.sample_world "Timeline")
    as (_ & S & _ & L).
  - simpl. intuition discriminate.
  - fold w' in S, L. split; [exact S|]. rewrite L. reflexivity.
Defined.

Lemma py_int_truncates (x : Q) :
  exists z, py_int x = inject_Z z /\ truncation_of x z.
Proof.
  destruct x as [n d]. exists (Z.quot n (Zpos d)). split; [reflexivity|].
  unfold truncation_of, Qle, Qlt, Qplus, Qminus, Qopp, inject_Z. cbn [Qnum Qden].
  split; intros H; rewrite ?Z.mul_1_r in *.
  - assert (N : 0 <= n) by lia.
    rewrite Z.quot_div_nonneg by lia.
    pose proof (Z.mul_div_le n (Zpos d) ltac:(lia)).
    pose proof (Z.mul_succ_div_gt n (Zpos d) ltac:(lia)).
    set (q := n / Z.pos d) in *. clearbody q. unfold Z.succ in *.
    split; simpl; nia.
  - remember (- n) as m eqn:Hm. assert (Hn : n = - m) by lia. clear Hm. subst n.
    assert (N : 0 <= m) by lia.
    rewrite Z.quot_opp_l by lia. rewrite Z.quot_div_nonneg by lia.
    pose proof (Z.mul_div_le m (Zpos d) ltac:(lia)).
    pose proof (Z.mul_succ_div_gt m (Zpos d) ltac:(lia)).
    set (q := m / Z.pos d) in *. clearbody q. unfold Z.succ in *.
    split; simpl; nia.
Qed.

(** X6: with preset "Playback" or "Animation" stored, the frame range the
    getter returns is a pair of integers: each bound of the host cut towards
    zero, so within one frame of the bound and never past it. *)
Theorem preset_range_is_truncated (w : World) (P : string) :
  _frame_range_preset (w_self w) = Some P ->
  P = "Playback" \/ P = "Animation" ->
  exists s e : Z,
    get_start_end_frame w = (Ret (inject_Z s, inject_Z e), w) /\
    truncation_of (if String.eqb P "Playback" then playback_min_time (scene (w_host w))
                   else animation_start_time (scene (w_host w))) s /\
    truncation_of (if String.eqb P "Playback" then playback_max_time (scene (w_host w))
                   else animation_end_time (scene (w_host w))) e.
Proof.
  intros S HP. unfold get_start_end_frame, preset_to_frame_range. msimpl. rewrite S.
  destruct HP as [-> | ->]; cbn [PyStr.truthy String.eqb Ascii.eqb Bool.eqb negb];
    msimpl; cbn [String.eqb Ascii.eqb Bool.eqb].
  - destruct (py_int_truncates (playback_min_time (scene (w_host w)))) as [s [-> Ts]].
    destruct (py_int_truncates (playback_max_time (scene (w_host w)))) as [e [-> Te]].
    exists s, e. auto.
  - destruct (py_int_truncates (animation_start_time (scene (w_host w)))) as [s [-> Ts]].
    destruct (py_int_truncates (animation_end_time (scene (w_host w)))) as [e [-> Te]].
    exists s, e. auto.
Qed.

Lemma preset_range_is_truncated_witness :
  let h := Sample.host_with []
             {| cameras := []; time_unit := "film"; sound_node := ""; sound_filename := "";
                sound_offset := 0; render_width := 960; render_height := 540;
                render_start_frame := 1; render_end_frame := 10;
                playback_min_time := -7 # 2; playback_max_time := 101 # 2;
                animation_start_time := 1; animation_end_time := 48;
                scene_short_name := ""; workspace_root := "";
                quicktime_command := None |} in
  let w := Sample.world_of (with_frame_range_preset Sample.sample_self (Some "Playback")) h in
  exists s e : Z,
    fst (get_start_end_frame w) = Ret (inject_Z s, inject_Z e) /\
    (inject_Z s - 1 < -7 # 2)%Q /\ (-7 # 2 <= inject_Z s)%Q /\
    (inject_Z e <= 101 # 2)%Q /\ (101 # 2 < inject_Z e + 1)%Q.
Proof.
  intros h w.
  destruct (preset_range_is_truncated w "Playback" eq_refl (or_introl eq_refl))
    as [s [e [G [[_ Ts] [Te _]]]]].
  exists s, e. rewrite G. split; [reflexivity|].
  cbn [String.eqb Ascii.eqb Bool.eqb] in Ts, Te.
  destruct Ts as [T1 T2]; [vm_compute; discriminate|].
  destruct Te as [T3 T4]; [vm_compute; discriminate|].
  auto.
Defined.

(** X7: a name that is no visibility preset is reported by
    [set_visibility] with one error, without an exception, and the
    attributes are unchanged. *)
Theorem set_visibility_unknown_preset_keeps_state (w : World) (name : string) :
  name <> "" ->
  ~ In name (Dict.keys VIEWPORT_VISIBILITY_PRESETS) ->
  let w' := snd (set_visibility (VisName name) w) in
  fst (set_visibility (VisName name) w) = Ret tt /\
  w_self w' = w_self w /\
  w_host w' = w_host w /\
  w_signal w' = app (w_signal w) ["[ERROR] Invalid visibility preset: " ++ name].
Proof.
  intros Ne N w'. subst w'. apply mem_not_In in N.
  unfold set_visibility, preset_to_visibility.
  destruct name as [|c name]; [congruence|].
  unfold Dict.has_key. rewrite N. msimpl.
  destruct (_log_to_maya (w_self w)); msimpl; repeat split.
Qed.

Lemma set_visibility_unknown_preset_keeps_state_witness :
  let w := Sample.world_of (Sample.staged_self "mp4" "h264") Sample.sample_host in
  let w' := snd (set_visibility (VisName "Everything") w) in
  w_self w' = w_self w /\
  w_signal w' = ["[ERROR] Invalid visibility preset: Everything"].
Proof.
  intros w w'.
  destruct (set_visibility_unknown_preset_keeps_state w "Everything") as (_ & S & _ & L).
  - discriminate.
  - simpl. intuition discriminate.
  - split; [exact S | exact L].
Defined.

(** X8: after [set_visibility] with a string, the stored visibility data
    is empty or has one entry per entry of the catalogue whenever that held
    before or the string is empty or a preset name: choosing a preset never
    leaves data that [create_viewport_visibility_flags] cannot index. *)
Theorem set_visibility_name_keeps_data_indexable (w : World) (name : string) :
  visibility_ok (w_self w) \/ name = "" \/ In name (Dict.keys VIEWPORT_VISIBILITY_PRESETS) ->
  fst (set_visibility (VisName name) w) = Ret tt /\
  visibility_ok (w_self (snd (set_visibility (VisName name) w))).
Proof.
  intros H. unfold set_visibility, preset_to_visibility.
  destruct name as [|c name].
  { msimpl. self_simpl. split; [reflexivity|]. left. reflexivity. }
  set (n := String c name) in *. unfold Dict.has_key.
  destruct (PyStr.mem n (Dict.keys VIEWPORT_VISIBILITY_PRESETS)) eqn:K; cbn [negb].
  - apply mem_In in K.
    destruct (Dict.get n VIEWPORT_VISIBILITY_PRESETS) as [names|] eqn:G.
    + msimpl. self_simpl. split; [reflexivity|].
      unfold visibility_ok. self_simpl.
      destruct names; [left; reflexivity|].
      right. rewrite length_map. apply Nat.le_refl.
    + exfalso. revert K G. unfold VIEWPORT_VISIBILITY_PRESETS. cbn [Dict.keys map fst In Dict.get].
      intros [<-|[<-|[<-|[]]]]; discriminate.
  - apply mem_not_In in K. msimpl.
    destruct H as [H|[H|H]]; [|discriminate H|contradiction].
    destruct (_log_to_maya (w_self w)); msimpl; split; auto.
Qed.

Lemma set_visibility_name_keeps_data_indexable_witness :
  let w := Sample.world_of (Sample.self_with "bin/ffmpeg" None [true; false] "mp4" "h264")
             Sample.sample_host in
  length (_visibility (w_self (snd (set_visibility (VisName "Dynamics") w)))) = 37%nat /\
  visibility_ok (w_self (snd (set_visibility (VisName "Dynamics") w))).
Proof.
  intros w. split; [reflexivity|].
  apply (set_visibility_name_keeps_data_indexable w "Dynamics").
  right. right. simpl. tauto.
Defined.

(** X9: after [set_visibility] with "Viewport", [get_visibility] returns
    the flags of the viewport as they are when it is called, in every later
    state of the host with an active viewport, and leaves the world as it
    is, so that a second call returns the same. *)
Theorem viewport_preset_reads_live_flags (w : World) (h : Host) :
  let stored := at_host (snd (set_visibility (VisName "Viewport") w)) h in
  viewport_active stored ->
  get_visibility stored = (Ret (Some (snapshot (viewport h))), stored) /\
  length (snapshot (viewport h)) = 37%nat.
Proof.
  intros stored ([ed E] & T). split; [|reflexivity].
  unfold get_visibility. unfold bind at 1. unfold get_self at 1. cbv beta iota.
  assert (V : _visibility (w_self stored) = []) by reflexivity.
  rewrite V. apply (get_viewport_visibility_ok stored ed E T).
Qed.

Lemma viewport_preset_reads_live_flags_witness :
  let w := Sample.world_of (Sample.staged_self "mp4" "h264") Sample.sample_host in
  let stored := at_host (snd (set_visibility (VisName "Viewport") w)) Sample.sample_host in
  fst (get_visibility stored) = Ret (Some (snapshot Sample.sample_viewport)) /\
  nth_error (snapshot Sample.sample_viewport) 33 = Some true.
Proof.
  intros w stored. split; [|reflexivity].
  destruct (viewport_preset_reads_live_flags w Sample.sample_host) as [G _].
  - split; [exists "modelEditor4"; reflexivity | reflexivity].
  - fold stored in G. rewrite G. reflexivity.
Defined.

(* ------------------------------------------------------------------ *)
(** * Further properties: flags, encoder settings, command line *)

Lemma distinct_NoDup (l : list string) : distinct l = true -> NoDup l.
Proof.
  induction l as [|x rest IH]; cbn [distinct]; intros H; constructor.
  - apply andb_prop in H. destruct H as [H _].
    apply negb_true_iff in H. now apply mem_not_In.
  - apply IH. apply andb_prop in H. tauto.
Qed.

Lemma dict_set_fresh {V : Type} (k : string) (v : V) (d : list (string * V)) :
  ~ In k (Dict.keys d) -> Dict.set k v d = (d ++ [(k, v)])%list.
Proof.
  induction d as [|[k0 v0] rest IH]; cbn [Dict.set Dict.keys map fst In app]; intros N.
  - reflexivity.
  - destruct (String.eqb_spec k k0) as [->|_]; [exfalso; auto|].
    rewrite IH; [reflexivity|]. intros I. apply N. right. exact I.
Qed.

Lemma visibility_flags_loop_combine (items : list (string * string)) (data : list bool)
    (idx : nat) (acc : list (string * bool)) (w : World) :
  NoDup (Dict.keys acc ++ map snd items)%list ->
  (idx <= length data)%nat ->
  visibility_flags_loop items (Some data) idx acc w
  = (if (idx + length items <=? length data)%nat
     then Ret (acc ++ combine (map snd items) (skipn idx data))%list
     else Raise (IndexError "list index out of range"), w).
Proof.
  revert idx acc. induction items as [|item rest IH]; intros idx acc ND Le;
    cbn [visibility_flags_loop map length].
  - cbn [combine]. rewrite app_nil_r. unfold ret.
    destruct (Nat.leb_spec (idx + 0) (length data)) as [L|L]; [reflexivity | lia].
  - destruct (nth_error data idx) as [v|] eqn:E.
    + assert (Lt : (idx < length data)%nat) by (apply nth_error_Some; congruence).
      assert (Fresh : ~ In (snd item) (Dict.keys acc)).
      { intros I. apply NoDup_remove_2 in ND. apply ND. apply in_or_app. left. exact I. }
      rewrite (dict_set_fresh _ _ _ Fresh). rewrite IH.
      * replace (S idx + length rest)%nat with (idx + S (length rest))%nat by lia.
        destruct (idx + S (length rest) <=? length data)%nat; [|reflexivity].
        rewrite <- app_assoc. cbn [app].
        assert (Sk : skipn idx data = v :: skipn (S idx) data).
        { clear -E. revert idx E. induction data as [|b data IHd]; intros [|idx] E;
            cbn in *; try discriminate.
          - congruence.
          - now apply IHd. }
        rewrite Sk. reflexivity.
      * unfold Dict.keys in *. rewrite map_app, <- app_assoc. cbn [map fst app].
        exact ND.
      * lia.
    + apply nth_error_None in E. unfold raise.
      destruct (Nat.leb_spec (idx + S (length rest)) (length data)); [lia | reflexivity].
Qed.

Lemma flag_names_distinct : NoDup flag_names.
Proof. apply distinct_NoDup. vm_compute. reflexivity. Qed.

(** X10: from data with at least one entry per entry of the catalogue,
    [create_viewport_visibility_flags] returns the dictionary that pairs the
    flag names, in the order of the catalogue, with the data at the same
    positions, ignoring further entries; from shorter data it raises
    [IndexError].  The world is unchanged. *)
Theorem visibility_flags_pair_names_with_data (data : list bool) (w : World) :
  create_viewport_visibility_flags (Some data) w
  = (if (length VIEWPORT_VISIBILITY_LOOKUP <=? length data)%nat
     then Ret (combine flag_names data)
     else Raise (IndexError "list index out of range"), w).
Proof.
  unfold create_viewport_visibility_flags.
  rewrite visibility_flags_loop_combine;
    [reflexivity | exact flag_names_distinct | apply Nat.le_0_l].
Qed.

(** X11: [set_h264_settings] stores both values when the quality is a
    key of the quality table and the preset is in the preset list, and
    otherwise logs one error and keeps both stored values; it never raises,
    and a stored quality that the table knows stays one that the table
    knows, so that the lookup of the rate factor in [encode_h264] cannot
    fail. *)
Theorem set_h264_settings_all_or_nothing (w : World) (quality preset : string) :
  let w' := snd (set_h264_settings quality preset w) in
  fst (set_h264_settings quality preset w) = Ret tt /\
  w_host w' = w_host w /\
  (if PyStr.mem quality (Dict.keys H264_QUALITIES) && PyStr.mem preset H264_PRESETS
   then _h264_quality (w_self w') = quality /\ _h264_preset (w_self w') = preset /\
        w_signal w' = w_signal w
   else _h264_quality (w_self w') = _h264_quality (w_self w) /\
        _h264_preset (w_self w') = _h264_preset (w_self w) /\
        exists text, w_signal w' = app (w_signal w) ["[ERROR] Invalid h264 " ++ text]) /\
  (In (_h264_quality (w_self w)) (Dict.keys H264_QUALITIES) ->
   exists crf, Dict.get (_h264_quality (w_self w')) H264_QUALITIES = Some crf /\
               In crf [18; 20; 23; 26]).
Proof.
  intros w'. subst w'. unfold set_h264_settings.
  assert (Known : forall q, In q (Dict.keys H264_QUALITIES) ->
            exists crf, Dict.get q H264_QUALITIES = Some crf /\ In crf [18; 20; 23; 26]).
  { simpl. intros q [<-|[<-|[<-|[<-|[]]]]]; eexists; (split; [reflexivity|]); simpl; tauto. }
  destruct (PyStr.mem quality (Dict.keys H264_QUALITIES)) eqn:Q; cbn [negb andb].
  - destruct (PyStr.mem preset H264_PRESETS) eqn:P; cbn [negb].
    + msimpl. self_simpl. repeat split. intros _. apply Known. now apply mem_In.
    + msimpl. destruct (_log_to_maya (w_self w)); msimpl;
        (split; [reflexivity|]); (split; [reflexivity|]);
        (split; [split; [reflexivity|]; split; [reflexivity|]; eexists; reflexivity|]);
        exact (Known _).
  - msimpl. destruct (_log_to_maya (w_self w)); msimpl;
      (split; [reflexivity|]); (split; [reflexivity|]);
      (split; [split; [reflexivity|]; split; [reflexivity|]; eexists; reflexivity|]);
      exact (Known _).
Qed.

Lemma get_frame_rate_of_scene (w w' : World) :
  scene (w_host w') = scene (w_host w) ->
  fst (get_frame_rate w') = fst (get_frame_rate w).
Proof.
  intros S. unfold get_frame_rate. msimpl. rewrite S.
  repeat (case_if; msimpl); reflexivity.
Qed.

Lemma get_frame_rate_ready (w : World) :
  encoder_ready w -> exists rate, fst (get_frame_rate w) = Ret rate.
Proof.
  intros (_ & U & _). destruct (get_frame_rate_wp w) as [_ H]. exact (H U).
Qed.

Lemma h264_crf_ready (w : World) :
  encoder_ready w ->
  exists crf, Dict.get (_h264_quality (w_self w)) H264_QUALITIES = Some crf /\
              In crf [18; 20; 23; 26].
Proof.
  intros (_ & _ & K). revert K. generalize (_h264_quality (w_self w)).
  simpl. intros q [<-|[<-|[<-|[<-|[]]]]]; eexists; (split; [reflexivity|]); simpl; tauto.
Qed.

(** X12: when the encoder can run (no audio node linked, a supported
    time unit, a quality of the table), [encode_h264] returns after logging
    and starting exactly one command, of the form
    [ffmpeg -y -framerate fps -i "frames" -c:v libx264 -crf:v crf -preset:v
    preset -profile high -level 4.0 -pix_fmt yuv420p "output"], where [fps]
    is the printed frame rate of the host and [crf] is the rate factor of
    the stored quality, one of 18, 20, 23 and 26. *)
Theorem encode_h264_starts_one_command (source_path output_path : string)
    (start_frame : Q) (w : World) :
  encoder_ready w ->
  let w' := snd (encode_h264 source_path output_path start_frame w) in
  exists rate crf,
    fst (get_frame_rate w) = Ret rate /\
    Dict.get (_h264_quality (w_self w)) H264_QUALITIES = Some crf /\
    In crf [18; 20; 23; 26] /\
    fst (encode_h264 source_path output_path start_frame w) = Ret tt /\
    w_calls w'
    = app (w_calls w)
          [CallFfmpeg (h264_command (_ffmpeg_path (w_self w))
                         (float_repr (platform (w_host w)) rate) source_path crf
                         (_h264_preset (w_self w)) output_path)] /\
    exists rest,
      w_signal w'
      = app (w_signal w)
            (h264_command (_ffmpeg_path (w_self w))
               (float_repr (platform (w_host w)) rate) source_path crf
               (_h264_preset (w_self w)) output_path :: rest).
Proof.
  intros Rd w'. destruct (get_frame_rate_ready w Rd) as [rate Fr].
  destruct (h264_crf_ready w Rd) as [crf [G Hc]].
  exists rate, crf. split; [exact Fr|]. split; [exact G|]. split; [exact Hc|].
  destruct (encode_h264_command_without_audio source_path output_path start_frame rate crf w
              (proj1 Rd) Fr G) as (R & C & S & _).
  split; [exact R|]. split; [exact C | exact S].
Qed.

Lemma encode_h264_starts_one_command_witness :
  let w := Sample.sample_world in
  w_calls (snd (encode_h264 "out/playblast_temp/shot.%04d.png" "out/shot.mp4" 1 w))
  = [CallFfmpeg
       (h264_command "bin/ffmpeg" "24.0" "out/playblast_temp/shot.%04d.png" 20 "fast"
          "out/shot.mp4")].
Proof.
  intros w.
  destruct (encode_h264_starts_one_command "out/playblast_temp/shot.%04d.png" "out/shot.mp4"
              1 w) as (rate & crf & Fr & G & _ & _ & C & _).
  - split; [reflexivity|]. split; [left; simpl; tauto | simpl; tauto].
  - rewrite C. injection Fr as <-. injection G as <-. reflexivity.
Defined.

(* ------------------------------------------------------------------ *)
(** * Further properties: the order of the host commands of [execute] *)

Section Runs.

Context {A B : Type}.

Lemma bind_run (c : M A) (k : A -> M B) (w w' : World) (a : A) :
  c w = (Ret a, w') -> bind c k w = k a w'.
Proof. unfold bind. now intros ->. Qed.

Lemma bind_raise (c : M A) (k : A -> M B) (w w' : World) (e : Exn) :
  c w = (Raise e, w') -> bind c k w = (Raise e, w').
Proof. unfold bind. now intros ->. Qed.

Lemma run_of_wp (c : M A) (w : World) (Q : Res A -> World -> Prop) :
  wp c w Q -> exists r w', c w = (r, w') /\ Q r w'.
Proof.
  unfold wp. intros H. exists (fst (c w)), (snd (c w)).
  split; [apply surjective_pairing | exact H].
Qed.

End Runs.

Lemma moved_refl (w : World) : moved [] [] w w.
Proof. split; [apply steady_refl|]. now rewrite !app_nil_r. Qed.

Lemma moved_trans (d1 d2 : list HostCall) (l1 l2 : list string) (w1 w2 w3 : World) :
  moved d1 l1 w1 w2 -> moved d2 l2 w2 w3 -> moved (d1 ++ d2) (l1 ++ l2) w1 w3.
Proof.
  intros (S1 & C1 & L1) (S2 & C2 & L2).
  split; [eapply steady_trans; eauto|].
  rewrite C2, C1, L2, L1, !app_assoc. auto.
Qed.

Lemma only_logs_moved (lines : list string) (w w' : World) :
  only_logs w w' -> w_signal w' = app (w_signal w) lines -> moved [] lines w w'.
Proof.
  intros L S. split; [now apply only_logs_steady|].
  destruct L as (_ & _ & C). rewrite C, app_nil_r. auto.
Qed.

Lemma create_flags_combine (data : list bool) (w : World) :
  (length VIEWPORT_VISIBILITY_LOOKUP <= length data)%nat ->
  create_viewport_visibility_flags (Some data) w = (Ret (combine flag_names data), w).
Proof.
  intros L. unfold create_viewport_visibility_flags.
  rewrite visibility_flags_loop_combine;
    [| exact flag_names_distinct | apply Nat.le_0_l].
  cbn [plus]. apply Nat.leb_le in L. rewrite L. reflexivity.
Qed.

(** The camera step and the flags step as runs. *)
Lemma set_active_camera_run (c : string) (w : World) (ed : string) :
  focus_model_editor (viewport (w_host w)) = Some ed ->
  PyStr.truthy (panel_with_focus (viewport (w_host w))) = true ->
  exists w',
    set_active_camera (Some c) w = (Ret tt, w') /\
    moved [CallLookThrough c (panel_with_focus (viewport (w_host w)))] [] w w' /\
    files (w_host w') = files (w_host w) /\
    panel_camera (viewport (w_host w')) = c /\
    editor_flags (viewport (w_host w')) = editor_flags (viewport (w_host w)).
Proof.
  intros E T.
  destruct (run_of_wp _ _ _ (set_active_camera_wp (Some c) w ed E T))
    as (r & w' & R & -> & Sg & St & F & Cm & Fl & C).
  exists w'. split; [exact R|]. split; [|auto].
  split; [exact St|]. split; [exact C|]. now rewrite app_nil_r.
Qed.

Lemma set_viewport_visibility_run (fl : list (string * bool)) (w : World) (ed : string) :
  focus_model_editor (viewport (w_host w)) = Some ed ->
  exists w',
    set_viewport_visibility ed fl w = (Ret tt, w') /\
    moved [CallModelEditorEdit ed fl] [] w w' /\
    files (w_host w') = files (w_host w) /\
    panel_camera (viewport (w_host w')) = panel_camera (viewport (w_host w)).
Proof.
  intros E.
  destruct (run_of_wp _ _ _ (set_viewport_visibility_wp fl w ed E))
    as (r & w' & R & -> & Sg & St & F & Cm & Fl & C).
  exists w'. split; [exact R|]. split; [|auto].
  split; [exact St|]. split; [exact C|]. now rewrite app_nil_r.
Qed.

Lemma cmds_playblast_run (options : PlayblastOptions) (w : World) :
  exists r w',
    cmds_playblast options w = (r, w') /\
    moved [CallPlayblast options] [] w w' /\
    viewport (w_host w') = viewport (w_host w) /\
    match playblast_frames (platform (w_host w)) options (files (w_host w)) with
    | Some fs => r = Ret tt /\ files (w_host w') = fs
    | None => (exists e, r = Raise e) /\ files (w_host w') = files (w_host w)
    end.
Proof.
  unfold cmds_playblast. msimpl.
  destruct (playblast_frames _ _ _); msimpl; do 2 eexists; (split; [reflexivity|]);
    (split; [split; [repeat split|]; cbn; rewrite ?app_nil_r; auto|]); eauto.
Qed.

Lemma moved_editor (d : list HostCall) (l : list string) (w w' : World) (ed : string) :
  moved d l w w' ->
  focus_model_editor (viewport (w_host w)) = Some ed ->
  PyStr.truthy (panel_with_focus (viewport (w_host w))) = true ->
  focus_model_editor (viewport (w_host w')) = Some ed /\
  PyStr.truthy (panel_with_focus (viewport (w_host w'))) = true /\
  panel_with_focus (viewport (w_host w')) = panel_with_focus (viewport (w_host w)).
Proof.
  intros ((_ & _ & _ & P & F) & _) E T. rewrite P, F. auto.
Qed.

(** The capture with a camera of the scene and data that covers the
    catalogue: the commands before and after [cmds.playblast], and what
    follows. *)
Lemma capture_run (filename : string) (padding : Z) (show_in_viewer : bool)
    (t : Targets) (start_frame : Q) (options : PlayblastOptions) (w : World)
    (ed c : string) :
  focus_model_editor (viewport (w_host w)) = Some ed ->
  PyStr.truthy (panel_with_focus (viewport (w_host w))) = true ->
  capture_camera w = Some c ->
  In c (cameras (scene (w_host w))) ->
  (length VIEWPORT_VISIBILITY_LOOKUP <= length (capture_data w))%nat ->
  let run := capture_and_encode (panel_with_focus (viewport (w_host w))) filename padding
               show_in_viewer t start_frame options w in
  match playblast_frames (platform (w_host w)) options (files (w_host w)) with
  | None =>
      fst run = Ret tt /\
      moved (capture_calls w c ed options ++ [CallPrintExc] ++ restore_calls w ed)
        ["[ERROR] Failed to created playblast. See script editor for details"]
        w (snd run) /\
      files (w_host (snd run)) = files (w_host w)
  | Some fs =>
      exists w5,
        run = encode_and_clean (w_self w) filename padding show_in_viewer t start_frame w5 /\
        moved (capture_calls w c ed options ++ restore_calls w ed) [] w w5 /\
        files (w_host w5) = fs
  end.
Proof.
  intros E T Cam InC Len run. subst run. unfold capture_and_encode.
  rewrite (bind_run get_self _ w w (w_self w) eq_refl).
  rewrite (bind_run _ _ _ _ _ (get_active_camera_ok w ed E T)).
  fold (capture_camera w). rewrite Cam.
  rewrite (bind_run cmds_listCameras _ w w (cameras (scene (w_host w))) eq_refl).
  cbn [PyStr.mem_opt]. rewrite (proj2 (mem_In _ _) InC). cbn [negb].
  (* the capture camera *)
  destruct (set_active_camera_run c w ed E T) as (w1 & R1 & M1 & F1 & _ & Fl1).
  rewrite (bind_run _ _ _ _ _ R1).
  destruct (moved_editor _ _ _ _ _ M1 E T) as (E1 & T1 & P1).
  assert (S1 : w_self w1 = w_self w) by apply M1.
  assert (Sn1 : snapshot (viewport (w_host w1)) = snapshot (viewport (w_host w)))
    by (unfold snapshot; now rewrite Fl1).
  (* the two dictionaries *)
  rewrite (bind_run _ _ _ _ _ (get_viewport_visibility_ok w1 ed E1 T1)).
  rewrite (bind_run _ _ _ _ _ (create_flags_combine (snapshot (viewport (w_host w1))) w1
                                  (Nat.eq_le_incl _ _ (eq_sym (snapshot_length _))))).
  destruct (run_of_wp _ _ _ (get_visibility_wp w1 ed E1 T1)) as (rv & wv & Rv & -> & ->).
  rewrite (bind_run _ _ _ _ _ Rv).
  assert (D1 : match _visibility (w_self w1) with
               | [] => snapshot (viewport (w_host w1))
               | b :: l => b :: l
               end = capture_data w)
    by (unfold capture_data; now rewrite S1, Sn1).
  rewrite D1. rewrite (bind_run _ _ _ _ _ (create_flags_combine (capture_data w) w1 Len)).
  rewrite <- P1.
  rewrite (bind_run _ _ _ _ _ (cmds_modelPanel_modelEditor_ok w1 ed E1)).
  destruct (set_viewport_visibility_run (combine flag_names (capture_data w)) w1 ed E1)
    as (w2 & R2 & M2 & F2 & _).
  rewrite (bind_run _ _ _ _ _ R2).
  pose proof (moved_trans _ _ _ _ _ _ _ M1 M2) as M12. cbn [app] in M12.
  destruct (moved_editor _ _ _ _ _ M12 E T) as (E2 & T2 & P2).
  (* the capture *)
  destruct (cmds_playblast_run options w2) as (rp & w3 & R3 & M3 & V3 & O3).
  assert (Pl : platform (w_host w2) = platform (w_host w)) by apply M12.
  rewrite Pl, F2, F1 in O3.
  pose proof (moved_trans _ _ _ _ _ _ _ M12 M3) as M13. cbn [app] in M13.
  rewrite Sn1.
  (* the restoration, from any world that the capture leaves *)
  assert (Restore : forall d l wx, moved d l w wx ->
            exists w5,
              (set_active_camera (Some (panel_camera (viewport (w_host w)))) ;;
               set_viewport_visibility ed
                 (combine flag_names (snapshot (viewport (w_host w))))) wx = (Ret tt, w5) /\
              moved (d ++ restore_calls w ed) l w w5 /\
              files (w_host w5) = files (w_host wx)).
  { intros d l wx Mx. destruct (moved_editor _ _ _ _ _ Mx E T) as (Ex & Tx & Px).
    destruct (set_active_camera_run (panel_camera (viewport (w_host w))) wx ed Ex Tx)
      as (w4 & R4 & M4 & F4 & _).
    pose proof (moved_trans _ _ _ _ _ _ _ Mx M4) as Mx4.
    destruct (moved_editor _ _ _ _ _ Mx4 E T) as (E4 & _).
    destruct (set_viewport_visibility_run
                (combine flag_names (snapshot (viewport (w_host w)))) w4 ed E4)
      as (w5 & R5 & M5 & F5 & _).
    exists w5. rewrite (bind_run _ _ _ _ _ R4). split; [exact R5|].
    split; [|congruence].
    pose proof (moved_trans _ _ _ _ _ _ _ Mx4 M5) as Mx5.
    rewrite Px, <- !app_assoc, !app_nil_r in Mx5. exact Mx5. }
  destruct (playblast_frames (platform (w_host w)) options (files (w_host w))) as [fs|].
  - destruct O3 as [-> Fs3].
    destruct (Restore _ _ w3 M13) as (w5 & R5 & M5 & F5).
    exists w5. split; [|split; [exact M5 | congruence]].
    assert (Run : finally
              (try_except (cmds_playblast options ;; ret false)
                 (traceback_print_exc ;;
                  log_error "Failed to created playblast. See script editor for details" ;;
                  ret true))
              (set_active_camera (Some (panel_camera (viewport (w_host w)))) ;;
               set_viewport_visibility ed
                 (combine flag_names (snapshot (viewport (w_host w))))) w2
            = (Ret false, w5)).
    { unfold finally, try_except. rewrite (bind_run _ _ _ _ _ R3). unfold ret at 1.
      rewrite R5. reflexivity. }
    rewrite (bind_run _ _ _ _ _ Run). reflexivity.
  - destruct O3 as [[e ->] Fs3].
    destruct (run_of_wp _ _ _ (traceback_print_exc_wp w3)) as (r4 & w4 & R4 & -> & K4).
    assert (M4 : moved [CallPrintExc] [] w3 w4).
    { unfold traceback_print_exc in R4. msimpl_in R4. injection R4 as <-.
      split; [repeat split|]. cbn. now rewrite app_nil_r. }
    destruct (log_error_run "Failed to created playblast. See script editor for details" w4)
      as (Re & Le & Se).
    pose proof (only_logs_moved _ _ _ Le Se) as Me.
    pose proof (moved_trans _ _ _ _ _ _ _ (moved_trans _ _ _ _ _ _ _ M13 M4) Me) as M1e.
    cbn [app] in M1e.
    destruct (Restore _ _ _ M1e) as (w5 & R5 & M5 & F5).
    assert (Run : finally
              (try_except (cmds_playblast options ;; ret false)
                 (traceback_print_exc ;;
                  log_error "Failed to created playblast. See script editor for details" ;;
                  ret true))
              (set_active_camera (Some (panel_camera (viewport (w_host w)))) ;;
               set_viewport_visibility ed
                 (combine flag_names (snapshot (viewport (w_host w))))) w2
            = (Ret true, w5)).
    { unfold finally, try_except. rewrite (bind_raise _ _ _ _ _ R3).
      rewrite (bind_run _ _ _ _ _ R4).
      rewrite (bind_run _ _ _ _ tt (eq_trans (surjective_pairing _)
                 (f_equal2 pair Re eq_refl))).
      unfold ret at 1. rewrite R5. reflexivity. }
    rewrite (bind_run _ _ _ _ _ Run). unfold ret. cbn [fst snd].
    split; [reflexivity|]. split.
    + replace (capture_calls w c ed options ++ [CallPrintExc] ++ restore_calls w ed)%list
        with (([CallLookThrough c (panel_with_focus (viewport (w_host w)));
                CallModelEditorEdit ed (combine flag_names (capture_data w));
                CallPlayblast options; CallPrintExc]) ++ restore_calls w ed)%list
        by reflexivity.
      exact M5.
    + rewrite F5. destruct Le as (_ & He & _). rewrite He.
      destruct K4 as (_ & V4 & _).
      unfold traceback_print_exc in R4. msimpl_in R4. injection R4 as <-. cbn. exact Fs3.
Qed.

Lemma get_resolution_run (w : World) :
  resolution_preset_ok (w_self w) ->
  get_resolution_width_height w = (Ret (resolved_size w), w).
Proof.
  intros Ok. destruct (run_of_wp _ _ _ (get_resolution_width_height_wp w))
    as (r & w' & R & -> & H).
  destruct (H Ok) as [l ->]. unfold resolved_size. now rewrite R.
Qed.

Lemma get_start_end_frame_run (w : World) :
  frame_range_preset_ok (w_self w) ->
  get_start_end_frame w = (Ret (resolved_frames w), w).
Proof.
  intros Ok. destruct (run_of_wp _ _ _ (get_start_end_frame_wp w))
    as (r & w' & R & -> & H).
  destruct (H Ok) as [l ->]. unfold resolved_frames. now rewrite R.
Qed.

Lemma compute_targets_free (output_dir filename : string)
    (show_in_viewer overwrite : bool) (w : World) :
  (requires_ffmpeg (w_self w) = true -> overwrite = false ->
   path_exists (files (w_host w))
     (artifact_path (w_self w) (w_host w) output_dir filename) = false) ->
  compute_targets (resolved_directory (w_host w) output_dir)
    (resolved_filename (w_host w) filename) show_in_viewer overwrite w
  = (Ret (Some (capture_targets w output_dir filename show_in_viewer overwrite)), w).
Proof.
  intros Free. unfold compute_targets, capture_targets, os_path_exists. msimpl.
  destruct (requires_ffmpeg (w_self w)); [|reflexivity].
  destruct overwrite; msimpl; [reflexivity|].
  unfold artifact_path in Free. rewrite (Free eq_refl eq_refl). reflexivity.
Qed.

Lemma log_output_run (text : string) (w : World) :
  log_output text w = (Ret tt, snd (log_output text w)) /\
  only_logs w (snd (log_output text w)) /\
  w_signal (snd (log_output text w)) = app (w_signal w) [text].
Proof.
  destruct (log_output_signal_wp text w) as (R & L & S).
  split; [|auto]. rewrite (surjective_pairing (log_output text w)) at 1. now rewrite R.
Qed.

(** With its checks passed, [execute] is the capture from the world in
    which the options are logged. *)
Lemma execute_to_capture (output_dir filename : string) (padding : Z)
    (show_ornaments show_in_viewer overwrite : bool) (w : World) (ed : string) :
  preflight_ok w output_dir filename overwrite ed ->
  let options := capture_options w output_dir filename padding show_ornaments
                   show_in_viewer overwrite in
  execute output_dir filename padding show_ornaments show_in_viewer overwrite w
  = capture_and_encode (panel_with_focus (viewport (w_host w)))
      (resolved_filename (w_host w) filename)
      (if padding <=? 0 then DEFAULT_PADDING else padding) show_in_viewer
      (capture_targets w output_dir filename show_in_viewer overwrite)
      (fst (resolved_frames w)) options
      (snd (log_output (options_line w options) w)).
Proof.
  intros (Ff & E & T & Hd & Hf & Free & Rok & Fok) options.
  apply truthy_nonempty in Hd. apply truthy_nonempty in Hf.
  unfold execute. rewrite (bind_run get_self _ w w (w_self w) eq_refl).
  assert (V : (if requires_ffmpeg (w_self w)
               then ok <- validate_ffmpeg ;; ret (negb ok) else ret false) w
              = (Ret false, w)).
  { destruct (requires_ffmpeg (w_self w)) eqn:Rq; [|reflexivity].
    destruct (Ff eq_refl) as (F1 & F2 & F3).
    rewrite (bind_run _ _ _ _ _ (validate_ffmpeg_ok w F1 F2 F3)). reflexivity. }
  rewrite (bind_run _ _ _ _ _ V).
  rewrite (bind_run _ _ _ _ _ (get_viewport_panel_ok w ed E)). cbv zeta.
  rewrite T, Hd, Hf. cbn [negb].
  rewrite (bind_run _ _ _ _ _ (resolve_output_directory_path_eq output_dir w)).
  rewrite (bind_run _ _ _ _ _ (resolve_output_filename_eq filename w)).
  rewrite (bind_run _ _ _ _ _ (compute_targets_free _ _ show_in_viewer overwrite w Free)).
  rewrite (bind_run _ _ _ _ _ (get_resolution_run w Rok)).
  rewrite (bind_run _ _ _ _ _ (get_start_end_frame_run w Fok)).
  subst options. unfold capture_options, options_line.
  destruct (resolved_frames w) as [s e]. cbn [fst snd].
  rewrite (bind_run get_host _ w w (w_host w) eq_refl).
  unfold capture_targets.
  destruct (requires_ffmpeg (w_self w)); cbn [tg_playblast_output tg_force_overwrite
    tg_compression tg_image_quality tg_index_from_zero tg_viewer];
    erewrite bind_run; try reflexivity; apply log_output_run.
Qed.

Lemma capture_data_only_logs (w w' : World) :
  only_logs w w' -> capture_data w' = capture_data w.
Proof. intros (S & H & _). unfold capture_data. now rewrite S, H. Qed.

Lemma capture_camera_only_logs (w w' : World) :
  only_logs w w' -> capture_camera w' = capture_camera w.
Proof. intros (S & H & _). unfold capture_camera. now rewrite S, H. Qed.

(** [execute] from a world in which the capture can start. *)
Lemma execute_capture_run (output_dir filename : string) (padding : Z)
    (show_ornaments show_in_viewer overwrite : bool) (w : World) (ed c : string) :
  capture_ready w output_dir filename overwrite ed c ->
  let options := capture_options w output_dir filename padding show_ornaments
                   show_in_viewer overwrite in
  let run := execute output_dir filename padding show_ornaments show_in_viewer overwrite w in
  match playblast_frames (platform (w_host w)) options (files (w_host w)) with
  | None =>
      fst run = Ret tt /\
      moved (capture_calls w c ed options ++ [CallPrintExc] ++ restore_calls w ed)
        [options_line w options;
         "[ERROR] Failed to created playblast. See script editor for details"]
        w (snd run) /\
      files (w_host (snd run)) = files (w_host w)
  | Some fs =>
      exists w5,
        run = encode_and_clean (w_self w) (resolved_filename (w_host w) filename)
                (if padding <=? 0 then DEFAULT_PADDING else padding) show_in_viewer
                (capture_targets w output_dir filename show_in_viewer overwrite)
                (fst (resolved_frames w)) w5 /\
        moved (capture_calls w c ed options ++ restore_calls w ed)
          [options_line w options] w w5 /\
        files (w_host w5) = fs
  end.
Proof.
  intros (Pre & Cam & InC & Len) options run. subst run.
  rewrite (execute_to_capture _ _ padding show_ornaments show_in_viewer _ w ed Pre).
  fold options.
  destruct (log_output_run (options_line w options) w) as (_ & L & Sg).
  set (w1 := snd (log_output (options_line w options) w)) in *.
  assert (M1 : moved [] [options_line w options] w w1) by (now apply only_logs_moved).
  destruct Pre as (_ & E & T & _).
  destruct L as (S1 & H1 & C1).
  assert (L : only_logs w w1) by (repeat split; assumption).
  pose proof (capture_run (resolved_filename (w_host w) filename)
                (if padding <=? 0 then DEFAULT_PADDING else padding) show_in_viewer
                (capture_targets w output_dir filename show_in_viewer overwrite)
                (fst (resolved_frames w)) options w1 ed c) as Run.
  rewrite (capture_camera_only_logs _ _ L), (capture_data_only_logs _ _ L) in Run.
  unfold capture_calls, restore_calls in *.
  rewrite (capture_data_only_logs _ _ L) in Run.
  rewrite H1, S1 in Run. specialize (Run E T Cam InC Len). cbv zeta in Run.
  destruct (playblast_frames (platform (w_host w)) options (files (w_host w))) as [fs|].
  - destruct Run as (w5 & R & M5 & F5). exists w5. split; [exact R|]. split; [|exact F5].
    pose proof (moved_trans _ _ _ _ _ _ _ M1 M5) as M. exact M.
  - destruct Run as (R & M5 & F5). split; [exact R|]. split; [|exact F5].
    pose proof (moved_trans _ _ _ _ _ _ _ M1 M5) as M. exact M.
Qed.


(** X14: with the container "Image" and a capture that succeeds,
    [execute] returns after the capture and the restoration: the frames are
    written where the capture writes them, the only log line is that of the
    options, and no encoder path is looked at, no encoder is started and no
    directory is removed. *)
Theorem execute_image_sequence_run (output_dir filename : string) (padding : Z)
    (show_ornaments show_in_viewer overwrite : bool) (w : World) (ed c : string)
    (fs : FileSystem) :
  capture_ready w output_dir filename overwrite ed c ->
  requires_ffmpeg (w_self w) = false ->
  let options := capture_options w output_dir filename padding show_ornaments
                   show_in_viewer overwrite in
  playblast_frames (platform (w_host w)) options (files (w_host w)) = Some fs ->
  let w' := snd (execute output_dir filename padding show_ornaments show_in_viewer
                   overwrite w) in
  fst (execute output_dir filename padding show_ornaments show_in_viewer overwrite w)
  = Ret tt /\
  w_calls w' = app (w_calls w) (capture_calls w c ed options ++ restore_calls w ed) /\
  w_signal w' = app (w_signal w) [options_line w options] /\
  files (w_host w') = fs /\
  opt_compression options = _encoder (w_self w) /\
  opt_quality options = _image_quality (w_self w) /\
  opt_forceOverwrite options = overwrite /\
  opt_viewer options = show_in_viewer /\
  opt_indexFromZero options = false.
Proof.
  intros Rd Rq options Ok w'.
  pose proof (execute_capture_run output_dir filename padding show_ornaments show_in_viewer
                overwrite w ed c Rd) as Run.
  cbv zeta in Run. fold options in Run. rewrite Ok in Run.
  destruct Run as (w5 & R & (_ & C & S) & F).
  subst w'. rewrite R. unfold encode_and_clean. rewrite Rq. unfold ret. cbn [fst snd].
  split; [reflexivity|]. split; [exact C|]. split; [exact S|]. split; [exact F|].
  subst options. unfold capture_options. rewrite Rq.
  cbn [opt_compression opt_quality opt_forceOverwrite opt_viewer opt_indexFromZero].
  auto.
Qed.

Lemma remove_temp_dir_run (path : string) (w : World) :
  let w' := snd (remove_temp_dir path w) in
  fst (remove_temp_dir path w) = Ret tt /\
  steady w w' /\
  w_calls w' = app (w_calls w) [CallRemoveTempDir path] /\
  (exists rest, w_signal w' = app (w_signal w) rest) /\
  files (w_host w') = fst (qdir_remove_frames (platform (w_host w)) path (files (w_host w))).
Proof.
  unfold remove_temp_dir. msimpl.
  destruct (qdir_remove_frames _ _ _) as [fs removed]. msimpl.
  destruct removed; msimpl; [|case_if; msimpl];
    (split; [reflexivity|]); (split; [repeat split|]); (split; [reflexivity|]);
    (split; [|reflexivity]).
  - exists []. now rewrite app_nil_r.
  - eexists. reflexivity.
  - eexists. reflexivity.
Qed.

Lemma open_in_viewer_run (path : string) (w : World) :
  let w' := snd (open_in_viewer path w) in
  fst (open_in_viewer path w) = Ret tt /\
  w_self w' = w_self w /\ w_host w' = w_host w /\
  exists viewer rest,
    w_calls w' = app (w_calls w) viewer /\
    w_signal w' = app (w_signal w) rest /\
    forallb is_viewer_call viewer = true /\
    length viewer
    = (if path_exists (files (w_host w)) path then 1 else 0)%nat.
Proof.
  unfold open_in_viewer, os_path_exists. msimpl.
  destruct (path_exists _ _); msimpl.
  - repeat (case_if; msimpl); (split; [reflexivity|]); (split; [reflexivity|]);
      (split; [reflexivity|]); eexists; exists [];
      (split; [reflexivity|]); (split; [now rewrite app_nil_r|]); split; reflexivity.
  - case_if; msimpl; (split; [reflexivity|]); (split; [reflexivity|]);
      (split; [reflexivity|]); exists []; eexists;
      (split; [now rewrite app_nil_r|]); (split; [reflexivity|]); split; reflexivity.
Qed.

Lemma encode_h264_run (source_path output_path : string) (start_frame rate : Q) (crf : Z)
    (w : World) :
  encoder_ready w ->
  fst (get_frame_rate w) = Ret rate ->
  Dict.get (_h264_quality (w_self w)) H264_QUALITIES = Some crf ->
  let cmd := h264_command (_ffmpeg_path (w_self w))
               (float_repr (platform (w_host w)) rate) source_path crf
               (_h264_preset (w_self w)) output_path in
  let w' := snd (encode_h264 source_path output_path start_frame w) in
  fst (encode_h264 source_path output_path start_frame w) = Ret tt /\
  exists rest, moved [CallFfmpeg cmd] (cmd :: rest) w w'.
Proof.
  intros Rd Fr G cmd w'.
  destruct (encode_h264_command_without_audio source_path output_path start_frame rate crf w
              (proj1 Rd) Fr G) as (R & C & (rest & S) & _).
  split; [exact R|]. exists rest.
  pose proof (encode_h264_wp source_path output_path start_frame w) as K.
  unfold wp in K. destruct K as ((St & _) & _).
  split; [exact St|]. split; [exact C | exact S].
Qed.

(** X15: with an encoded container, the encoder "h264" and an encoder
    that can run, a capture that succeeds is followed, after camera and
    flags are restored, by one encoder command on the frame pattern of the
    temporary directory with the target file as its output, then by the
    removal of the temporary directory, then by at most one command that
    opens a viewer, and none if [show_in_viewer] is false. *)
Theorem execute_h264_order_of_commands (output_dir filename : string) (padding : Z)
    (show_ornaments show_in_viewer overwrite : bool) (w : World) (ed c : string)
    (fs : FileSystem) :
  capture_ready w output_dir filename overwrite ed c ->
  requires_ffmpeg (w_self w) = true ->
  _encoder (w_self w) = "h264" ->
  encoder_ready w ->
  let options := capture_options w output_dir filename padding show_ornaments
                   show_in_viewer overwrite in
  playblast_frames (platform (w_host w)) options (files (w_host w)) = Some fs ->
  let w' := snd (execute output_dir filename padding show_ornaments show_in_viewer
                   overwrite w) in
  exists rate crf viewer rest,
    fst (get_frame_rate w) = Ret rate /\
    Dict.get (_h264_quality (w_self w)) H264_QUALITIES = Some crf /\
    let cmd := h264_command (_ffmpeg_path (w_self w))
                 (float_repr (platform (w_host w)) rate)
                 (frame_pattern (w_host w) output_dir filename padding) crf
                 (_h264_preset (w_self w))
                 (artifact_path (w_self w) (w_host w) output_dir filename) in
    fst (execute output_dir filename padding show_ornaments show_in_viewer overwrite w)
    = Ret tt /\
    w_calls w'
    = app (w_calls w)
          (capture_calls w c ed options ++ restore_calls w ed
             ++ [CallFfmpeg cmd; CallRemoveTempDir (temp_directory (w_host w) output_dir)]
             ++ viewer) /\
    forallb is_viewer_call viewer = true /\
    (length viewer <= 1)%nat /\
    (show_in_viewer = false -> viewer = []) /\
    w_signal w' = app (w_signal w) (options_line w options :: cmd :: rest).
Proof.
  intros Rd Rq Enc ER options Ok w'.
  pose proof (execute_capture_run output_dir filename padding show_ornaments show_in_viewer
                overwrite w ed c Rd) as Run.
  cbv zeta in Run. fold options in Run. rewrite Ok in Run.
  destruct Run as (w5 & R & (St5 & C5 & S5) & F5).
  destruct (get_frame_rate_ready w ER) as [rate Fr].
  destruct (h264_crf_ready w ER) as [crf [G _]].
  exists rate, crf.
  subst w'. rewrite R. clear R.
  unfold encode_and_clean, capture_targets. rewrite Rq, Enc.
  cbn [String.eqb Ascii.eqb Bool.eqb tg_playblast_output_dir tg_output_path].
  change (String.eqb "h264" "h264") with true. cbv iota.
  fold (temp_directory (w_host w) output_dir).
  change (temp_directory (w_host w) output_dir ++ "/" ++ resolved_filename (w_host w) filename
            ++ ".%0" ++ PyStr.of_int (if padding <=? 0 then DEFAULT_PADDING else padding)
            ++ "d.png")
    with (frame_pattern (w_host w) output_dir filename padding).
  set (src := frame_pattern (w_host w) output_dir filename padding).
  set (out := artifact_path (w_self w) (w_host w) output_dir filename).
  set (tmp := temp_directory (w_host w) output_dir).
  assert (ER5 : encoder_ready w5) by (eapply encoder_ready_steady; eauto).
  assert (Fr5 : fst (get_frame_rate w5) = Ret rate).
  { rewrite <- Fr. apply get_frame_rate_of_scene. apply St5. }
  assert (G5 : Dict.get (_h264_quality (w_self w5)) H264_QUALITIES = Some crf).
  { destruct St5 as (-> & _). exact G. }
  destruct (encode_h264_run src out (fst (resolved_frames w)) rate crf w5 ER5 Fr5 G5)
    as (R6 & rest6 & St6 & C6 & S6).
  assert (E5 : w_self w5 = w_self w) by apply St5.
  assert (P5 : platform (w_host w5) = platform (w_host w)) by apply St5.
  rewrite E5, P5 in C6, S6.
  set (cmd := h264_command (_ffmpeg_path (w_self w)) (float_repr (platform (w_host w)) rate)
                src crf (_h264_preset (w_self w)) out) in *.
  set (e := encode_h264 src out (fst (resolved_frames w)) w5) in *.
  destruct e as [r6 w6] eqn:Ee. cbn [fst snd] in R6, St6, C6, S6. subst r6.
  rewrite (bind_run _ _ _ _ _ Ee).
  destruct (remove_temp_dir_run tmp w6) as (R7 & St7 & C7 & (rest7 & S7) & _).
  destruct (remove_temp_dir tmp w6) as [r7 w7] eqn:E7. cbn [fst snd] in R7, St7, C7, S7.
  subst r7. rewrite (bind_run _ _ _ _ _ E7).
  destruct show_in_viewer.
  - destruct (open_in_viewer_run out w7) as (R8 & _ & _ & viewer & rest8 & C8 & S8 & V & L).
    exists viewer, (rest6 ++ rest7 ++ rest8)%list. cbv zeta.
    split; [exact Fr|]. split; [exact G|]. split; [exact R8|].
    split. { rewrite C8, C7, C6, C5. now rewrite <- !app_assoc. }
    split; [exact V|].
    split. { rewrite L. destruct (path_exists _ _); auto. }
    split; [discriminate|].
    rewrite S8, S7, S6, S5. now rewrite <- !app_assoc.
  - exists [], (rest6 ++ rest7)%list. cbv zeta. unfold ret. cbn [fst snd].
    split; [exact Fr|]. split; [exact G|]. split; [reflexivity|].
    split. { rewrite C7, C6, C5. now rewrite <- !app_assoc. }
    split; [reflexivity|]. split; [auto|]. split; [reflexivity|].
    rewrite S7, S6, S5. now rewrite <- !app_assoc.
Qed.

(** X16: with an encoded container and another encoder than "h264"
    (which [set_encoding] stores after its error), a capture that succeeds
    is followed only by the error of the unsupported encoder and the
    removal of the temporary directory: no encoder is started, no viewer is
    opened, and the files left are those the removal leaves of the
    frames. *)
Theorem execute_unsupported_encoder_cleans_up (output_dir filename : string) (padding : Z)
    (show_ornaments show_in_viewer overwrite : bool) (w : World) (ed c : string)
    (fs : FileSystem) :
  capture_ready w output_dir filename overwrite ed c ->
  requires_ffmpeg (w_self w) = true ->
  _encoder (w_self w) <> "h264" ->
  let options := capture_options w output_dir filename padding show_ornaments
                   show_in_viewer overwrite in
  playblast_frames (platform (w_host w)) options (files (w_host w)) = Some fs ->
  let w' := snd (execute output_dir filename padding show_ornaments show_in_viewer
                   overwrite w) in
  fst (execute output_dir filename padding show_ornaments show_in_viewer overwrite w)
  = Ret tt /\
  w_calls w'
  = app (w_calls w)
        (capture_calls w c ed options ++ restore_calls w ed
           ++ [CallRemoveTempDir (temp_directory (w_host w) output_dir)]) /\
  (exists rest,
     w_signal w'
     = app (w_signal w)
         (options_line w options
          :: ("[ERROR] Encoding failed. Unsupported encoder (" ++ _encoder (w_self w)
                ++ ") for container (" ++ _container_format (w_self w) ++ ")")
          :: rest)) /\
  files (w_host w')
  = fst (qdir_remove_frames (platform (w_host w)) (temp_directory (w_host w) output_dir) fs).
Proof.
  intros Rd Rq Enc options Ok w'.
  pose proof (execute_capture_run output_dir filename padding show_ornaments show_in_viewer
                overwrite w ed c Rd) as Run.
  cbv zeta in Run. fold options in Run. rewrite Ok in Run.
  destruct Run as (w5 & R & (St5 & C5 & S5) & F5).
  subst w'. rewrite R. clear R.
  unfold encode_and_clean, capture_targets. rewrite Rq.
  destruct (String.eqb (_encoder (w_self w)) "h264") eqn:E.
  { apply String.eqb_eq in E. contradiction. }
  cbn [tg_playblast_output_dir].
  fold (temp_directory (w_host w) output_dir).
  set (tmp := temp_directory (w_host w) output_dir).
  match goal with
  | |- context [log_error ?t] => set (text := t)
  end.
  destruct (log_error_run text w5) as (R6 & (E6 & H6 & C6) & S6).
  destruct (log_error text w5) as [r6 w6] eqn:E6'. cbn [fst snd] in R6, E6, H6, C6, S6.
  subst r6. rewrite (bind_run _ _ _ _ _ E6').
  destruct (remove_temp_dir_run tmp w6) as (R7 & St7 & C7 & (rest7 & S7) & F7).
  cbv zeta in *.
  split; [exact R7|].
  split. { rewrite C7, C6, C5. now rewrite <- !app_assoc. }
  split.
  { exists rest7. rewrite S7, S6, S5. now rewrite <- !app_assoc. }
  rewrite F7, H6, F5. f_equal. f_equal. apply St5.
Qed.

(** ** The ways [execute] stops before the capture *)

(** X17: when an encoder is required and its path is not usable (not
    set, missing, or a directory), [execute] returns after two errors, the
    one of the validation and its own; attributes, host and trace are
    untouched. *)
Theorem execute_unusable_encoder_path_aborts (output_dir filename : string) (padding : Z)
    (show_ornaments show_in_viewer overwrite : bool) (w : World) :
  requires_ffmpeg (w_self w) = true ->
  ~ ffmpeg_usable w ->
  let w' := snd (execute output_dir filename padding show_ornaments show_in_viewer
                   overwrite w) in
  fst (execute output_dir filename padding show_ornaments show_in_viewer overwrite w)
  = Ret tt /\
  only_logs w w' /\
  exists reason,
    In reason ["ffmpeg executable path not set";
               "ffmpeg executable path does not exists: " ++ _ffmpeg_path (w_self w);
               "Invalid ffmpeg path: " ++ _ffmpeg_path (w_self w)] /\
    w_signal w'
    = app (w_signal w)
        ["[ERROR] " ++ reason;
         "[ERROR] ffmpeg executable is not configured. See script editor for details."].
Proof.
  intros Rq Nu w'. subst w'.
  unfold execute. rewrite (bind_run get_self _ w w (w_self w) eq_refl). rewrite Rq.
  assert (V : exists reason,
            In reason ["ffmpeg executable path not set";
                       "ffmpeg executable path does not exists: " ++ _ffmpeg_path (w_self w);
                       "Invalid ffmpeg path: " ++ _ffmpeg_path (w_self w)] /\
            validate_ffmpeg w = (Ret false, snd (log_error reason w))).
  { unfold validate_ffmpeg.
    rewrite (bind_run get_self _ w w (w_self w) eq_refl).
    destruct (PyStr.truthy (_ffmpeg_path (w_self w))) eqn:T; cbn [negb].
    - rewrite (bind_run (os_path_exists (_ffmpeg_path (w_self w))) _ w w
                 (path_exists (files (w_host w)) (_ffmpeg_path (w_self w))) eq_refl).
      destruct (path_exists (files (w_host w)) (_ffmpeg_path (w_self w))) eqn:P; cbn [negb].
      + rewrite (bind_run (os_path_isdir (_ffmpeg_path (w_self w))) _ w w
                   (path_isdir (files (w_host w)) (_ffmpeg_path (w_self w))) eq_refl).
        destruct (path_isdir (files (w_host w)) (_ffmpeg_path (w_self w))) eqn:D.
        * eexists. split; [right; right; left; reflexivity|].
          erewrite bind_run; [reflexivity|].
          rewrite (surjective_pairing (log_error _ w)) at 1.
          now rewrite (proj1 (log_error_run _ w)).
        * exfalso. apply Nu. repeat split; assumption.
      + eexists. split; [right; left; reflexivity|].
        erewrite bind_run; [reflexivity|].
        rewrite (surjective_pairing (log_error _ w)) at 1.
        now rewrite (proj1 (log_error_run _ w)).
    - eexists. split; [left; reflexivity|].
      erewrite bind_run; [reflexivity|].
      rewrite (surjective_pairing (log_error _ w)) at 1.
      now rewrite (proj1 (log_error_run _ w)). }
  destruct V as (reason & In1 & V).
  rewrite (bind_run _ _ _ _ _ (bind_run _ _ _ _ _ V)). cbn [negb].
  destruct (log_error_run reason w) as (_ & L1 & S1).
  set (w1 := snd (log_error reason w)) in *.
  destruct (log_error_run
              "ffmpeg executable is not configured. See script editor for details." w1)
    as (R2 & L2 & S2).
  split; [exact R2|]. split; [eapply only_logs_trans; eauto|].
  exists reason. split; [exact In1|]. rewrite S2, S1, <- app_assoc. reflexivity.
Qed.

(** X18: when the check of the encoder path passes and the focused panel
    is no model panel, [execute] returns after the error of
    [get_viewport_panel] and its own, whatever the arguments; attributes,
    host and trace are untouched. *)
Theorem execute_without_viewport_aborts (output_dir filename : string) (padding : Z)
    (show_ornaments show_in_viewer overwrite : bool) (w : World) :
  (requires_ffmpeg (w_self w) = true -> ffmpeg_usable w) ->
  focus_model_editor (viewport (w_host w)) = None ->
  let w' := snd (execute output_dir filename padding show_ornaments show_in_viewer
                   overwrite w) in
  fst (execute output_dir filename padding show_ornaments show_in_viewer overwrite w)
  = Ret tt /\
  only_logs w w' /\
  w_signal w'
  = app (w_signal w)
      ["[ERROR] Failed to get active view";
       "[ERROR] An active viewport is not selected. Select the viewport and retry"].
Proof.
  intros Ff E w'. subst w'.
  unfold execute. rewrite (bind_run get_self _ w w (w_self w) eq_refl).
  assert (V : (if requires_ffmpeg (w_self w)
               then ok <- validate_ffmpeg ;; ret (negb ok) else ret false) w
              = (Ret false, w)).
  { destruct (requires_ffmpeg (w_self w)) eqn:Rq; [|reflexivity].
    destruct (Ff eq_refl) as (F1 & F2 & F3).
    rewrite (bind_run _ _ _ _ _ (validate_ffmpeg_ok w F1 F2 F3)). reflexivity. }
  rewrite (bind_run _ _ _ _ _ V).
  assert (P : get_viewport_panel w
              = (Ret None, snd (log_error "Failed to get active view" w))).
  { unfold get_viewport_panel, cmds_getPanel_withFocus, cmds_modelPanel_modelEditor,
      try_except.
    rewrite (bind_run (h <- get_host ;; ret (panel_with_focus (viewport h))) _ w w
               (panel_with_focus (viewport (w_host w))) eq_refl).
    rewrite (bind_raise _ _ w w (RuntimeError "Object is not a model panel")).
    2:{ rewrite (bind_run get_host _ w w (w_host w) eq_refl). now rewrite E. }
    erewrite bind_run; [reflexivity|].
    rewrite (surjective_pairing (log_error _ w)) at 1.
    now rewrite (proj1 (log_error_run _ w)). }
  rewrite (bind_run _ _ _ _ _ P). cbv zeta.
  destruct (log_error_run "Failed to get active view" w) as (_ & L1 & S1).
  set (w1 := snd (log_error "Failed to get active view" w)) in *.
  destruct (log_error_run
              "An active viewport is not selected. Select the viewport and retry" w1)
    as (R2 & L2 & S2).
  split; [exact R2|]. split; [eapply only_logs_trans; eauto|].
  rewrite S2, S1, <- app_assoc. reflexivity.
Qed.

Lemma create_flags_short (data : list bool) (w : World) :
  (length data < length VIEWPORT_VISIBILITY_LOOKUP)%nat ->
  create_viewport_visibility_flags (Some data) w
  = (Raise (IndexError "list index out of range"), w).
Proof.
  intros L. unfold create_viewport_visibility_flags.
  rewrite visibility_flags_loop_combine;
    [| exact flag_names_distinct | apply Nat.le_0_l].
  cbn [plus].
  destruct (Nat.leb_spec (length VIEWPORT_VISIBILITY_LOOKUP) (length data)) as [G|G];
    [lia | reflexivity].
Qed.

(** X19: with the checks passed, a capture camera that is no camera of
    the scene makes [execute] return after the options and one error that
    names the camera are logged; attributes, host and trace are
    untouched. *)
Theorem execute_unknown_camera_aborts (output_dir filename : string) (padding : Z)
    (show_ornaments show_in_viewer overwrite : bool) (w : World) (ed c : string) :
  preflight_ok w output_dir filename overwrite ed ->
  capture_camera w = Some c ->
  ~ In c (cameras (scene (w_host w))) ->
  let options := capture_options w output_dir filename padding show_ornaments
                   show_in_viewer overwrite in
  let w' := snd (execute output_dir filename padding show_ornaments show_in_viewer
                   overwrite w) in
  fst (execute output_dir filename padding show_ornaments show_in_viewer overwrite w)
  = Ret tt /\
  only_logs w w' /\
  w_signal w'
  = app (w_signal w)
      [options_line w options; "[ERROR] Camera does not exists: " ++ c].
Proof.
  intros Pre Cam Out options w'. subst w'.
  rewrite (execute_to_capture _ _ padding show_ornaments show_in_viewer _ w ed Pre).
  fold options.
  destruct (log_output_run (options_line w options) w) as (_ & L & Sg).
  set (w1 := snd (log_output (options_line w options) w)) in *.
  destruct Pre as (_ & E & T & _).
  assert (E1 : focus_model_editor (viewport (w_host w1)) = Some ed)
    by (destruct L as (_ & -> & _); exact E).
  assert (T1 : PyStr.truthy (panel_with_focus (viewport (w_host w1))) = true)
    by (destruct L as (_ & -> & _); exact T).
  unfold capture_and_encode.
  rewrite (bind_run get_self _ w1 w1 (w_self w1) eq_refl).
  rewrite (bind_run _ _ _ _ _ (get_active_camera_ok w1 ed E1 T1)).
  fold (capture_camera w1). rewrite (capture_camera_only_logs _ _ L), Cam.
  rewrite (bind_run cmds_listCameras _ w1 w1 (cameras (scene (w_host w1))) eq_refl).
  cbn [PyStr.mem_opt fmt_opt].
  assert (Hs : w_host w1 = w_host w) by apply L. rewrite Hs.
  rewrite (proj2 (mem_not_In _ _) Out). cbn [negb].
  destruct (log_error_run ("Camera does not exists: " ++ c) w1) as (R2 & L2 & S2).
  split; [exact R2|]. split; [eapply only_logs_trans; eauto|].
  rewrite S2, Sg, <- app_assoc. reflexivity.
Qed.

(** X20: with the checks passed and a camera of the scene, stored
    visibility data that is not empty and shorter than the catalogue makes
    [execute] raise [IndexError] when the flags of the capture are built:
    the panel has been switched to the capture camera by then and is not
    switched back, and nothing is captured. *)
Theorem execute_short_visibility_raises (output_dir filename : string) (padding : Z)
    (show_ornaments show_in_viewer overwrite : bool) (w : World) (ed c : string) :
  preflight_ok w output_dir filename overwrite ed ->
  capture_camera w = Some c ->
  In c (cameras (scene (w_host w))) ->
  _visibility (w_self w) <> [] ->
  (length (_visibility (w_self w)) < length VIEWPORT_VISIBILITY_LOOKUP)%nat ->
  let options := capture_options w output_dir filename padding show_ornaments
                   show_in_viewer overwrite in
  let w' := snd (execute output_dir filename padding show_ornaments show_in_viewer
                   overwrite w) in
  fst (execute output_dir filename padding show_ornaments show_in_viewer overwrite w)
  = Raise (IndexError "list index out of range") /\
  w_calls w' = app (w_calls w) [CallLookThrough c (panel_with_focus (viewport (w_host w)))] /\
  panel_camera (viewport (w_host w')) = c /\
  files (w_host w') = files (w_host w) /\
  w_signal w' = app (w_signal w) [options_line w options].
Proof.
  intros Pre Cam InC Ne Short options w'. subst w'.
  rewrite (execute_to_capture _ _ padding show_ornaments show_in_viewer _ w ed Pre).
  fold options.
  destruct (log_output_run (options_line w options) w) as (_ & L & Sg).
  set (w0 := snd (log_output (options_line w options) w)) in *.
  destruct Pre as (_ & E & T & _).
  assert (Hs : w_host w0 = w_host w) by apply L.
  assert (Ss : w_self w0 = w_self w) by apply L.
  assert (Cs : w_calls w0 = w_calls w) by apply L.
  assert (E0 : focus_model_editor (viewport (w_host w0)) = Some ed) by (now rewrite Hs).
  assert (T0 : PyStr.truthy (panel_with_focus (viewport (w_host w0))) = true)
    by (now rewrite Hs).
  unfold capture_and_encode.
  rewrite (bind_run get_self _ w0 w0 (w_self w0) eq_refl).
  rewrite (bind_run _ _ _ _ _ (get_active_camera_ok w0 ed E0 T0)).
  fold (capture_camera w0). rewrite (capture_camera_only_logs _ _ L), Cam.
  rewrite (bind_run cmds_listCameras _ w0 w0 (cameras (scene (w_host w0))) eq_refl).
  cbn [PyStr.mem_opt].
  replace (cameras (scene (w_host w0))) with (cameras (scene (w_host w)))
    by (now rewrite Hs).
  rewrite (proj2 (mem_In _ _) InC). cbn [negb].
  destruct (set_active_camera_run c w0 ed E0 T0) as (w1 & R1 & M1 & F1 & Cm1 & Fl1).
  rewrite (bind_run _ _ _ _ _ R1).
  destruct (moved_editor _ _ _ _ _ M1 E0 T0) as (E1 & T1 & P1).
  assert (S1 : w_self w1 = w_self w0) by apply M1.
  rewrite (bind_run _ _ _ _ _ (get_viewport_visibility_ok w1 ed E1 T1)).
  rewrite (bind_run _ _ _ _ _ (create_flags_combine (snapshot (viewport (w_host w1))) w1
                                  (Nat.eq_le_incl _ _ (eq_sym (snapshot_length _))))).
  destruct (run_of_wp _ _ _ (get_visibility_wp w1 ed E1 T1)) as (rv & wv & Rv & -> & ->).
  rewrite (bind_run _ _ _ _ _ Rv).
  rewrite S1, Ss.
  destruct (_visibility (w_self w)) as [|b l] eqn:V; [contradiction|].
  rewrite (bind_raise _ _ _ _ _ (create_flags_short (b :: l) w1 Short)).
  cbn [fst snd].
  split; [reflexivity|].
  destruct M1 as (_ & C1 & Sg1).
  split. { rewrite C1, Cs, Hs. reflexivity. }
  split; [exact Cm1|]. split; [now rewrite F1, Hs|].
  rewrite Sg1, app_nil_r. exact Sg.
Qed.

(** ** The constructor *)

Lemma init_run (ffmpeg_path : option string) (log_to_maya : bool)
    (w : World) :
  0 < render_width (scene (w_host w)) ->
  0 < render_height (scene (w_host w)) ->
  init ffmpeg_path log_to_maya w
  = (Ret tt,
     {| w_self := fresh_instance ffmpeg_path log_to_maya (w_host w);
        w_host := w_host w;
        w_signal := w_signal w;
        w_script_editor := w_script_editor w;
        w_calls := w_calls w |}).
Proof.
  intros Hw Hh.
  apply Z.leb_gt in Hw, Hh.
  unfold init, set_ffmpeg_path, set_maya_logging_enabled, set_camera, set_resolution,
    preset_to_resolution, set_frame_range, resolve_frame_range, preset_to_frame_range,
    set_encoding, set_h264_settings, set_image_settings, set_visibility,
    preset_to_visibility, DEFAULT_CAMERA, DEFAULT_RESOLUTION, DEFAULT_FRAME_RANGE,
    DEFAULT_CONTAINER, DEFAULT_ENCODER, DEFAULT_H264_QUALITY, DEFAULT_H264_PRESET,
    DEFAULT_IMAGE_QUALITY, DEFAULT_VISIBILITY, DEFAULT_FFMPEG_PATH.
  destruct ffmpeg_path as [path|]; [destruct (PyStr.truthy path) eqn:T|].
  2:{ assert (path = "") as ->.
      { destruct (String.eqb_spec path ""); [assumption|].
        apply truthy_nonempty in n. congruence. }
      unfold fresh_instance; cbv - [Z.leb] in Hw, Hh |- *; rewrite Hw, Hh; reflexivity. }
  all: unfold fresh_instance; cbv - [Z.leb] in Hw, Hh |- *; rewrite Hw, Hh; reflexivity.
Qed.

(** X21: in a scene whose render size is positive, the constructor
    returns without a log line and without a command to the host, and the
    attributes it leaves do not depend on what was there before: the given
    encoder path (empty if none is given), no camera, the presets "Render"
    with the render size and render range of the scene at that moment, no
    visibility data, (mp4, h264), (High, fast) and image quality 100. *)
Theorem init_stores_defaults (ffmpeg_path : option string) (log_to_maya : bool)
    (w : World) :
  0 < render_width (scene (w_host w)) ->
  0 < render_height (scene (w_host w)) ->
  let w' := snd (init ffmpeg_path log_to_maya w) in
  fst (init ffmpeg_path log_to_maya w) = Ret tt /\
  w_self w' = fresh_instance ffmpeg_path log_to_maya (w_host w) /\
  w_host w' = w_host w /\
  w_signal w' = w_signal w /\
  w_script_editor w' = w_script_editor w /\
  w_calls w' = w_calls w.
Proof.
  intros Hw Hh w'. subst w'. rewrite (init_run ffmpeg_path log_to_maya w Hw Hh).
  cbn [fst snd w_self w_signal w_script_editor w_calls]. repeat split.
Qed.

Lemma init_stores_defaults_witness :
  let w := Sample.world_of (Sample.staged_self "Image" "tif") Sample.sample_host in
  w_self (snd (init (Some "bin/ffmpeg") true w)) = Sample.sample_self.
Proof.
  intros w.
  destruct (init_stores_defaults (Some "bin/ffmpeg") true w) as (_ & S & _);
    [reflexivity | reflexivity | exact S].
Defined.

(** ** What the setters keep *)

Lemma init_well_configured (ffmpeg_path : option string) (log_to_maya : bool) (h : Host) :
  0 < render_width (scene h) -> 0 < render_height (scene h) ->
  well_configured (fresh_instance ffmpeg_path log_to_maya h) h.
Proof.
  intros Hw Hh. unfold well_configured, fresh_instance, resolution_preset_ok,
    frame_range_preset_ok. self_simpl.
  split; [intros _; simpl; auto|]. split; [intros _; simpl; auto|].
  split; [eauto|]. split; [discriminate|].
  simpl. intuition lia.
Qed.

Ltac keeps :=
  msimpl; self_simpl; cbn [PyStr.truthy_opt]; splits;
  try assumption; try reflexivity; try lia; try discriminate.

Lemma call_keeps (s : Setter) (w : World) :
  0 < render_width (scene (w_host w)) -> 0 < render_height (scene (w_host w)) ->
  well_configured (w_self w) (w_host w) ->
  well_configured (w_self (snd (call s w))) (w_host w) /\
  w_host (snd (call s w)) = w_host w /\
  w_calls (snd (call s w)) = w_calls w.
Proof.
  intros Hw Hh (Rp & Fp & Wh & Cm & Ct & Hq & Hp & Iq).
  unfold well_configured, resolution_preset_ok, frame_range_preset_ok in *.
  destruct s as [p|en|cam|res|fr|ct enc|q pr|q|vis]; cbn [call].
  - unfold set_ffmpeg_path. msimpl. destruct p as [p|]; [destruct (PyStr.truthy p)|];
      keeps.
  - unfold set_maya_logging_enabled. keeps.
  - unfold set_camera, cmds_listCameras. msimpl.
    destruct cam as [c|]; cbn [PyStr.truthy_opt PyStr.mem_opt].
    + destruct (PyStr.truthy c) eqn:T; msimpl.
      * destruct (PyStr.mem c (cameras (scene (w_host w)))) eqn:I; msimpl;
          [|destruct (_log_to_maya (w_self w)); msimpl]; keeps.
        intros _. exists c. split; [reflexivity | now apply mem_In].
      * keeps. congruence.
    + keeps.
  - unfold set_resolution, preset_to_resolution. msimpl.
    destruct res as [name|width height].
    + destruct (String.eqb_spec name "Render") as [->|NR]; msimpl.
      * apply Z.leb_gt in Hw, Hh. rewrite Hw, Hh. keeps.
        { intros _. simpl. auto. }
        { apply Z.leb_gt in Hw, Hh. eauto. }
      * unfold Dict.has_key, PyStr.mem, Dict.keys, RESOLUTION_LOOKUP.
        cbn [map fst existsb Dict.get orb].
        destruct (String.eqb_spec name "Render") as [|_]; [contradiction|].
        destruct (String.eqb_spec name "HD 1080") as [->|N1]; cbn [orb].
        { msimpl. cbn. keeps; [intros _; simpl; auto | eexists; eexists; splits; eauto; lia]. }
        destruct (String.eqb_spec name "HD 720") as [->|N2]; cbn [orb].
        { msimpl. cbn. keeps; [intros _; simpl; auto | eexists; eexists; splits; eauto; lia]. }
        destruct (String.eqb_spec name "HD 540") as [->|N3]; cbn [orb].
        { msimpl. cbn. keeps; [intros _; simpl; auto | eexists; eexists; splits; eauto; lia]. }
        msimpl. self_simpl. destruct (_log_to_maya (w_self w)); keeps.
    + msimpl.
      destruct (Z.leb_spec width 0); cbn [orb];
        [|destruct (Z.leb_spec height 0)]; msimpl; self_simpl;
        try (destruct (_log_to_maya (w_self w))); keeps;
        eexists; eexists; splits; eauto.
  - unfold set_frame_range, resolve_frame_range, preset_to_frame_range. msimpl.
    destruct fr as [name|a b]; [|keeps].
    unfold FRAME_RANGE_PRESETS, PyStr.mem. cbn [existsb orb].
    destruct (String.eqb_spec name "Render") as [->|N1]; cbn [orb].
    { keeps. intros _. simpl. auto. }
    destruct (String.eqb_spec name "Playback") as [->|N2]; cbn [orb].
    { keeps. intros _. simpl. auto. }
    destruct (String.eqb_spec name "Animation") as [->|N3]; cbn [orb].
    { keeps. intros _. simpl. auto. }
    msimpl. self_simpl. destruct (_log_to_maya (w_self w)); keeps.
  - unfold set_encoding, VIDEO_ENCODER_LOOKUP, Dict.keys, PyStr.mem.
    cbn [map fst existsb Dict.get orb].
    destruct (String.eqb_spec ct "mov") as [->|N1]; cbn [orb negb].
    { destruct (existsb (String.eqb enc) ["h264"]); cbn [negb]; msimpl; self_simpl;
        try (destruct (_log_to_maya (w_self w))); keeps; cbn [In]; tauto. }
    destruct (String.eqb_spec ct "mp4") as [->|N2]; cbn [orb negb].
    { destruct (existsb (String.eqb enc) ["h264"]); cbn [negb]; msimpl; self_simpl;
        try (destruct (_log_to_maya (w_self w))); keeps; cbn [In]; tauto. }
    destruct (String.eqb_spec ct "Image") as [->|N3]; cbn [orb negb].
    { destruct (existsb (String.eqb enc) ["jpg"; "png"; "tif"]); cbn [negb]; msimpl;
        self_simpl;
        try (destruct (_log_to_maya (w_self w))); keeps; cbn [In]; tauto. }
    msimpl. self_simpl. destruct (_log_to_maya (w_self w)); keeps.
  - unfold set_h264_settings.
    destruct (PyStr.mem q (Dict.keys H264_QUALITIES)) eqn:Q; cbn [negb].
    + destruct (PyStr.mem pr H264_PRESETS) eqn:P; cbn [negb].
      * apply mem_In in Q, P. keeps.
      * msimpl. destruct (_log_to_maya (w_self w)); keeps.
    + msimpl. destruct (_log_to_maya (w_self w)); keeps.
  - unfold set_image_settings.
    destruct (Z.ltb_spec 0 q); cbn [andb]; [destruct (Z.leb_spec q 100)|];
      msimpl; self_simpl; try (destruct (_log_to_maya (w_self w))); keeps.
  - unfold set_visibility, preset_to_visibility.
    destruct vis as [name|data]; [|keeps].
    destruct name as [|a name']; [keeps|].
    set (name := String a name'). clearbody name.
    destruct (Dict.has_key name VIEWPORT_VISIBILITY_PRESETS); cbn [negb].
    + destruct (Dict.get name VIEWPORT_VISIBILITY_PRESETS); keeps.
    + msimpl. destruct (_log_to_maya (w_self w)); keeps.
Qed.

Lemma configured_keeps (calls : list Setter) (w : World) :
  0 < render_width (scene (w_host w)) -> 0 < render_height (scene (w_host w)) ->
  well_configured (w_self w) (w_host w) ->
  well_configured (w_self (configured calls w)) (w_host w) /\
  w_host (configured calls w) = w_host w /\
  w_calls (configured calls w) = w_calls w.
Proof.
  revert w. induction calls as [|s calls IH]; intros w Hw Hh V; [now auto|].
  destruct (call_keeps s w Hw Hh V) as (V1 & H1 & C1).
  change (configured (s :: calls) w) with (configured calls (snd (call s w))).
  rewrite <- H1 in Hw, Hh, V1.
  destruct (IH _ Hw Hh V1) as (V2 & H2 & C2).
  rewrite H1 in V2, H2. rewrite C1 in C2. auto.
Qed.

(** X22: an instance constructed in a scene with a positive render size
    and then configured by any sequence of setter calls, accepted or not,
    holds presets that the resolvers know, a stored size of two positive
    numbers, a camera that is unset, empty or a camera of the scene, a
    container of the table, an h264 quality and preset of the tables and an
    image quality from 1 to 100; the host is untouched and no command is
    issued. *)
Theorem setters_keep_instance_valid (ffmpeg_path : option string) (log_to_maya : bool)
    (calls : list Setter) (w : World) :
  0 < render_width (scene (w_host w)) ->
  0 < render_height (scene (w_host w)) ->
  let w' := configured calls (snd (init ffmpeg_path log_to_maya w)) in
  well_configured (w_self w') (w_host w) /\
  w_host w' = w_host w /\
  w_calls w' = w_calls w.
Proof.
  intros Hw Hh w'. subst w'.
  rewrite (init_run ffmpeg_path log_to_maya w Hw Hh). cbn [snd].
  set (w0 := {| w_self := fresh_instance ffmpeg_path log_to_maya (w_host w);
                w_host := w_host w; w_signal := w_signal w;
                w_script_editor := w_script_editor w; w_calls := w_calls w |}).
  apply (configured_keeps calls w0 Hw Hh).
  now apply init_well_configured.
Qed.

Lemma setters_keep_instance_valid_witness :
  let w := Sample.sample_world in
  let calls := [SetResolution (ResPair 0 480); SetEncoding "avi" "h264";
                SetH264Settings "High" "turbo"; SetImageSettings 0;
                SetCamera (Some "shotCam"); SetResolution (ResName "HD 720")] in
  well_configured (w_self (configured calls (snd (init None true w)))) (w_host w).
Proof.
  intros w calls. apply (setters_keep_instance_valid None true calls w); reflexivity.
Defined.



(** ** Writing the display flags and reading them back *)

Lemma apply_flags_combine (names : list string) (data : list bool) (old : string -> bool) :
  NoDup names ->
  (length names <= length data)%nat ->
  map (apply_flags (combine names data) old) names = firstn (length names) data.
Proof.
  revert data. induction names as [|n ns IH]; intros data ND L; [reflexivity|].
  destruct data as [|d ds]; [cbn in L; lia|].
  cbn [length] in L. inversion ND as [|? ? Nin ND']; subst.
  cbn [combine map length firstn]. f_equal.
  - unfold apply_flags. cbn [Dict.get]. now rewrite String.eqb_refl.
  - rewrite <- (IH ds ND' ltac:(lia)). apply map_ext_in. intros k Hk.
    unfold apply_flags. cbn [Dict.get].
    destruct (String.eqb_spec k n) as [->|_]; [contradiction | reflexivity].
Qed.

(** X23: with a model panel in focus and data that covers the
    catalogue, the dictionary that [create_viewport_visibility_flags] builds,
    written with [set_viewport_visibility], is read back by
    [get_viewport_visibility] as the same data, entry by entry, cut to the
    length of the catalogue. *)
Theorem viewport_visibility_round_trip (data : list bool) (w : World) (ed : string) :
  focus_model_editor (viewport (w_host w)) = Some ed ->
  PyStr.truthy (panel_with_focus (viewport (w_host w))) = true ->
  (length VIEWPORT_VISIBILITY_LOOKUP <= length data)%nat ->
  fst ((visibility_flags <- create_viewport_visibility_flags (Some data) ;;
        set_viewport_visibility ed visibility_flags ;;
        get_viewport_visibility) w)
  = Ret (Some (firstn (length VIEWPORT_VISIBILITY_LOOKUP) data)).
Proof.
  intros E T L.
  rewrite (bind_run _ _ _ _ _ (create_flags_combine data w L)).
  destruct (run_of_wp _ _ _ (set_viewport_visibility_wp (combine flag_names data) w ed E))
    as (r & w1 & R1 & -> & _ & St & _ & _ & Fl & _).
  rewrite (bind_run _ _ _ _ _ R1).
  assert (E1 : focus_model_editor (viewport (w_host w1)) = Some ed).
  { destruct St as (_ & _ & _ & _ & F). now rewrite F. }
  assert (T1 : PyStr.truthy (panel_with_focus (viewport (w_host w1))) = true).
  { destruct St as (_ & _ & _ & P & _). now rewrite P. }
  rewrite (get_viewport_visibility_ok w1 ed E1 T1). cbn [fst].
  do 2 f_equal. unfold snapshot. rewrite Fl.
  rewrite <- (map_map snd (apply_flags (combine flag_names data)
                             (editor_flags (viewport (w_host w))))).
  fold flag_names.
  replace (length VIEWPORT_VISIBILITY_LOOKUP) with (length flag_names)
    by (unfold flag_names; apply length_map).
  apply apply_flags_combine; [exact flag_names_distinct|].
  unfold flag_names. now rewrite length_map.
Qed.

Lemma viewport_visibility_round_trip_witness :
  fst ((visibility_flags <- create_viewport_visibility_flags (Some geo_vector) ;;
        set_viewport_visibility "modelEditor4" visibility_flags ;;
        get_viewport_visibility) Sample.sample_world)
  = Ret (Some geo_vector).
Proof.
  apply (viewport_visibility_round_trip geo_vector Sample.sample_world "modelEditor4");
    [reflexivity | reflexivity | vm_compute; lia].
Defined.

(** ** The properties of [execute] on the sample session *)

Ltac sample_ready :=
  unfold capture_ready, preflight_ok, ffmpeg_usable, resolution_preset_ok,
    frame_range_preset_ok;
  splits; try reflexivity; try discriminate; try (intros; reflexivity);
  try (intros _; cbn; tauto); try (cbn; tauto); try (vm_compute; lia).

Lemma staged_ready (container encoder : string) :
  In container ["mp4"; "mov"; "Image"] ->
  capture_ready (Sample.world_of (Sample.staged_self container encoder) Sample.sample_host)
    "out" "shot" false "modelEditor4" "shotCam".
Proof.
  intros [<-|[<-|[<-|[]]]]; sample_ready.
Qed.


Lemma execute_image_sequence_run_witness :
  let w := Sample.world_of (Sample.staged_self "Image" "png") Sample.sample_host in
  let w' := snd (execute "out" "shot" 4 true false false w) in
  length (w_calls w') = 5%nat /\
  files (w_host w') = ("out/shot.0000.png", false) :: files (w_host w).
Proof.
  intros w w'.
  destruct (execute_image_sequence_run "out" "shot" 4 true false false w
              "modelEditor4" "shotCam"
              (("out/shot.0000.png", false) :: files (w_host w)))
    as (_ & C & _ & F & _).
  - apply staged_ready. cbn. tauto.
  - reflexivity.
  - reflexivity.
  - fold w' in C, F. rewrite C. split; [reflexivity | exact F].
Defined.

Lemma staged_encoder_ready :
  encoder_ready (Sample.world_of (Sample.staged_self "mp4" "h264") Sample.sample_host).
Proof.
  split; [reflexivity|]. split; [left; cbn; tauto | cbn; tauto].
Qed.

Lemma execute_h264_order_of_commands_witness :
  let w := Sample.world_of (Sample.staged_self "mp4" "h264") Sample.sample_host in
  let w' := snd (execute "out" "shot" 0 true false false w) in
  skipn 5 (w_calls w')
  = [CallFfmpeg (h264_command "bin/ffmpeg" "24.0" "out/playblast_temp/shot.%04d.png" 20
                   "fast" "out/shot.mp4");
     CallRemoveTempDir "out/playblast_temp"].
Proof.
  intros w w'.
  destruct (execute_h264_order_of_commands "out" "shot" 0 true false false w
              "modelEditor4" "shotCam"
              (("out/playblast_temp/shot.0000.png", false) :: files (w_host w)))
    as (rate & crf & viewer & rest & Fr & G & _ & C & _ & _ & V & _).
  - apply staged_ready. cbn. tauto.
  - reflexivity.
  - reflexivity.
  - exact staged_encoder_ready.
  - reflexivity.
  - fold w' in C. rewrite C, (V eq_refl).
    injection Fr as <-. injection G as <-. reflexivity.
Defined.

Lemma execute_unsupported_encoder_cleans_up_witness :
  let w := Sample.world_of (Sample.staged_self "mp4" "png") Sample.sample_host in
  let w' := snd (execute "out" "shot" 4 true true false w) in
  skipn 5 (w_calls w') = [CallRemoveTempDir "out/playblast_temp"] /\
  files (w_host w') = files (w_host w).
Proof.
  intros w w'.
  destruct (execute_unsupported_encoder_cleans_up "out" "shot" 4 true true false w
              "modelEditor4" "shotCam"
              (("out/playblast_temp/shot.0000.png", false) :: files (w_host w)))
    as (_ & C & _ & F).
  - apply staged_ready. cbn. tauto.
  - reflexivity.
  - discriminate.
  - reflexivity.
  - fold w' in C, F. rewrite C, F. split; reflexivity.
Defined.

Lemma execute_unusable_encoder_path_aborts_witness :
  let w := Sample.world_of (Sample.self_with "bin" None [] "mp4" "h264")
             (Sample.host_with [("bin", true)] Sample.sample_scene) in
  w_signal (snd (execute "out" "shot" 4 true true false w))
  = ["[ERROR] Invalid ffmpeg path: bin";
     "[ERROR] ffmpeg executable is not configured. See script editor for details."].
Proof.
  intros w.
  destruct (execute_unusable_encoder_path_aborts "out" "shot" 4 true true false w)
    as (_ & _ & reason & _ & S).
  - reflexivity.
  - intros (_ & _ & D). discriminate D.
  - reflexivity.
Defined.

Lemma execute_without_viewport_aborts_witness :
  let outliner := {| panel_with_focus := "outlinerPanel1"; focus_model_editor := None;
                     panel_camera := "persp"; editor_flags := fun _ => false |} in
  let w := Sample.world_of Sample.sample_self
             (with_viewport Sample.sample_host outliner) in
  only_logs w (snd (execute "out" "shot" 4 true true false w)).
Proof.
  intros outliner w.
  destruct (execute_without_viewport_aborts "out" "shot" 4 true true false w)
    as (_ & L & _).
  - intros _. repeat split.
  - reflexivity.
  - exact L.
Defined.

Lemma execute_unknown_camera_aborts_witness :
  let w := Sample.world_of (Sample.self_with "bin/ffmpeg" (Some "renderCam") [] "mp4" "h264")
             Sample.sample_host in
  only_logs w (snd (execute "out" "shot" 4 true true false w)).
Proof.
  intros w.
  destruct (execute_unknown_camera_aborts "out" "shot" 4 true true false w
              "modelEditor4" "renderCam") as (_ & L & _).
  - sample_ready.
  - reflexivity.
  - cbn. intuition discriminate.
  - exact L.
Defined.

Lemma execute_short_visibility_raises_witness :
  let w := Sample.world_of (Sample.self_with "bin/ffmpeg" (Some "shotCam") [true; false]
                              "mp4" "h264")
             Sample.sample_host in
  let w' := snd (execute "out" "shot" 4 true true false w) in
  panel_camera (viewport (w_host w)) = "persp" /\
  panel_camera (viewport (w_host w')) = "shotCam" /\
  w_calls w' = [CallLookThrough "shotCam" "modelPanel4"].
Proof.
  intros w w'.
  destruct (execute_short_visibility_raises "out" "shot" 4 true true false w
              "modelEditor4" "shotCam") as (_ & C & P & _).
  - sample_ready.
  - reflexivity.
  - cbn. tauto.
  - discriminate.
  - cbn. lia.
  - split; [reflexivity|]. split; [exact P | exact C].
Defined.

(** ** The templates of directory and file name *)

Lemma prefix_app (t rest : string) : prefix t (t ++ rest) = true.
Proof.
  induction t as [|c t IH]; cbn; [now destruct rest|].
  destruct (Ascii.ascii_dec c c); [exact IH | contradiction].
Qed.

Lemma replace_from_skip (t old new rest : string) :
  PyStr.replace_from (String.length t) old new (t ++ rest)
  = PyStr.replace_from 0 old new rest.
Proof. induction t as [|c t IH]; cbn; [reflexivity | exact IH]. Qed.

Lemma replace_absent (old new s : string) :
  PyStr.contains old s = false -> PyStr.replace old new s = s.
Proof.
  unfold PyStr.replace. induction s as [|c s IH]; [reflexivity|].
  cbn [PyStr.contains PyStr.replace_from]. intros H.
  apply orb_false_iff in H. destruct H as [P C]. rewrite P, (IH C). reflexivity.
Qed.

Lemma replace_leading (c : ascii) (old new rest : string) :
  PyStr.contains (String c old) rest = false ->
  PyStr.replace (String c old) new (String c old ++ rest) = new ++ rest.
Proof.
  intros H. unfold PyStr.replace.
  change (String c old ++ rest) with (String c (old ++ rest)).
  cbn [PyStr.replace_from].
  change (String c (old ++ rest)) with (String c old ++ rest).
  rewrite prefix_app.
  replace (String.length (String c old) - 1)%nat with (String.length old)
    by (cbn [String.length]; lia).
  rewrite replace_from_skip. f_equal. now apply replace_absent.
Qed.

(** X24: a directory that starts with the token of the project and a
    file name that starts with the token of the scene, with no further
    token, are resolved to the project root, and to the scene name without
    its extension ("untitled" when the scene has no name), followed by the
    rest unchanged; without a token they are returned as they are.  The
    world is not changed. *)
Theorem resolve_output_templates (dir_rest file_rest : string) (w : World) :
  PyStr.contains "{project}" dir_rest = false ->
  PyStr.contains "{scene}" file_rest = false ->
  resolve_output_directory_path ("{project}" ++ dir_rest) w
  = (Ret (workspace_root (scene (w_host w)) ++ dir_rest), w) /\
  resolve_output_directory_path dir_rest w = (Ret dir_rest, w) /\
  resolve_output_filename ("{scene}" ++ file_rest) w
  = (Ret (scene_name (w_host w) ++ file_rest), w) /\
  resolve_output_filename file_rest w = (Ret file_rest, w).
Proof.
  intros Hd Hf. unfold scene_name.
  rewrite !resolve_output_directory_path_eq, !resolve_output_filename_eq.
  unfold resolved_directory, resolved_filename. rewrite Hd, Hf.
  assert (Cd : PyStr.contains "{project}" ("{project}" ++ dir_rest) = true).
  { change ("{project}" ++ dir_rest) with (String "{" ("project}" ++ dir_rest)).
    cbn [PyStr.contains].
    change (String "{" ("project}" ++ dir_rest)) with ("{project}" ++ dir_rest).
    now rewrite prefix_app. }
  assert (Cf : PyStr.contains "{scene}" ("{scene}" ++ file_rest) = true).
  { change ("{scene}" ++ file_rest) with (String "{" ("scene}" ++ file_rest)).
    cbn [PyStr.contains].
    change (String "{" ("scene}" ++ file_rest)) with ("{scene}" ++ file_rest).
    now rewrite prefix_app. }
  rewrite Cd, Cf.
  rewrite (replace_leading "{" "project}" _ _ Hd), (replace_leading "{" "scene}" _ _ Hf).
  repeat split.
Qed.

Lemma resolve_output_templates_witness :
  let w := Sample.sample_world in
  fst (resolve_output_directory_path "{project}/movies" w) = Ret "proj/movies" /\
  fst (resolve_output_filename "take_v01" w) = Ret "take_v01".
Proof.
  intros w.
  destruct (resolve_output_templates "/movies" "take_v01" w) as (D & _ & _ & F);
    [reflexivity | reflexivity |].
  split; [exact (f_equal fst D) | exact (f_equal fst F)].
Defined.

(** ** The dialog *)




